(** * Profile classification, content synthesis, weekly scheduling and the post store

    A shallow embedding of [business_analyzer.py] (the keyword classifier),
    [content_generator.py] (templates, hashtags, engagement estimate, best
    posting time, post generation, weekly schedule), of the post operations
    of [data_storage.py] and of the routes of [app.py] that schedule, store,
    edit and delete posts, followed by the properties proved about them.

    Conventions.
    - A Python [str] is a [string] (its UTF-8 bytes); the keywords, day names
      and table keys of the program are ASCII.  [str.lower], which acts on
      all of Unicode, is a parameter of the classifier.
    - A Python [dict] is an association list in insertion order, since the
      classifier and the schedule depend on iteration order.
    - A Python exception is a value of [Py.exn]; code that can raise returns
      a [Py.result].
    - The module-level generator of [random] is an explicit source [Py.rng]
      threaded through the calls.
    - A Python [float] is a binary64 [float] of the kernel.
    - A JSON file is its decoded content, passed to and returned by the
      operations that read and write it; the readings of the clock and the
      identifiers drawn are arguments. *)

From Stdlib Require Import String Ascii List ZArith Bool Arith Lia.
From Stdlib Require Import Floats Uint63 Permutation.
Import ListNotations.

Local Open Scope string_scope.
Local Open Scope list_scope.

(* ================================================================== *)
(** ** Python values and built-ins used by the program *)
(* ================================================================== *)

Module Py.

(** The exceptions the modelled code can raise. *)
Inductive exn : Type :=
| KeyError (key : string)
| ValueError (msg : string)
| IndexError (msg : string)
| OverflowError (msg : string).

Inductive result (A : Type) : Type :=
| Ok (a : A)
| Raise (e : exn).
Arguments Ok {A} a.
Arguments Raise {A} e.

Definition bind {A B} (r : result A) (k : A -> result B) : result B :=
  match r with
  | Ok a => k a
  | Raise e => Raise e
  end.

(** *** dict: insertion-ordered association list *)

Definition dict (V : Type) : Type := list (string * V).

(** [d.get(k)] *)
Fixpoint dict_get {V} (k : string) (d : dict V) : option V :=
  match d with
  | [] => None
  | (k', v) :: d' => if String.eqb k k' then Some v else dict_get k d'
  end.

(** [d.get(k, default)] *)
Definition dict_get_default {V} (k : string) (default : V) (d : dict V) : V :=
  match dict_get k d with
  | Some v => v
  | None => default
  end.

(** [d[k]] *)
Definition dict_item {V} (k : string) (d : dict V) : result V :=
  match dict_get k d with
  | Some v => Ok v
  | None => Raise (KeyError k)
  end.

(** [d[k] = v]: an existing key keeps its position, a new key goes last. *)
Fixpoint dict_set {V} (k : string) (v : V) (d : dict V) : dict V :=
  match d with
  | [] => [(k, v)]
  | (k', v') :: d' =>
      if String.eqb k k' then (k, v) :: d' else (k', v') :: dict_set k v d'
  end.

Definition dict_keys {V} (d : dict V) : list string := map fst d.

(** *** str *)

(** [kw in s] for two strings: [kw] occurs in [s] as a substring. *)
Fixpoint str_in (kw s : string) : bool :=
  String.prefix kw s
  || match s with
     | EmptyString => false
     | String _ s' => str_in kw s'
     end.

(** [sep.join(l)] *)
Fixpoint join (sep : string) (l : list string) : string :=
  match l with
  | [] => ""
  | [x] => x
  | x :: l' => x ++ sep ++ join sep l'
  end.

Definition is_upper (c : ascii) : bool :=
  let n := nat_of_ascii c in (65 <=? n)%nat && (n <=? 90)%nat.

Definition is_lower (c : ascii) : bool :=
  let n := nat_of_ascii c in (97 <=? n)%nat && (n <=? 122)%nat.

Definition lower_ascii (c : ascii) : ascii :=
  if is_upper c then ascii_of_nat (nat_of_ascii c + 32) else c.

Definition upper_ascii (c : ascii) : ascii :=
  if is_lower c then ascii_of_nat (nat_of_ascii c - 32) else c.

(** [s.lower()] for a string [s] of ASCII characters: the letters A to Z are
    lowered and nothing else is.  [str.lower] also lowers letters outside
    ASCII (U+212A, the Kelvin sign, becomes k), so this function stands for
    it on ASCII strings only; the classifier takes the lower-casing as a
    parameter. *)
Fixpoint lower (s : string) : string :=
  match s with
  | EmptyString => EmptyString
  | String c s' => String (lower_ascii c) (lower s')
  end.

(** [s.title()], on the ASCII letters: a letter that follows a non-letter
    is upper-cased, any other letter is lower-cased. *)
Fixpoint title_from (prev_cased : bool) (s : string) : string :=
  match s with
  | EmptyString => EmptyString
  | String c s' =>
      let cased := is_upper c || is_lower c in
      String (if prev_cased then lower_ascii c else upper_ascii c)
             (title_from cased s')
  end.

Definition title (s : string) : string := title_from false s.

(** *** list *)

(** [x in l] for a list of strings. *)
Fixpoint mem (x : string) (l : list string) : bool :=
  match l with
  | [] => false
  | y :: l' => String.eqb x y || mem x l'
  end.

(** [l.index(x)]: the position of the first occurrence; [None] stands for
    the [ValueError] of an absent element. *)
Fixpoint index (x : string) (l : list string) : option nat :=
  match l with
  | [] => None
  | y :: l' =>
      if String.eqb x y then Some O
      else match index x l' with
           | Some i => Some (S i)
           | None => None
           end
  end.

(** The truth value of a list: [if l:] holds for a list that is neither
    [None] nor empty. *)
Definition truthy {A} (l : list A) : bool :=
  match l with
  | [] => false
  | _ :: _ => true
  end.

(** [l[:n]]: a negative bound counts from the end. *)
Definition slice_to {A} (l : list A) (n : Z) : list A :=
  if (0 <=? n)%Z then firstn (Z.to_nat n) l
  else firstn (Z.to_nat (Z.of_nat (length l) + n)) l.

(** [l[i]] for [0 <= i]. *)
Definition item {A} (l : list A) (i : nat) : result A :=
  match nth_error l i with
  | Some x => Ok x
  | None => Raise (IndexError "list index out of range")
  end.

(** [max(d, key=d.get)]: the keys are visited in insertion order and the
    running maximum is replaced only by a strictly larger value, so the
    first key with the largest value wins. *)
Fixpoint max_from (best : string) (best_v : nat) (rest : dict nat) : string :=
  match rest with
  | [] => best
  | (k, v) :: rest' =>
      if (best_v <? v)%nat then max_from k v rest' else max_from best best_v rest'
  end.

Definition max_key (d : dict nat) : result string :=
  match d with
  | [] => Raise (ValueError "max() arg is an empty sequence")
  | (k, v) :: rest => Ok (max_from k v rest)
  end.

(** *** random *)

(** The random source: the script of the draws still to come.  Each call of
    [randbelow n] consumes one entry and reduces it below [n]; every run of
    the generator of [random] is one such script. *)
Definition rng : Type := list nat.

Definition randbelow (n : nat) (g : rng) : nat * rng :=
  match g with
  | [] => (O, [])
  | x :: g' => (x mod n, g')
  end.

(** A computation that draws from the random source and may raise. *)
Definition M (A : Type) : Type := rng -> result (A * rng).

Definition ret {A} (a : A) : M A := fun g => Ok (a, g).

Definition raise {A} (e : exn) : M A := fun _ => Raise e.

Definition mbind {A B} (m : M A) (k : A -> M B) : M B :=
  fun g =>
    match m g with
    | Ok (a, g') => k a g'
    | Raise e => Raise e
    end.

Definition lift {A} (r : result A) : M A :=
  fun g =>
    match r with
    | Ok a => Ok (a, g)
    | Raise e => Raise e
    end.

(** [random.choice(seq)] *)
Definition choice {A} (seq : list A) : M A :=
  fun g =>
    match seq with
    | [] => Raise (IndexError "Cannot choose from an empty sequence")
    | _ =>
        let (j, g') := randbelow (length seq) g in
        match nth_error seq j with
        | Some x => Ok (x, g')
        | None => Raise (IndexError "list index out of range")
        end
    end.

(** [pool[j] = x] *)
Fixpoint set_nth {A} (j : nat) (x : A) (pool : list A) : list A :=
  match pool, j with
  | [], _ => []
  | _ :: pool', O => x :: pool'
  | y :: pool', S j' => y :: set_nth j' x pool'
  end.

(** The selection loop of [random.sample]: at step [i] an index below
    [n - i] is drawn, the element there is taken, and the last live element
    of the pool is moved into its place.  [n] is the number of live
    elements. *)
Fixpoint sample_loop {A} (k n : nat) (pool : list A) (g : rng) : list A * rng :=
  match k with
  | O => ([], g)
  | S k' =>
      let (j, g') := randbelow n g in
      match nth_error pool j, nth_error pool (n - 1) with
      | Some x, Some last =>
          let (rest, g'') := sample_loop k' (n - 1) (set_nth j last pool) g' in
          (x :: rest, g'')
      | _, _ => ([], g')
      end
  end.

(** [random.sample(population, k)].  CPython selects through a set of
    chosen indices instead of a pool when the population is larger than 21
    (for [k > 5], larger than 21 + 4 ** ceil(log(3k, 4))); both select [k]
    distinct positions, and the populations of this program have at most 16
    elements. *)
Definition sample {A} (population : list A) (k : Z) : M (list A) :=
  fun g =>
    if ((0 <=? k) && (k <=? Z.of_nat (length population)))%Z then
      Ok (sample_loop (Z.to_nat k) (length population) population g)
    else Raise (ValueError "Sample larger than population or is negative").

End Py.

Notation "x <- m ;; k" := (Py.mbind m (fun x => k))
  (at level 61, m at next level, right associativity).

(* ================================================================== *)
(** ** business_analyzer.py *)
(* ================================================================== *)

Module BusinessAnalyzer.
Import Py.

(** [self.industry_keywords] *)
Definition industry_keywords : dict (list string) :=
  [ ("fitness", ["gym"; "fitness"; "workout"; "training"; "exercise"; "health club"; "personal trainer"]);
    ("beauty", ["salon"; "spa"; "beauty"; "hair"; "nail"; "massage"; "facial"; "cosmetic"]);
    ("food", ["restaurant"; "cafe"; "coffee"; "dining"; "food"; "bakery"; "catering"; "bistro"]);
    ("retail", ["shop"; "store"; "boutique"; "retail"; "fashion"; "clothing"; "accessories"]);
    ("healthcare", ["medical"; "dental"; "clinic"; "doctor"; "healthcare"; "therapy"; "wellness"]);
    ("education", ["school"; "academy"; "training"; "education"; "learning"; "course"; "tutor"]);
    ("professional", ["consulting"; "legal"; "accounting"; "financial"; "insurance"; "real estate"]);
    ("automotive", ["auto"; "car"; "garage"; "mechanic"; "repair"; "dealership"; "vehicle"]);
    ("entertainment", ["entertainment"; "event"; "party"; "music"; "venue"; "club"; "theater"]) ].

(** [self.tone_indicators] *)
Definition tone_indicators : dict (list string) :=
  [ ("professional", ["expert"; "professional"; "certified"; "licensed"; "quality"; "experience"]);
    ("friendly", ["friendly"; "welcome"; "family"; "community"; "caring"; "personal"; "warm"]);
    ("casual", ["fun"; "easy"; "simple"; "relaxed"; "comfortable"; "laid-back"; "chill"]);
    ("premium", ["luxury"; "premium"; "exclusive"; "high-end"; "elite"; "sophisticated"; "upscale"]) ].

(** [sum(1 for keyword in keywords if keyword in text)] *)
Definition keyword_score (keywords : list string) (text : string) : nat :=
  length (filter (fun keyword => str_in keyword text) keywords).

(** The scoring loop shared by [_classify_industry] and [_analyze_tone]:
    a bucket enters the score dict only when its score is positive. *)
Definition score_buckets (buckets : dict (list string)) (text : string) : dict nat :=
  fold_left
    (fun scores (entry : string * list string) =>
       let (name, keywords) := entry in
       let score := keyword_score keywords text in
       if (0 <? score)%nat then dict_set name score scores else scores)
    buckets [].

Section Classifier.

(** [str.lower]: the string [s.lower()] for every string [s].  The
    classifier is modelled, and its properties are proved, for whatever
    this function is. *)
Variable str_lower : string -> string.

(** [all_text = text + ' ' + ' '.join(services).lower()] *)
Definition all_text (text : string) (services : list string) : string :=
  text ++ " " ++ str_lower (join " " services).

Definition _classify_industry (text : string) (services : list string) : result string :=
  let industry_scores := score_buckets industry_keywords (all_text text services) in
  match industry_scores with
  | _ :: _ => max_key industry_scores
  | [] => Ok "general"
  end.

End Classifier.

Definition _analyze_tone (text : string) : result string :=
  let tone_scores := score_buckets tone_indicators text in
  match tone_scores with
  | _ :: _ => max_key tone_scores
  | [] => Ok "professional"
  end.

End BusinessAnalyzer.

(* ================================================================== *)
(** ** content_generator.py *)
(* ================================================================== *)

Module ContentGenerator.
Import Py.

(** One entry of [self.industry_content]. *)
Record IndustryData : Type := {
  offers : list string;
  tips : list string;
  value_props : list string;
  hashtags : list string
}.

(** The keys of [business_profile] the generator reads; an absent key is
    [None].  [contact_phone] is [business_profile['contact_info']['phone']]. *)
Record BusinessProfile : Type := {
  industry : option string;
  business_name : option string;
  contact_phone : option string
}.

(** The keys of [post_preferences]. *)
Record PostPreferences : Type := {
  tone : option string;
  frequency : option Z;
  post_types : option (list string)
}.

(** The keys of an industry news item. *)
Record NewsItem : Type := {
  headline : option string;
  source : option string
}.

(** The dict returned by [_estimate_engagement]. *)
Record Engagement : Type := {
  estimated_likes : Z;
  estimated_comments : Z;
  estimated_shares : Z;
  engagement_score : string
}.

(** A generated post; [news_source] is present on insight posts only. *)
Record Post : Type := {
  post_content : string;
  post_hashtags : list string;
  post_type : string;
  post_tone : string;
  post_industry : string;
  call_to_action : string;
  news_source : option string;
  estimated_engagement : Engagement;
  best_time_to_post : string
}.

(** [self.post_templates] *)
Definition post_templates : dict (dict (list string)) :=
  [ ("promo",
      [ ("professional",
          [ "We're excited to announce {offer}! {business_name} is committed to providing {value_prop}. {call_to_action} {contact_info}";
            "Limited time offer: {offer}. Experience the {business_name} difference. {call_to_action}";
            "Special promotion alert! {offer} at {business_name}. {value_prop} {call_to_action}" ]);
        ("friendly",
          [ "Hey everyone! 🎉 We've got something special for you: {offer}! Come see us at {business_name} and {value_prop}. {call_to_action}";
            "Guess what? {offer} is here! 😊 We can't wait to see you at {business_name}. {call_to_action}";
            "Friends, we're so excited to share {offer} with you! {business_name} is all about {value_prop}. {call_to_action}" ]);
        ("casual",
          [ "Yo! {offer} just dropped! 🔥 Come through {business_name} and check it out. {call_to_action}";
            "New deal alert! {offer} - because you deserve the best. {call_to_action}";
            "PSA: {offer} is happening now! Don't sleep on this one. {call_to_action}" ]);
        ("premium",
          [ "Exclusive opportunity: {offer}. Discover the luxury experience at {business_name}. {value_prop} {call_to_action}";
            "Elevate your experience with {offer}. {business_name} - where excellence meets sophistication. {call_to_action}";
            "Premium members, this is for you: {offer}. Experience unparalleled {value_prop} at {business_name}." ]) ]);
    ("tip",
      [ ("professional",
          [ "Professional tip: {tip_content}. At {business_name}, we believe in sharing knowledge to help you {benefit}. {call_to_action}";
            "Industry insight: {tip_content} This is why at {business_name}, we focus on {value_prop}. {call_to_action}";
            "Expert advice: {tip_content} Trust {business_name} for professional {industry} guidance." ]);
        ("friendly",
          [ "Quick tip from your friends at {business_name}: {tip_content} 💡 We love helping you {benefit}! {call_to_action}";
            "Here's something helpful: {tip_content} ✨ That's just one way we care for our {business_name} family! {call_to_action}";
            "Friendly reminder: {tip_content} 😊 We're always here to help at {business_name}!" ]);
        ("casual",
          [ "Pro tip: {tip_content} 💯 That's the kind of real talk you get from {business_name}. {call_to_action}";
            "Life hack: {tip_content} You're welcome! 😎 More tips coming from your crew at {business_name}.";
            "Real talk: {tip_content} That's how we roll at {business_name}. {call_to_action}" ]);
        ("premium",
          [ "Expert insight: {tip_content} This level of expertise is what distinguishes {business_name}. {call_to_action}";
            "Exclusive knowledge: {tip_content} Elevate your {industry} experience with {business_name}.";
            "Professional mastery: {tip_content} Discover the {business_name} advantage." ]) ]);
    ("update",
      [ ("professional",
          [ "Update from {business_name}: {update_content}. We're committed to {value_prop} and keeping you informed. {call_to_action}";
            "Business update: {update_content} Thank you for your continued trust in {business_name}. {call_to_action}";
            "Important notice: {update_content} {business_name} remains dedicated to serving you with excellence." ]);
        ("friendly",
          [ "Hey everyone! Quick update from the {business_name} family: {update_content} 😊 {call_to_action}";
            "Update time! {update_content} Thanks for being part of the {business_name} community! 💙 {call_to_action}";
            "Just wanted to let you know: {update_content} Love you all! - The {business_name} team ❤️" ]);
        ("casual",
          [ "What's up! Quick update: {update_content} Keep doing you! 🤘 - {business_name}";
            "Update drop: {update_content} Thanks for rolling with us! 🔥 {call_to_action}";
            "Heads up: {update_content} Much love from {business_name}! ✌️" ]);
        ("premium",
          [ "Exclusive update for our valued clients: {update_content} {business_name} continues to set the standard for excellence.";
            "Important announcement: {update_content} Your luxury experience at {business_name} remains our priority.";
            "Distinguished clients, please note: {update_content} {business_name} - your premier destination." ]) ]);
    ("insight",
      [ ("professional",
          [ "Industry insight: {insight_content} At {business_name}, we stay ahead of trends to better serve you. {call_to_action}";
            "Market analysis: {insight_content} This is why choosing {business_name} makes a difference. {call_to_action}";
            "Professional perspective: {insight_content} Trust {business_name} to keep you informed and ahead." ]);
        ("friendly",
          [ "Interesting news! {insight_content} 🤓 We love staying on top of trends for our {business_name} family! {call_to_action}";
            "Did you know? {insight_content} ✨ That's why we're always evolving at {business_name}! {call_to_action}";
            "Cool industry update: {insight_content} 😎 We're always learning for you at {business_name}!" ]);
        ("casual",
          [ "FYI: {insight_content} 📰 That's why {business_name} stays fresh and relevant! {call_to_action}";
            "Industry tea: {insight_content} ☕ We keep our finger on the pulse at {business_name}!";
            "Real industry talk: {insight_content} 💯 {business_name} keeps it 100 with the latest!" ]);
        ("premium",
          [ "Market intelligence: {insight_content} {business_name} leverages industry insights for your advantage.";
            "Exclusive industry analysis: {insight_content} Discover how {business_name} stays at the forefront.";
            "Strategic insight: {insight_content} {business_name} - where expertise meets innovation." ]) ]) ].

Definition industry_content : dict IndustryData :=
  [ ("fitness",
      {| offers :=
           [ "50% off personal training sessions this month";
             "Free fitness assessment with membership signup";
             "Buy 10 classes, get 2 free";
             "New member special: First month for $39";
             "Partner workout packages available" ];
         tips :=
           [ "Stay hydrated - aim for 8 glasses of water daily";
             "Warm up before workouts to prevent injury";
             "Rest days are just as important as workout days";
             "Focus on form over speed for better results";
             "Set realistic goals and celebrate small wins" ];
         value_props :=
           [ "helping you achieve your fitness goals";
             "creating a supportive fitness community";
             "providing expert guidance and motivation";
             "offering flexible workout options";
             "building healthy lifestyle habits" ];
         hashtags :=
           [ "#fitness";
             "#gym";
             "#workout";
             "#health";
             "#motivation";
             "#personaltraining";
             "#fitnesscommunity" ] |});
    ("beauty",
      {| offers :=
           [ "20% off all facial treatments this week";
             "Bridal package deal - hair, makeup, and nails";
             "Refer a friend and both get 15% off";
             "New client special: $99 spa day package";
             "Loyalty program: 10th service free" ];
         tips :=
           [ "Always remove makeup before bed";
             "Use SPF daily, even in winter";
             "Deep condition your hair weekly";
             "Exfoliate 2-3 times per week for glowing skin";
             "Schedule regular trims to keep hair healthy" ];
         value_props :=
           [ "enhancing your natural beauty";
             "providing relaxing spa experiences";
             "using high-quality, safe products";
             "helping you feel confident and beautiful";
             "creating personalized beauty solutions" ];
         hashtags :=
           [ "#beauty";
             "#spa";
             "#skincare";
             "#salon";
             "#selfcare";
             "#beautytips";
             "#glowup" ] |});
    ("food",
      {| offers :=
           [ "Happy hour: 50% off appetizers 3-6pm";
             "Weekend brunch special: $15 bottomless mimosas";
             "Family dinner deal: Kids eat free Sundays";
             "Date night package: Dinner for two $49";
             "Catering 20% off for orders over $200" ];
         tips :=
           [ "Try new flavors - expand your palate";
             "Fresh, local ingredients make all the difference";
             "Pair wines with complementary dishes";
             "Save room for dessert - life's too short";
             "Share dishes to try more variety" ];
         value_props :=
           [ "serving fresh, locally-sourced ingredients";
             "creating memorable dining experiences";
             "bringing people together over great food";
             "supporting local farmers and suppliers";
             "crafting dishes with passion and care" ];
         hashtags :=
           [ "#restaurant";
             "#food";
             "#dining";
             "#localfood";
             "#freshingredients";
             "#foodie";
             "#delicious" ] |});
    ("general",
      {| offers :=
           [ "New customer discount: 20% off first service";
             "Loyalty rewards program now available";
             "Refer a friend and save";
             "Seasonal promotion: Limited time only";
             "Bundle deals available" ];
         tips :=
           [ "Quality service makes all the difference";
             "Building relationships is key to business success";
             "Customer satisfaction is our top priority";
             "Continuous improvement drives excellence";
             "Local businesses strengthen communities" ];
         value_props :=
           [ "providing exceptional customer service";
             "delivering quality results every time";
             "supporting our local community";
             "building lasting relationships";
             "exceeding customer expectations" ];
         hashtags :=
           [ "#business";
             "#service";
             "#quality";
             "#community";
             "#local";
             "#customerservice" ] |}) ].

Definition cta_options : list string :=
  [ "Book now!";
    "Call to schedule your appointment.";
    "Visit us today!";
    "DM us for more info.";
    "Link in bio to book online.";
    "Stop by or give us a call!";
    "Schedule online or call us.";
    "Don't wait - spaces are limited!";
    "Contact us to learn more.";
    "Book your spot today!" ].

Definition days : list string :=
  [ "monday"; "tuesday"; "wednesday"; "thursday"; "friday"; "saturday"; "sunday" ].

(** *** str.format *)

(** [template.format] applied to the keywords [content_vars], for templates whose replacement
    fields are plain names, [{name}], as all templates of the program are
    (no doubled braces, conversions or format specifications).  [field] is
    the name being read, when the scan is inside braces.  A name that is
    not a key raises [KeyError]. *)
Fixpoint format_from (template : string) (field : option string)
         (content_vars : dict string) : result string :=
  match template with
  | EmptyString =>
      match field with
      | None => Ok EmptyString
      | Some _ => Raise (ValueError "expected '}' before end of string")
      end
  | String c template' =>
      match field with
      | None =>
          if Ascii.eqb c "{" then format_from template' (Some EmptyString) content_vars
          else if Ascii.eqb c "}" then
            Raise (ValueError "Single '}' encountered in format string")
          else bind (format_from template' None content_vars)
                    (fun rest => Ok (String c rest))
      | Some name =>
          if Ascii.eqb c "}" then
            bind (dict_item name content_vars)
                 (fun value =>
                    bind (format_from template' None content_vars)
                         (fun rest => Ok (value ++ rest)%string))
          else format_from template' (Some (name ++ String c EmptyString)%string) content_vars
      end
  end.

Definition format (template : string) (content_vars : dict string) : result string :=
  format_from template None content_vars.

(** *** _generate_hashtags *)

Definition type_hashtags : dict (list string) :=
  [ ("promo", ["#deal"; "#offer"; "#special"; "#save"]);
    ("tip", ["#tips"; "#advice"; "#howto"; "#expert"]);
    ("update", ["#news"; "#update"; "#announcement"]);
    ("insight", ["#trends"; "#insights"; "#industry"; "#knowledge"]) ].

Definition general_hashtags : list string :=
  ["#local"; "#smallbusiness"; "#community"].

Definition _generate_hashtags (base_hashtags : list string) (post_type : string)
  : M (list string) :=
  let hashtags := base_hashtags in
  let hashtags := hashtags ++ dict_get_default post_type [] type_hashtags in
  let hashtags := hashtags ++ general_hashtags in
  sample hashtags (Z.min 8 (Z.of_nat (length hashtags))).

(** *** _estimate_engagement *)

(** The decimal literals 1.2, 1.1 and 0.9 denote, as in Python, the nearest
    binary64 values. *)
#[local] Set Warnings "-inexact-float".

Record BaseScore : Type := {
  likes : Z;
  comments : Z;
  shares : Z
}.

Definition base_scores : dict BaseScore :=
  [ ("promo", {| likes := 45; comments := 8; shares := 12 |});
    ("tip", {| likes := 65; comments := 15; shares := 25 |});
    ("update", {| likes := 35; comments := 6; shares := 8 |});
    ("insight", {| likes := 55; comments := 12; shares := 20 |}) ].

Definition tone_multipliers : dict float :=
  [ ("friendly", 1.2%float);
    ("casual", 1.1%float);
    ("professional", 1.0%float);
    ("premium", 0.9%float) ].

(** The float literal [1.1] of the comparison [multiplier > 1.1]. *)
Definition high_threshold : float := 1.1%float.

(** [int * float]: the integer operand is converted to a float first (the
    base scores are far below 2^53, so the conversion is exact). *)
Definition int_mul_float (n : Z) (x : float) : float :=
  PrimFloat.mul (PrimFloat.of_uint63 (Uint63.of_Z n)) x.

(** [int(x)] for a float: truncation toward zero. *)
Definition int_of_float (x : float) : result Z :=
  match Prim2SF x with
  | S754_zero _ => Ok 0%Z
  | S754_finite s m e =>
      let magnitude :=
        if (0 <=? e)%Z then Z.shiftl (Z.pos m) e else Z.shiftr (Z.pos m) (- e) in
      Ok (if s then (- magnitude)%Z else magnitude)
  | S754_infinity _ => Raise (OverflowError "cannot convert float infinity to integer")
  | S754_nan => Raise (ValueError "cannot convert float NaN to integer")
  end.

Definition _estimate_engagement (post_type tone : string) : result Engagement :=
  let base :=
    dict_get_default post_type {| likes := 50; comments := 10; shares := 15 |} base_scores in
  let multiplier := dict_get_default tone 1.0%float tone_multipliers in
  bind (int_of_float (int_mul_float (likes base) multiplier)) (fun l =>
  bind (int_of_float (int_mul_float (comments base) multiplier)) (fun c =>
  bind (int_of_float (int_mul_float (shares base) multiplier)) (fun s =>
  Ok {| estimated_likes := l;
        estimated_comments := c;
        estimated_shares := s;
        engagement_score :=
          if PrimFloat.ltb high_threshold multiplier then "high" else "medium" |}))).

(** *** _suggest_best_time *)

Definition industry_times : dict (dict string) :=
  [ ("fitness", [("morning", "6:00 AM"); ("evening", "6:00 PM")]);
    ("beauty", [("afternoon", "2:00 PM"); ("evening", "7:00 PM")]);
    ("food", [("lunch", "11:30 AM"); ("dinner", "5:30 PM")]);
    ("general", [("morning", "9:00 AM"); ("afternoon", "3:00 PM")]) ].

Definition post_type_times : dict string :=
  [ ("promo", "afternoon"); ("tip", "morning");
    ("update", "morning"); ("insight", "afternoon") ].

Definition _suggest_best_time (industry post_type : string) : string :=
  let industry_schedule :=
    dict_get_default industry
      [("morning", "9:00 AM"); ("afternoon", "3:00 PM")] industry_times in
  let preferred_slot := dict_get_default post_type "afternoon" post_type_times in
  dict_get_default preferred_slot "12:00 PM" industry_schedule.

(** *** _generate_standard_post *)

Definition update_options : list string :=
  [ "We've extended our hours for your convenience";
    "New services now available";
    "We're implementing new safety protocols";
    "Our team has completed additional training";
    "We've upgraded our facilities" ].

Definition benefit_options : list string :=
  ["succeed"; "improve"; "feel great"; "achieve your goals"].

(** [self.industry_content.get(industry, self.industry_content['general'])] *)
Definition industry_data_of (industry : string) : result IndustryData :=
  bind (dict_item "general" industry_content)
       (fun general => Ok (dict_get_default industry general industry_content)).

(** The type-specific entries added to [content_vars]. *)
Definition type_specific_vars (post_type : string) (industry_data : IndustryData)
           (content_vars : dict string) : M (dict string) :=
  if String.eqb post_type "promo" then
    offer <- choice (offers industry_data) ;;
    ret (dict_set "offer" offer content_vars)
  else if String.eqb post_type "tip" then
    tip_content <- choice (tips industry_data) ;;
    benefit <- choice benefit_options ;;
    ret (dict_set "benefit" benefit (dict_set "tip_content" tip_content content_vars))
  else if String.eqb post_type "update" then
    update_content <- choice update_options ;;
    ret (dict_set "update_content" update_content content_vars)
  else ret content_vars.

Definition phone_emoji : string := "📞".

Definition _generate_standard_post (business_profile : BusinessProfile)
           (tone post_type : string) : M Post :=
  let industry := match industry business_profile with Some i => i | None => "general" end in
  let business_name :=
    match business_name business_profile with Some n => n | None => "Our Business" end in
  industry_data <- lift (industry_data_of industry) ;;
  by_tone <- lift (dict_item post_type post_templates) ;;
  templates <- lift (dict_item tone by_tone) ;;
  template <- choice templates ;;
  cta <- choice cta_options ;;
  value_prop <- choice (value_props industry_data) ;;
  let content_vars :=
    [ ("business_name", business_name); ("call_to_action", cta); ("value_prop", value_prop) ] in
  content_vars <- type_specific_vars post_type industry_data content_vars ;;
  let content_vars :=
    match contact_phone business_profile with
    | Some (String c p) =>
        dict_set "contact_info" (phone_emoji ++ " " ++ String c p)%string content_vars
    | _ => dict_set "contact_info" "" content_vars
    end in
  content <-
    lift (match format template content_vars with
          | Raise (KeyError _) =>
              Ok ("Great news from " ++ business_name ++ "! "
                  ++ dict_get_default "offer" "We have something special for you." content_vars
                  ++ " " ++ cta)%string
          | r => r
          end) ;;
  hashtags <- _generate_hashtags (hashtags industry_data) post_type ;;
  engagement <- lift (_estimate_engagement post_type tone) ;;
  ret {| post_content := content;
         post_hashtags := hashtags;
         post_type := post_type;
         post_tone := tone;
         post_industry := industry;
         call_to_action := cta;
         news_source := None;
         estimated_engagement := engagement;
         best_time_to_post := _suggest_best_time industry post_type |}.

(** *** _generate_insight_post *)

Definition insight_extra_hashtags : list string :=
  ["#industrytrends"; "#businessinsights"].

Definition _generate_insight_post (business_profile : BusinessProfile)
           (tone : string) (industry_news : list NewsItem) : M Post :=
  if negb (truthy industry_news) then _generate_standard_post business_profile tone "tip"
  else
      let industry := match industry business_profile with Some i => i | None => "general" end in
      let business_name :=
        match business_name business_profile with Some n => n | None => "Our Business" end in
      news_item <- choice industry_news ;;
      by_tone <- lift (dict_item "insight" post_templates) ;;
      templates <- lift (dict_item tone by_tone) ;;
      template <- choice templates ;;
      let insight_content :=
        match headline news_item with
        | Some h => h
        | None => "Industry trends continue to evolve"
        end in
      cta <- choice cta_options ;;
      let content_vars :=
        [ ("business_name", business_name);
          ("insight_content", insight_content);
          ("call_to_action", cta) ] in
      content <-
        lift (match format template content_vars with
              | Raise (KeyError _) =>
                  Ok ("Industry update: " ++ insight_content ++ " Stay informed with "
                      ++ business_name ++ "! " ++ cta)%string
              | r => r
              end) ;;
      industry_data <- lift (industry_data_of industry) ;;
      hashtags <-
        _generate_hashtags (hashtags industry_data ++ insight_extra_hashtags) "insight" ;;
      engagement <- lift (_estimate_engagement "insight" tone) ;;
      ret {| post_content := content;
             post_hashtags := hashtags;
             post_type := "insight";
             post_tone := tone;
             post_industry := industry;
             call_to_action := cta;
             news_source :=
               Some (match source news_item with
                     | Some s => s
                     | None => "Industry Reports"
                     end);
             estimated_engagement := engagement;
             best_time_to_post := _suggest_best_time industry "insight" |}.

(** *** _distribute_post_types and generate_posts *)

Definition _distribute_post_types (frequency : Z) (preferred_types : list string)
  : result (list string) :=
  let preferred_types :=
    match preferred_types with
    | [] => ["promo"; "tip"; "update"]
    | _ => preferred_types
    end in
  fold_left
    (fun acc i =>
       bind acc (fun post_types =>
       bind (item preferred_types (i mod length preferred_types)) (fun post_type =>
       Ok (post_types ++ [post_type]))))
    (seq 0 (Z.to_nat frequency)) (Ok []).

(** The body of the loop of [generate_posts] for one post type. *)
Definition generate_one (business_profile : BusinessProfile) (tone : string)
           (industry_news : list NewsItem) (post_type : string) : M Post :=
  if String.eqb post_type "insight" && truthy industry_news
  then _generate_insight_post business_profile tone industry_news
  else _generate_standard_post business_profile tone post_type.

Fixpoint generate_loop (business_profile : BusinessProfile) (tone : string)
         (industry_news : list NewsItem) (post_types : list string)
         (posts : list Post) : M (list Post) :=
  match post_types with
  | [] => ret posts
  | post_type :: post_types' =>
      post <- generate_one business_profile tone industry_news post_type ;;
      generate_loop business_profile tone industry_news post_types' (posts ++ [post])
  end.

(** [industry_news] is [[]] for [None]. *)
Definition generate_posts (business_profile : BusinessProfile)
           (post_preferences : PostPreferences) (industry_news : list NewsItem)
  : M (list Post) :=
  let tone := match tone post_preferences with Some t => t | None => "professional" end in
  let frequency := match frequency post_preferences with Some f => f | None => 3%Z end in
  let preferred_types :=
    match post_types post_preferences with
    | Some l => l
    | None => ["promo"; "tip"; "update"; "insight"]
    end in
  post_types <- lift (_distribute_post_types frequency preferred_types) ;;
  generate_loop business_profile tone industry_news post_types [].

(** *** Calendar dates: the part of [datetime] the scheduler uses *)

Record date : Type := mkdate { year : Z; month : Z; day : Z }.

Definition MAXORDINAL : Z := 3652059.   (* date(9999, 12, 31).toordinal() *)

Definition is_leap (y : Z) : bool :=
  ((y mod 4 =? 0) && (negb (y mod 100 =? 0) || (y mod 400 =? 0)))%Z.

Definition days_before_year (y : Z) : Z :=
  let y := (y - 1)%Z in (y * 365 + y / 4 - y / 100 + y / 400)%Z.

Definition DAYS_IN_MONTH : list Z :=
  [-1; 31; 28; 31; 30; 31; 30; 31; 31; 30; 31; 30; 31]%Z.

Definition DAYS_BEFORE_MONTH : list Z :=
  [-1; 0; 31; 59; 90; 120; 151; 181; 212; 243; 273; 304; 334]%Z.

Definition days_in_month (y m : Z) : Z :=
  if ((m =? 2) && is_leap y)%Z then 29%Z
  else nth (Z.to_nat m) DAYS_IN_MONTH (-1)%Z.

Definition days_before_month (y m : Z) : Z :=
  (nth (Z.to_nat m) DAYS_BEFORE_MONTH (-1)
   + (if (2 <? m) && is_leap y then 1 else 0))%Z.

(** [date.toordinal()]: 0001-01-01 is day 1. *)
Definition ymd2ord (d : date) : Z :=
  (days_before_year (year d) + days_before_month (year d) (month d) + day d)%Z.

Definition DI400Y : Z := 146097.
Definition DI100Y : Z := 36524.
Definition DI4Y : Z := 1461.

(** [date.fromordinal(n)] *)
Definition ord2ymd (n : Z) : date :=
  let n := (n - 1)%Z in
  let n400 := (n / DI400Y)%Z in
  let n := (n mod DI400Y)%Z in
  let y := (n400 * 400 + 1)%Z in
  let n100 := (n / DI100Y)%Z in
  let n := (n mod DI100Y)%Z in
  let n4 := (n / DI4Y)%Z in
  let n := (n mod DI4Y)%Z in
  let n1 := (n / 365)%Z in
  let n := (n mod 365)%Z in
  let y := (y + n100 * 100 + n4 * 4 + n1)%Z in
  if ((n1 =? 4) || (n100 =? 4))%Z then mkdate (y - 1) 12 31
  else
    let leapyear := ((n1 =? 3) && (negb (n4 =? 24) || (n100 =? 3)))%Z in
    let m := Z.shiftr (n + 50) 5 in
    let preceding :=
      (nth (Z.to_nat m) DAYS_BEFORE_MONTH (-1)
       + (if (2 <? m) && leapyear then 1 else 0))%Z in
    if (n <? preceding)%Z then
      let m := (m - 1)%Z in
      let preceding :=
        (preceding - (nth (Z.to_nat m) DAYS_IN_MONTH (-1)
                      + (if (m =? 2) && leapyear then 1 else 0)))%Z in
      mkdate y m (n - preceding + 1)
    else mkdate y m (n - preceding + 1).

(** [d + timedelta(days=i)] *)
Definition add_days (d : date) (i : Z) : result date :=
  let n := (ymd2ord d + i)%Z in
  if ((0 <? n) && (n <=? MAXORDINAL))%Z then Ok (ord2ymd n)
  else Raise (OverflowError "date value out of range").

Definition valid_date (d : date) : bool :=
  ((1 <=? year d) && (year d <=? 9999) && (1 <=? month d) && (month d <=? 12)
   && (1 <=? day d) && (day d <=? days_in_month (year d) (month d)))%Z.

(** [datetime.strptime(s, '%Y-%m-%d')], for a string [s] whose digits are
    the ASCII digits.  The directives are matched as the regular expressions
    [\d\d\d\d] for the year, [1[0-2]|0[1-9]|[1-9]] for the month and
    [3[0-1]|[1-2]\d|0[1-9]|[1-9]| [1-9]] for the day, alternatives tried
    from the left; text left over, or a date that does not exist, is a
    [ValueError].  [\d] of Python also matches the decimal digits outside
    ASCII; on a string with such digits this function raises where
    [strptime] may return, so a property is stated for the strings it
    reads. *)
Definition digit (c : ascii) : option Z :=
  let n := nat_of_ascii c in
  if ((48 <=? n) && (n <=? 57))%nat then Some (Z.of_nat (n - 48)) else None.

Definition one_digit (s : string) : option (Z * string) :=
  match s with
  | String a rest =>
      match digit a with
      | Some x => Some (x, rest)
      | None => None
      end
  | EmptyString => None
  end.

Definition two_digits (s : string) : option (Z * Z * string) :=
  match one_digit s with
  | Some (a, s') =>
      match one_digit s' with
      | Some (b, rest) => Some (a, b, rest)
      | None => None
      end
  | None => None
  end.

Definition match_year (s : string) : option (Z * string) :=
  match two_digits s with
  | Some (a, b, s') =>
      match two_digits s' with
      | Some (c, d, rest) => Some (a * 1000 + b * 100 + c * 10 + d, rest)%Z
      | None => None
      end
  | None => None
  end.

Definition match_dash (s : string) : option string :=
  match s with
  | String c rest => if Ascii.eqb c "-" then Some rest else None
  | EmptyString => None
  end.

Definition match_nonzero_digit (s : string) : option (Z * string) :=
  match one_digit s with
  | Some (a, rest) => if (1 <=? a)%Z then Some (a, rest) else None
  | None => None
  end.

Definition match_month (s : string) : option (Z * string) :=
  match two_digits s with
  | Some (a, b, rest) =>
      if ((a =? 1) && (b <=? 2))%Z then Some (10 + b, rest)%Z
      else if ((a =? 0) && (1 <=? b))%Z then Some (b, rest)
      else match_nonzero_digit s
  | None => match_nonzero_digit s
  end.

Definition match_day_short (s : string) : option (Z * string) :=
  match match_nonzero_digit s with
  | Some r => Some r
  | None =>
      match s with
      | String c rest => if Ascii.eqb c " " then match_nonzero_digit rest else None
      | EmptyString => None
      end
  end.

Definition match_day (s : string) : option (Z * string) :=
  match two_digits s with
  | Some (a, b, rest) =>
      if ((a =? 3) && (b <=? 1))%Z then Some (30 + b, rest)%Z
      else if ((a =? 1) || (a =? 2))%Z then Some (a * 10 + b, rest)%Z
      else if ((a =? 0) && (1 <=? b))%Z then Some (b, rest)
      else match_day_short s
  | None => match_day_short s
  end.

Definition strptime_ymd (s : string) : result date :=
  let no_match := Raise (ValueError "time data does not match format '%Y-%m-%d'") in
  match match_year s with
  | None => no_match
  | Some (y, s1) =>
  match match_dash s1 with
  | None => no_match
  | Some s2 =>
  match match_month s2 with
  | None => no_match
  | Some (m, s3) =>
  match match_dash s3 with
  | None => no_match
  | Some s4 =>
  match match_day s4 with
  | None => no_match
  | Some (d, EmptyString) =>
      if valid_date (mkdate y m d) then Ok (mkdate y m d)
      else Raise (ValueError "date out of range")
  | Some (_, String _ _) => Raise (ValueError "unconverted data remains")
  end end end end end.

(** [d.strftime('%Y-%m-%d')] for a year of four digits, 1000 to 9999: four
    digits for the year, two for the month and the day.  For a year below
    1000 the result depends on the platform (the library reference pads the
    year with zeros, as this function does; the C library of Linux does
    not). *)
Definition digit_char (n : Z) : ascii := ascii_of_nat (48 + Z.to_nat n).

Definition pad2 (n : Z) : string :=
  String (digit_char (n / 10)) (String (digit_char (n mod 10)) EmptyString).

Definition pad4 (n : Z) : string := (pad2 (n / 100) ++ pad2 (n mod 100))%string.

Definition strftime_ymd (d : date) : string :=
  (pad4 (year d) ++ "-" ++ pad2 (month d) ++ "-" ++ pad2 (day d))%string.

(** *** create_weekly_schedule *)

Section WeeklySchedule.

(** The scheduler reads one key of a post, [best_time_to_post]; it is
    generic in everything else a post holds. *)
Context {P : Type} (best_time_of : P -> option string).

(** One value of the schedule dict. *)
Record Slot : Type := {
  slot_date : string;
  slot_post : option P;
  suggested_time : option string;
  day_of_week : string
}.

(** The default posting days, used when [preferred_days] is [None] or
    empty. *)
Definition default_days (frequency : Z) : list string :=
  if (frequency <=? 3)%Z then ["monday"; "wednesday"; "friday"]
  else if (frequency <=? 5)%Z then ["monday"; "tuesday"; "thursday"; "friday"; "saturday"]
  else days.

(** [posting_days] as it stands when the loop starts. *)
Definition posting_days_of (frequency : Z) (preferred_days : list string) : list string :=
  let preferred_days :=
    if negb (truthy preferred_days) then default_days frequency else preferred_days in
  let posting_days := slice_to preferred_days frequency in
  if (Z.of_nat (length posting_days) <? frequency)%Z then
    let remaining_days := filter (fun day => negb (mem day posting_days)) days in
    posting_days
      ++ slice_to remaining_days (frequency - Z.of_nat (length posting_days))
  else posting_days.

(** The index of the post placed on [day], if any:
    [day in posting_days and posting_days.index(day) < len(posts)]. *)
Definition post_index_of (posting_days : list string) (posts : list P) (day : string)
  : option nat :=
  match index day posting_days with
  | Some post_index => if (post_index <? length posts)%nat then Some post_index else None
  | None => None
  end.

(** The body of the loop for [(i, day)]. *)
Definition schedule_day (start : date) (posting_days : list string) (posts : list P)
           (i : nat) (day : string) : result Slot :=
  bind (add_days start (Z.of_nat i)) (fun day_date =>
  match post_index_of posting_days posts day with
  | Some post_index =>
      bind (item posts post_index) (fun post =>
      Ok {| slot_date := strftime_ymd day_date;
            slot_post := Some post;
            suggested_time :=
              Some (match best_time_of post with
                    | Some t => t
                    | None => "12:00 PM"
                    end);
            day_of_week := title day |})
  | None =>
      Ok {| slot_date := strftime_ymd day_date;
            slot_post := None;
            suggested_time := None;
            day_of_week := title day |}
  end).

(** [for i, day in enumerate(self.days)], from position [i] on. *)
Fixpoint schedule_loop (start : date) (posting_days : list string) (posts : list P)
         (i : nat) (rest : list string) (schedule : dict Slot) : result (dict Slot) :=
  match rest with
  | [] => Ok schedule
  | day :: rest' =>
      bind (schedule_day start posting_days posts i day) (fun slot =>
      schedule_loop start posting_days posts (S i) rest' (dict_set day slot schedule))
  end.

(** [start]: the parsed [start_date], or today when it is absent or
    empty.  [start_date] is [None] for an absent argument; [now] is the
    date of [datetime.now()]. *)
Definition start_of (start_date : option string) (now : date) : result date :=
  match start_date with
  | Some (String c s) => strptime_ymd (String c s)
  | _ => Ok now
  end.

Definition create_weekly_schedule (posts : list P) (frequency : Z)
           (preferred_days : list string) (start_date : option string) (now : date)
  : result (dict Slot) :=
  bind (start_of start_date now) (fun start =>
  let posting_days := posting_days_of frequency preferred_days in
  schedule_loop start posting_days posts 0 days []).

End WeeklySchedule.

Arguments Slot : clear implicits.

End ContentGenerator.

(* ================================================================== *)
(** ** app.py: the request check of the /api/planner/schedule route *)
(* ================================================================== *)

Module App.
Import Py.

Inductive response (A : Type) : Type :=
| Success (body : A)                       (* 200 *)
| NotEnoughPosts (need : Z) (have : nat)   (* 400, 'Not enough posts available' *)
| ServerError (e : exn).                   (* 500, from [except Exception] *)
Arguments Success {A} body.
Arguments NotEnoughPosts {A} need have.
Arguments ServerError {A} e.

(** The route from the draft posts of the business to the call of the
    scheduler: fewer drafts than [frequency] is answered with status 400
    and the scheduler is not called; otherwise it is called on the first
    [frequency] drafts.  The status updates that follow the call are
    [Api.mark_scheduled], below. *)
Definition create_weekly_schedule {P : Type} (best_time_of : P -> option string)
           (draft_posts : list P) (frequency : Z) (preferred_days : list string)
           (start_date : option string) (now : ContentGenerator.date)
  : response (dict (ContentGenerator.Slot P)) :=
  let start_date :=
    match start_date with
    | Some s => s
    | None => ContentGenerator.strftime_ymd now
    end in
  if (Z.of_nat (length draft_posts) <? frequency)%Z then
    NotEnoughPosts frequency (length draft_posts)
  else
    match ContentGenerator.create_weekly_schedule best_time_of
            (slice_to draft_posts frequency) frequency preferred_days
            (Some start_date) now with
    | Ok schedule => Success schedule
    | Raise e => ServerError e
    end.

End App.

(* ================================================================== *)
(** ** data_storage.py: the post operations *)
(* ================================================================== *)

Module DataStorage.
Import Py.

#[local] Set Warnings "-register-all".

(** A value read from a JSON file or from a JSON request body; a JSON
    object is a Python [dict] with string keys. *)
Inductive Json : Type :=
| JNull
| JBool (b : bool)
| JInt (n : Z)
| JFloat (x : float)
| JStr (s : string)
| JList (l : list Json)
| JObject (d : list (string * Json)).

(** The truth value of a JSON value: [if v:], [not v]. *)
Definition json_truthy (v : Json) : bool :=
  match v with
  | JNull => false
  | JBool b => b
  | JInt n => negb (n =? 0)%Z
  | JFloat x => negb (PrimFloat.eqb x 0%float)
  | JStr s => negb (String.eqb s "")
  | JList l => truthy l
  | JObject d => truthy d
  end.

(** [v == s] for a string [s]. *)
Definition json_eq_str (v : Json) (s : string) : bool :=
  match v with
  | JStr s' => String.eqb s' s
  | _ => false
  end.

(** [del d[k]] *)
Definition dict_del {V} (k : string) (d : dict V) : dict V :=
  filter (fun entry => negb (String.eqb k (fst entry))) d.

(** [d.update(updates)]: the entries of [updates] are assigned in order. *)
Definition dict_update {V} (updates d : dict V) : dict V :=
  fold_left (fun acc entry => dict_set (fst entry) (snd entry) acc) updates d.

(** [k in d] *)
Definition dict_mem {V} (k : string) (d : dict V) : bool :=
  match dict_get k d with
  | Some _ => true
  | None => false
  end.

(** The decoded content of one of the JSON files: an object whose values
    are the stored records.  The files are created holding the empty object
    and are written by this class only; reading a file ([_load_json_file])
    gives its content and writing ([_save_json_file]) replaces it and
    returns [True].  A failure of the file system is outside the model. *)
Definition File : Type := dict (dict Json).

(** [store_post(post_id, post)].  [created_at] and [updated_at] are the two
    readings of [datetime.now().isoformat()].  The dict [post] of the caller
    is modified in place; the result holds the returned flag, that dict
    after the call, and the file. *)
Definition store_post (post_id : string) (post : dict Json)
           (created_at updated_at : string) (posts : File)
  : bool * dict Json * File :=
  let post := dict_set "id" (JStr post_id) post in
  let post := dict_set "created_at" (JStr created_at) post in
  let post := dict_set "updated_at" (JStr updated_at) post in
  let posts := dict_set post_id post posts in
  (true, post, posts).

(** [get_post(post_id)] *)
Definition get_post (post_id : string) (posts : File) : option (dict Json) :=
  dict_get post_id posts.

(** [update_post(post_id, updates)]; [now] is the reading of the clock. *)
Definition update_post (post_id : string) (updates : dict Json) (now : string)
           (posts : File) : bool * File :=
  match dict_get post_id posts with
  | None => (false, posts)
  | Some post =>
      let post := dict_update updates post in
      let post := dict_set "updated_at" (JStr now) post in
      (true, dict_set post_id post posts)
  end.

(** [delete_post(post_id)] *)
Definition delete_post (post_id : string) (posts : File) : bool * File :=
  if dict_mem post_id posts then (true, dict_del post_id posts)
  else (false, posts).

End DataStorage.

(* ================================================================== *)
(** ** app.py: the post routes over the store *)
(* ================================================================== *)

Module Api.
Import Py DataStorage.

(** What [except Exception] catches in the routes modelled here. *)
Inductive error : Type :=
| TypeError
| Exn (e : exn).

Inductive response (A : Type) : Type :=
| Done (body : A)             (* 200 *)
| BadRequest (msg : string)   (* 400 *)
| NotFound (msg : string)     (* 404 *)
| Failed (e : error).         (* 500 *)
Arguments Done {A} body.
Arguments BadRequest {A} msg.
Arguments NotFound {A} msg.
Arguments Failed {A} e.

(** *** PUT /api/posts/<post_id> *)

Definition updatable_fields : list string :=
  ["content"; "hashtags"; "call_to_action"; "scheduled_date"].

(** [field in data], for the JSON value [data] of the request body: a key
    of an object, an element of an array, a substring of a string; a number
    or a boolean is not iterable. *)
Definition field_in (field : string) (data : Json) : option bool :=
  match data with
  | JObject d => Some (dict_mem field d)
  | JList l => Some (existsb (fun v => json_eq_str v field) l)
  | JStr s => Some (str_in field s)
  | _ => None
  end.

(** [data[field]] for a string [field]: defined on an object only. *)
Definition data_item (field : string) (data : Json) : option (option Json) :=
  match data with
  | JObject d => Some (dict_get field d)
  | _ => None
  end.

(** [for field in updatable_fields: if field in data:
    existing_post[field] = data[field]] *)
Fixpoint copy_fields (fields : list string) (data : Json) (existing_post : dict Json)
  : error + dict Json :=
  match fields with
  | [] => inr existing_post
  | field :: fields' =>
      match field_in field data with
      | None => inl TypeError
      | Some false => copy_fields fields' data existing_post
      | Some true =>
          match data_item field data with
          | Some (Some v) => copy_fields fields' data (dict_set field v existing_post)
          | Some None => inl (Exn (KeyError field))
          | None => inl TypeError
          end
      end
  end.

(** The route, from the value [data] that [request.get_json()] returned:
    the decoded JSON body, [JNull] for the body [null].  A request for which
    [get_json] raises instead (no body, or a body that is not JSON, in
    Flask 2.1 and later) does not reach this code: the exception is caught
    by the route and answered 500.  [now] is the reading of the clock in the
    route and [now'] the one in [DataStorage.update_post]. *)
Definition update_post (post_id : string) (data : Json) (now now' : string)
           (posts : File) : response (dict Json) * File :=
  if negb (json_truthy data) then (BadRequest "No data provided", posts)
  else
    match get_post post_id posts with
    | None => (NotFound "Post not found", posts)
    | Some existing_post =>
        if negb (truthy existing_post) then (NotFound "Post not found", posts)
        else
          match copy_fields updatable_fields data existing_post with
          | inl e => (Failed e, posts)
          | inr existing_post =>
              let existing_post := dict_set "updated_at" (JStr now) existing_post in
              let (_, posts) := DataStorage.update_post post_id existing_post now' posts in
              (Done existing_post, posts)
          end
    end.

(** *** DELETE /api/posts/<post_id> *)

Definition delete_post (post_id : string) (posts : File) : response string * File :=
  let (success, posts) := DataStorage.delete_post post_id posts in
  if negb success then (NotFound "Post not found", posts)
  else (Done "Post deleted successfully", posts).

(** *** POST /api/content/generate: storing the generated posts *)

(** The loop over [generated_posts].  [uuid4 k] is the [k]-th identifier
    drawn in the request and [clock k] the [k]-th reading of the clock;
    the [i]-th post draws one identifier and reads the clock three times,
    once in the route and twice in [store_post].  The result holds the
    posts as the response lists them and the file. *)
Fixpoint store_generated (business_id : string) (generated_posts : list (dict Json))
         (uuid4 clock : nat -> string) (i : nat) (posts : File)
  : list (dict Json) * File :=
  match generated_posts with
  | [] => ([], posts)
  | post :: rest =>
      let post := dict_set "id" (JStr (uuid4 i)) post in
      let post := dict_set "business_id" (JStr business_id) post in
      let post := dict_set "created_at" (JStr (clock (3 * i)%nat)) post in
      let post := dict_set "status" (JStr "draft") post in
      let '(_, post, posts) :=
        store_post (uuid4 i) post (clock (3 * i + 1)%nat) (clock (3 * i + 2)%nat) posts in
      let (rest, posts) := store_generated business_id rest uuid4 clock (S i) posts in
      (post :: rest, posts)
  end.

(** *** POST /api/planner/schedule: marking the scheduled posts *)

(** [data_storage.update_post(post_id, updates)] for the value found under
    ['id']: a string is looked up; any other value is no key of the file
    (an array or an object is not hashable, and the [TypeError] is caught
    in [update_post]), and nothing is written. *)
Definition update_post_by (post_id : Json) (updates : dict Json) (now : string)
           (posts : File) : bool * File :=
  match post_id with
  | JStr s => DataStorage.update_post s updates now posts
  | _ => (false, posts)
  end.

(** The loop over [schedule.items()] that follows the call of the scheduler:
    a slot with a post sets the status and the scheduled date of the post
    and writes it to the store.  [k] counts the readings of the clock, one
    for each post found in the file.  A post without ['id'] raises
    [KeyError]; what was written before stays.  The result holds the
    schedule as the response lists it, or the exception, and the file. *)
Fixpoint mark_scheduled (schedule : dict (ContentGenerator.Slot (dict Json)))
         (clock : nat -> string) (k : nat) (posts : File)
  : (error + dict (ContentGenerator.Slot (dict Json))) * File :=
  match schedule with
  | [] => (inr [], posts)
  | (day, post_info) :: rest =>
      match ContentGenerator.slot_post post_info with
      | Some (entry :: post') =>
          let post := entry :: post' in
          match dict_get "id" post with
          | None => (inl (Exn (KeyError "id")), posts)
          | Some post_id =>
              let post := dict_set "status" (JStr "scheduled") post in
              let post :=
                dict_set "scheduled_date" (JStr (ContentGenerator.slot_date post_info)) post in
              let (found, posts) := update_post_by post_id post (clock k) posts in
              let k := if found then S k else k in
              let post_info :=
                {| ContentGenerator.slot_date := ContentGenerator.slot_date post_info;
                   ContentGenerator.slot_post := Some post;
                   ContentGenerator.suggested_time := ContentGenerator.suggested_time post_info;
                   ContentGenerator.day_of_week := ContentGenerator.day_of_week post_info |} in
              match mark_scheduled rest clock k posts with
              | (inr rest, posts) => (inr ((day, post_info) :: rest), posts)
              | (inl e, posts) => (inl e, posts)
              end
          end
      | _ =>
          match mark_scheduled rest clock k posts with
          | (inr rest, posts) => (inr ((day, post_info) :: rest), posts)
          | (inl e, posts) => (inl e, posts)
          end
      end
  end.

End Api.


Import Py BusinessAnalyzer ContentGenerator.

(* ================================================================== *)
(** ** Notions used to state the properties *)
(* ================================================================== *)

(** *** Classifier *)

(** [kw] occurs in [s] as a substring. *)
Definition occurs (kw s : string) : Prop :=
  exists a b, s = (a ++ kw ++ b)%string.

(** The closed set of industries and of tones of a business profile. *)
Definition industry_enum : list string :=
  ["fitness"; "beauty"; "food"; "retail"; "healthcare"; "education";
   "professional"; "automotive"; "entertainment"; "general"].

Definition tone_enum : list string :=
  ["professional"; "friendly"; "casual"; "premium"].

(** The entries the scoring loop keeps, in bucket order. *)
Definition scored (buckets : dict (list string)) (text : string) : dict nat :=
  filter (fun e => (0 <? snd e)%nat)
         (map (fun e => (fst e, keyword_score (snd e) text)) buckets).

(** [winner] is the first entry of [d] with the largest value. *)
Definition first_max (d : dict nat) (winner : string) : Prop :=
  exists before v after,
    d = before ++ (winner, v) :: after
    /\ (forall e, In e before -> (snd e < v)%nat)
    /\ (forall e, In e after -> (snd e <= v)%nat).

(** [winner] is a bucket of positive score, every bucket before it in the
    fixed order scores strictly less, and no bucket after it scores more:
    the bucket of maximum score, the earliest one on a tie. *)
Definition winner_of (buckets : dict (list string)) (text : string) (winner : string) : Prop :=
  exists before keywords after,
    buckets = before ++ (winner, keywords) :: after
    /\ (0 < keyword_score keywords text)%nat
    /\ (forall e, In e before -> (keyword_score (snd e) text < keyword_score keywords text)%nat)
    /\ (forall e, In e after -> (keyword_score (snd e) text <= keyword_score keywords text)%nat).

(** The body shared by [_classify_industry] and [_analyze_tone]. *)
Definition pick (buckets : dict (list string)) (text default : string) : result string :=
  match score_buckets buckets text with
  | _ :: _ => max_key (score_buckets buckets text)
  | [] => Ok default
  end.

(** *** Engagement estimate *)

(** The tone multiplier in tenths: 1.2, 1.1, 1.0, 0.9, and 1.0 for any other
    tone. *)
Definition tone_tenths (tone : string) : Z :=
  if String.eqb tone "friendly" then 12
  else if String.eqb tone "casual" then 11
  else if String.eqb tone "professional" then 10
  else if String.eqb tone "premium" then 9
  else 10.

(** [base] and [multiplier] of [_estimate_engagement]. *)
Definition base_of (post_type : string) : BaseScore :=
  dict_get_default post_type {| likes := 50; comments := 10; shares := 15 |} base_scores.

Definition multiplier_of (tone : string) : float :=
  dict_get_default tone 1.0%float tone_multipliers.

(** *** Weekly schedule *)

(** The date of the [i]-th slot. *)
Definition date_at (start : date) (i : nat) : date :=
  ord2ymd (ymd2ord start + Z.of_nat i).

(** Day [i] of the week still is a date: [start + timedelta(days=i)] does
    not overflow. *)
Definition day_in_range (start : date) (i : nat) : Prop :=
  (0 < ymd2ord start + Z.of_nat i <= MAXORDINAL)%Z.

(** [date.weekday()]: Monday is 0. *)
Definition weekday (d : date) : Z := (ymd2ord d + 6) mod 7.

Section ScheduleNotions.
Context {P : Type} (best_time_of : P -> option string).

(** [post.get('best_time_to_post', '12:00 PM')] *)
Definition time_of (post : P) : string :=
  match best_time_of post with
  | Some t => t
  | None => "12:00 PM"
  end.

(** The slot of [day], the [i]-th day of the week. *)
Definition slot_for (start : date) (posting_days : list string) (posts : list P)
           (i : nat) (day : string) : Slot P :=
  let post :=
    match post_index_of posting_days posts day with
    | Some j => nth_error posts j
    | None => None
    end in
  {| slot_date := strftime_ymd (date_at start i);
     slot_post := post;
     suggested_time := option_map time_of post;
     day_of_week := title day |}.

Fixpoint week_from (start : date) (posting_days : list string) (posts : list P)
         (i : nat) (rest : list string) : dict (Slot P) :=
  match rest with
  | [] => []
  | day :: rest' =>
      (day, slot_for start posting_days posts i day)
        :: week_from start posting_days posts (S i) rest'
  end.

(** The schedule the loop builds from [start]. *)
Definition week (start : date) (posting_days : list string) (posts : list P)
  : dict (Slot P) :=
  week_from start posting_days posts 0 days.

(** The number of slots that hold a post. *)
Definition filled_slots (schedule : dict (Slot P)) : nat :=
  length (filter (fun e => match slot_post (snd e) with Some _ => true | None => false end)
                 schedule).

(** [day] receives a post. *)
Definition has_post (posting_days : list string) (posts : list P) (day : string) : bool :=
  match post_index_of posting_days posts day with
  | Some _ => true
  | None => false
  end.

End ScheduleNotions.

(** *** Generated posts *)

Definition industry_of (business_profile : BusinessProfile) : string :=
  match industry business_profile with
  | Some i => i
  | None => "general"
  end.

Definition tone_of (post_preferences : PostPreferences) : string :=
  match tone post_preferences with
  | Some t => t
  | None => "professional"
  end.

Definition frequency_of (post_preferences : PostPreferences) : Z :=
  match frequency post_preferences with
  | Some f => f
  | None => 3%Z
  end.

(** The hashtags [industry] brings to a post. *)
Definition industry_hashtags (industry : string) : list string :=
  match industry_data_of industry with
  | Ok industry_data => hashtags industry_data
  | Raise _ => []
  end.

Definition type_hashtags_of (post_type : string) : list string :=
  dict_get_default post_type [] type_hashtags.

(** Industry pool, type-specific set and the three general hashtags. *)
Definition standard_pool (industry post_type : string) : list string :=
  industry_hashtags industry ++ type_hashtags_of post_type ++ general_hashtags.

(** The pool of an insight post built from a news item: two more fixed
    hashtags follow the industry pool. *)
Definition insight_pool (industry : string) : list string :=
  (industry_hashtags industry ++ insight_extra_hashtags)
    ++ type_hashtags_of "insight" ++ general_hashtags.

(** What holds of the hashtags of a generated post. *)
Definition hashtags_ok (post : Post) : Prop :=
  (length (post_hashtags post) <= 8)%nat
  /\ match news_source post with
     | None =>
         incl (post_hashtags post)
              (standard_pool (post_industry post) (ContentGenerator.post_type post))
     | Some _ =>
         ContentGenerator.post_type post = "insight"
         /\ incl (post_hashtags post) (insight_pool (post_industry post))
     end.

(** The post types that have templates. *)
Definition known_post_types : list string := ["promo"; "tip"; "update"; "insight"].

(** Every brace of [template] opens or closes a replacement field. *)
Fixpoint braces_ok (template : string) (in_field : bool) : bool :=
  match template with
  | EmptyString => negb in_field
  | String c template' =>
      if in_field then braces_ok template' (negb (Ascii.eqb c "}"))
      else if Ascii.eqb c "{" then braces_ok template' true
      else if Ascii.eqb c "}" then false
      else braces_ok template' false
  end.

Definition all_templates : list string :=
  flat_map (fun by_type => flat_map snd (snd by_type)) post_templates.

Definition field_open (field : option string) : bool :=
  match field with
  | Some _ => true
  | None => false
  end.

(** The only exception [format] raises on a well-braced template is the
    [KeyError] of a field that is not supplied. *)
Definition ok_or_key_error (r : result string) : Prop :=
  (exists s, r = Ok s) \/ (exists k, r = Raise (KeyError k)).

(** The names of the replacement fields of [template], in order. *)
Fixpoint fields_from (template : string) (field : option string) : list string :=
  match template with
  | EmptyString => []
  | String c template' =>
      match field with
      | None =>
          if Ascii.eqb c "{" then fields_from template' (Some EmptyString)
          else fields_from template' None
      | Some name =>
          if Ascii.eqb c "}" then name :: fields_from template' None
          else fields_from template' (Some (name ++ String c EmptyString)%string)
      end
  end.

Definition fields (template : string) : list string := fields_from template None.

Definition name_of (business_profile : BusinessProfile) : string :=
  match business_name business_profile with
  | Some n => n
  | None => "Our Business"
  end.

(** The content of a post whose template asks for a field that is not
    supplied, when no offer was drawn. *)
Definition generic_content (business_profile : BusinessProfile) (cta : string) : string :=
  "Great news from " ++ name_of business_profile
    ++ "! We have something special for you. " ++ cta.

(** The computation [m] returns from the random state [g]. *)
Definition returns {A} (m : M A) (g : rng) : Prop :=
  exists a g', m g = Ok (a, g').

(** [preferred_types] after the substitution of the default for an empty
    list. *)
Definition effective_types (preferred_types : list string) : list string :=
  match preferred_types with
  | [] => ["promo"; "tip"; "update"]
  | _ => preferred_types
  end.

Definition types_of (post_preferences : PostPreferences) : list string :=
  effective_types match post_types post_preferences with
                  | Some l => l
                  | None => ["promo"; "tip"; "update"; "insight"]
                  end.

(** Round robin over [types]: element [i] is [types[i mod |types|]]. *)
Definition round_robin (types : list string) (start n : nat) : list string :=
  map (fun i => nth (i mod length types) types "") (seq start n).

(** *** Sample inputs *)

(** The profile, the news item and the preferences of the test at the end of
    [content_generator.py], with a single insight post requested. *)
Definition fitzone : BusinessProfile :=
  {| industry := Some "fitness";
     business_name := Some "FitZone Gym";
     contact_phone := Some "555-0123" |}.

Definition hiit_news : list NewsItem :=
  [ {| headline := Some "HIIT workouts gain popularity among busy professionals";
       source := Some "Fitness Magazine" |} ].

Definition one_insight : PostPreferences :=
  {| tone := Some "professional"; frequency := Some 1%Z; post_types := Some ["insight"] |}.

(** *** Further notions: generated posts, schedules, the post store *)

Import DataStorage.

(** What every post holds besides its content and hashtags. *)
Definition post_meta_ok (business_profile : BusinessProfile) (tone post_type : string)
           (post : Post) : Prop :=
  ContentGenerator.post_type post = post_type
  /\ post_tone post = tone
  /\ post_industry post = industry_of business_profile
  /\ _estimate_engagement post_type tone = Ok (estimated_engagement post)
  /\ best_time_to_post post = _suggest_best_time (industry_of business_profile) post_type
  /\ In (call_to_action post) cta_options.

(** [l] holds no string twice. *)
Fixpoint distinct (l : list string) : bool :=
  match l with
  | [] => true
  | x :: l' => negb (mem x l') && distinct l'
  end.

(** What holds of the hashtags of every generated post. *)
Definition eight_hashtags (post : Post) : Prop :=
  length (post_hashtags post) = 8%nat
  /\ (In (post_industry post) ["fitness"; "beauty"; "food"] -> NoDup (post_hashtags post)).

(** A profile of the general industry. *)
Definition corner_shop : BusinessProfile :=
  {| industry := Some "general";
     business_name := Some "Corner Shop";
     contact_phone := None |}.

(** [content_vars['contact_info']] *)
Definition contact_info_of (business_profile : BusinessProfile) : string :=
  match contact_phone business_profile with
  | Some (String c p) => phone_emoji ++ " " ++ String c p
  | _ => ""
  end.

(** The values a replacement field can take in a standard post. *)
Definition field_values (business_profile : BusinessProfile) (industry_data : IndustryData)
           (cta : string) (field : string) : list string :=
  if String.eqb field "business_name" then [name_of business_profile]
  else if String.eqb field "call_to_action" then [cta]
  else if String.eqb field "value_prop" then value_props industry_data
  else if String.eqb field "contact_info" then [contact_info_of business_profile]
  else if String.eqb field "offer" then offers industry_data
  else if String.eqb field "tip_content" then tips industry_data
  else if String.eqb field "benefit" then benefit_options
  else if String.eqb field "update_content" then update_options
  else [].

(** The content of [post] is a template of its type and tone in which every
    field is replaced by a value of the pool of that field. *)
Definition filled_template (business_profile : BusinessProfile) (post_type tone : string)
           (post : Post) : Prop :=
  exists industry_data by_tone templates template content_vars,
    industry_data_of (industry_of business_profile) = Ok industry_data
    /\ dict_get post_type post_templates = Some by_tone
    /\ dict_get tone by_tone = Some templates
    /\ In template templates
    /\ (forall field value,
          dict_get field content_vars = Some value ->
          In value (field_values business_profile industry_data (call_to_action post) field))
    /\ format template content_vars = Ok (post_content post).

(** The fields [content_vars] holds when the template is filled. *)
Definition supplied_fields (post_type : string) : list string :=
  ["business_name"; "call_to_action"; "value_prop"; "contact_info"]
    ++ (if String.eqb post_type "promo" then ["offer"]
        else if String.eqb post_type "tip" then ["tip_content"; "benefit"]
        else if String.eqb post_type "update" then ["update_content"]
        else []).

(** [content_vars] after the contact information is added. *)
Definition with_contact_info (business_profile : BusinessProfile)
           (content_vars : dict string) : dict string :=
  dict_set "contact_info" (contact_info_of business_profile) content_vars.

(** Every field of [template] is supplied for [post_type]. *)
Definition fields_supplied (post_type template : string) : bool :=
  forallb (fun field => mem field (supplied_fields post_type)) (fields template).

(** [preferred_days], or the default days when it is empty. *)
Definition days_or_default (frequency : Z) (preferred_days : list string) : list string :=
  if negb (truthy preferred_days) then default_days frequency else preferred_days.

(** One of the three keys [store_post] sets. *)
Definition stamp_key (k : string) : bool :=
  String.eqb k "id" || String.eqb k "created_at" || String.eqb k "updated_at".

(** One of the keys the route and [store_post] set on a generated post. *)
Definition draft_key (k : string) : bool :=
  String.eqb k "id" || String.eqb k "business_id" || String.eqb k "created_at"
  || String.eqb k "status" || String.eqb k "updated_at".

(** What holds of the [i]-th generated post after the loop. *)
Definition stored_as_draft (business_id : string) (uuid4 clock : nat -> string)
           (i : nat) (post stored : dict Json) : Prop :=
  dict_get "id" stored = Some (JStr (uuid4 i))
  /\ dict_get "business_id" stored = Some (JStr business_id)
  /\ dict_get "status" stored = Some (JStr "draft")
  /\ dict_get "created_at" stored = Some (JStr (clock (3 * i + 1)%nat))
  /\ dict_get "updated_at" stored = Some (JStr (clock (3 * i + 2)%nat))
  /\ forall k, draft_key k = false -> dict_get k stored = dict_get k post.

(** The value under ['id'] of the post a slot holds. *)
Definition slot_id (slot : Slot (dict Json)) : list Json :=
  match slot_post slot with
  | Some (entry :: post) =>
      match dict_get "id" (entry :: post) with
      | Some post_id => [post_id]
      | None => []
      end
  | _ => []
  end.

(** The ids of the posts the slots of [schedule] hold. *)
Definition scheduled_ids (schedule : dict (Slot (dict Json))) : list Json :=
  flat_map (fun entry => slot_id (snd entry)) schedule.

(** Every post of [schedule] is a dict with an id. *)
Definition posts_identified (schedule : dict (Slot (dict Json))) : Prop :=
  forall day slot post,
    In (day, slot) schedule -> slot_post slot = Some post -> post <> [] ->
    dict_get "id" post <> None /\ NoDup (dict_keys post).

(** The post stored under [s] is marked for [date]. *)
Definition marked (s date : string) (posts : File) : Prop :=
  exists new,
    get_post s posts = Some new
    /\ dict_get "status" new = Some (JStr "scheduled")
    /\ dict_get "scheduled_date" new = Some (JStr date).

(** The drafts as the route reads them from the store: dicts that are not
    empty, each stored under its id, the ids distinct. *)
Definition stored_drafts (draft_posts : list (dict Json)) (posts : File) : Prop :=
  NoDup (map (dict_get "id") draft_posts)
  /\ forall draft,
       In draft draft_posts ->
       draft <> [] /\ NoDup (dict_keys draft)
       /\ exists s, dict_get "id" draft = Some (JStr s) /\ get_post s posts = Some draft.

(* ================================================================== *)
(** ** Properties *)
(* ================================================================== *)

(** *** Dictionaries and the scoring loop *)

Section Dict.
Context {V : Type}.

Lemma dict_set_fresh (k : string) (v : V) (d : dict V) :
  ~ In k (dict_keys d) -> dict_set k v d = d ++ [(k, v)].
Proof.
  induction d as [|[k' v'] d IH]; simpl; intros Hk; [reflexivity|].
  destruct (String.eqb_spec k k') as [->|Hne].
  - exfalso. apply Hk. now left.
  - rewrite IH; [reflexivity|]. intros Hin. apply Hk. now right.
Qed.

End Dict.

Lemma dict_keys_scored_incl buckets text k :
  In k (dict_keys (scored buckets text)) -> In k (dict_keys buckets).
Proof.
  unfold scored, dict_keys. rewrite !in_map_iff.
  intros [[k' v] [<- Hin]]. apply filter_In in Hin as [Hin _].
  apply in_map_iff in Hin as [[k'' kws] [Heq Hin]].
  exists (k'', kws). split; [now inversion Heq|assumption].
Qed.

Lemma score_loop_from buckets text acc :
  NoDup (dict_keys acc ++ dict_keys buckets) ->
  (forall k, In k (dict_keys acc) -> ~ In k (dict_keys buckets)) ->
  fold_left
    (fun scores (entry : string * list string) =>
       let (name, keywords) := entry in
       let score := keyword_score keywords text in
       if (0 <? score)%nat then dict_set name score scores else scores)
    buckets acc
  = acc ++ scored buckets text.
Proof.
  revert acc. induction buckets as [|[name kws] buckets IH]; intros acc Hnd Hdisj.
  - simpl. now rewrite app_nil_r.
  - simpl fold_left.
    assert (Hfresh : ~ In name (dict_keys acc)).
    { intros Hin. apply (Hdisj _ Hin). now left. }
    unfold scored. simpl map. simpl filter.
    destruct (0 <? keyword_score kws text)%nat eqn:Hpos.
    + rewrite dict_set_fresh by assumption.
      rewrite IH.
      * unfold scored. now rewrite <- app_assoc.
      * unfold dict_keys in *. rewrite map_app. simpl.
        rewrite <- app_assoc. exact Hnd.
      * intros k Hk Hin. unfold dict_keys in Hk. rewrite map_app in Hk.
        apply in_app_or in Hk as [Hk|Hk].
        -- apply (Hdisj k Hk). now right.
        -- simpl in Hk. destruct Hk as [<-|[]].
           apply NoDup_remove_2 in Hnd. apply Hnd.
           apply in_or_app. now right.
    + rewrite IH.
      * reflexivity.
      * apply NoDup_remove_1 in Hnd. exact Hnd.
      * intros k Hk Hin. apply (Hdisj k Hk). now right.
Qed.

Lemma score_buckets_scored buckets text :
  NoDup (dict_keys buckets) -> score_buckets buckets text = scored buckets text.
Proof.
  intros Hnd. unfold score_buckets.
  rewrite score_loop_from; [reflexivity|exact Hnd|intros k []].
Qed.


(** *** The first maximum *)

Lemma first_max_bound (d : dict nat) (winner : string) (before : dict nat) v after :
  d = before ++ (winner, v) :: after ->
  (forall e, In e before -> (snd e < v)%nat) ->
  (forall e, In e after -> (snd e <= v)%nat) ->
  forall e, In e d -> (snd e <= v)%nat.
Proof.
  intros -> Hb Ha e Hin. apply in_app_or in Hin as [Hin|[<-|Hin]].
  - apply Nat.lt_le_incl. now apply Hb.
  - simpl. lia.
  - now apply Ha.
Qed.

Lemma max_from_first_max rest : forall best best_v,
  first_max ((best, best_v) :: rest) (max_from best best_v rest).
Proof.
  induction rest as [|[k v] rest IH]; intros best best_v; simpl.
  - exists [], best_v, []. repeat split; intros e [].
  - destruct (best_v <? v)%nat eqn:Hlt.
    + apply Nat.ltb_lt in Hlt.
      destruct (IH k v) as (before & w & after & Heq & Hb & Ha).
      exists ((best, best_v) :: before), w, after. rewrite Heq. repeat split.
      * intros e [<-|Hin]; [|now apply Hb]. simpl.
        assert (Hv : (snd (k, v) <= w)%nat).
        { apply (first_max_bound _ _ _ _ _ Heq Hb Ha). now left. }
        simpl in Hv. lia.
      * exact Ha.
    + apply Nat.ltb_ge in Hlt.
      destruct (IH best best_v) as (before & w & after & Heq & Hb & Ha).
      destruct before as [|e0 before]; simpl in Heq.
      * injection Heq as E1 E2 E3. subst w after.
        exists [], best_v, ((k, v) :: rest). repeat split.
        -- simpl. now rewrite <- E1.
        -- intros e [].
        -- intros e [<-|Hin]; [simpl; lia|]. now apply Ha.
      * injection Heq as E1 E2. subst e0.
        exists ((best, best_v) :: (k, v) :: before), w, after. repeat split.
        -- simpl. do 2 f_equal. exact E2.
        -- intros e [<-|[<-|Hin]].
           ++ apply Hb. now left.
           ++ simpl. assert (best_v < w)%nat by (apply (Hb (best, best_v)); now left). lia.
           ++ apply Hb. now right.
        -- exact Ha.
Qed.

Lemma filter_split {A} (p : A -> bool) (l : list A) : forall l1 x l2,
  filter p l = l1 ++ x :: l2 ->
  exists L1 L2, l = L1 ++ x :: L2 /\ filter p L1 = l1 /\ filter p L2 = l2.
Proof.
  induction l as [|a l IH]; intros l1 x l2 Heq; simpl in Heq.
  - destruct l1; discriminate.
  - destruct (p a) eqn:Hp.
    + destruct l1 as [|b l1]; simpl in Heq; inversion Heq; subst.
      * exists [], l. repeat split; reflexivity.
      * destruct (IH _ _ _ H1) as (L1 & L2 & -> & <- & <-).
        exists (b :: L1), L2. repeat split. simpl. now rewrite Hp.
    + destruct (IH _ _ _ Heq) as (L1 & L2 & -> & <- & <-).
      exists (a :: L1), L2. repeat split. simpl. now rewrite Hp.
Qed.

Lemma scored_nil buckets text :
  scored buckets text = [] <->
  (forall e, In e buckets -> keyword_score (snd e) text = 0%nat).
Proof.
  unfold scored. split.
  - intros Hnil e Hin.
    destruct (keyword_score (snd e) text) eqn:Hs; [reflexivity|exfalso].
    assert (Hf : In (fst e, keyword_score (snd e) text)
                    (filter (fun e => (0 <? snd e)%nat)
                       (map (fun e => (fst e, keyword_score (snd e) text)) buckets))).
    { apply filter_In. split.
      - apply in_map_iff. now exists e.
      - simpl. rewrite Hs. reflexivity. }
    rewrite Hnil in Hf. exact Hf.
  - intros Hall. induction buckets as [|e buckets IH]; [reflexivity|].
    simpl. rewrite (Hall e) by now left. simpl. apply IH.
    intros e' Hin. apply Hall. now right.
Qed.

Lemma pick_zero buckets text default :
  NoDup (dict_keys buckets) ->
  (forall e, In e buckets -> keyword_score (snd e) text = 0%nat) ->
  pick buckets text default = Ok default.
Proof.
  intros Hnd Hall. unfold pick. rewrite score_buckets_scored by assumption.
  apply scored_nil in Hall. now rewrite Hall.
Qed.

Lemma pick_positive buckets text default :
  NoDup (dict_keys buckets) ->
  (exists e, In e buckets /\ (0 < keyword_score (snd e) text)%nat) ->
  exists winner, pick buckets text default = Ok winner /\ winner_of buckets text winner.
Proof.
  intros Hnd [e [Hin Hpos]]. unfold pick. rewrite score_buckets_scored by assumption.
  destruct (scored buckets text) as [|[k v] rest] eqn:Hsc.
  - exfalso. pose proof (proj1 (scored_nil buckets text) Hsc e Hin). lia.
  - simpl. exists (max_from k v rest). split; [reflexivity|].
    destruct (max_from_first_max rest k v) as (before & w & after & Heq & Hb & Ha).
    rewrite <- Hsc in Heq. unfold scored in Heq.
    destruct (filter_split _ _ _ _ _ Heq) as (L1 & L2 & Hmap & HL1 & HL2).
    apply map_eq_app in Hmap as (B1 & B2 & -> & HB1 & HB2).
    destruct B2 as [|[name kws] B2]; [discriminate|].
    simpl in HB2. inversion HB2; subst.
    assert (Hw : (0 < keyword_score kws text)%nat).
    { assert (Hf : In (max_from k v rest, keyword_score kws text)
                      (filter (fun e => (0 <? snd e)%nat)
                         (map (fun e => (fst e, keyword_score (snd e) text))
                              (B1 ++ (max_from k v rest, kws) :: B2)))).
      { rewrite Heq. apply in_or_app. right. now left. }
      apply filter_In in Hf as [_ Hf]. simpl in Hf. now apply Nat.ltb_lt. }
    exists B1, kws, B2. repeat split; try assumption.
    + intros e' Hin'.
      destruct (keyword_score (snd e') text) eqn:Hs; [exact Hw|].
      rewrite <- Hs.
      apply (Hb (fst e', keyword_score (snd e') text)).
      apply filter_In. split.
      * apply in_map_iff. now exists e'.
      * simpl. rewrite Hs. reflexivity.
    + intros e' Hin'.
      destruct (keyword_score (snd e') text) eqn:Hs; [lia|].
      rewrite <- Hs.
      apply (Ha (fst e', keyword_score (snd e') text)).
      apply filter_In. split.
      * apply in_map_iff. now exists e'.
      * simpl. rewrite Hs. reflexivity.
Qed.


(** *** Classifier *)

Lemma prefix_app kw s : String.prefix kw s = true <-> exists b, s = (kw ++ b)%string.
Proof.
  revert s. induction kw as [|c kw IH]; intros s.
  - split; [intros _; now exists s|intros _; now destruct s].
  - destruct s as [|c' s]; simpl.
    + split; [discriminate|intros [b Hb]; discriminate].
    + destruct (Ascii.ascii_dec c c') as [<-|Hne].
      * rewrite IH. split; intros [b Hb]; exists b; [now rewrite Hb|now inversion Hb].
      * split; [discriminate|intros [b Hb]; congruence].
Qed.

Lemma str_in_occurs kw s : str_in kw s = true <-> occurs kw s.
Proof.
  unfold occurs. induction s as [|c s IH]; cbn [str_in].
  - rewrite orb_false_r, prefix_app. split.
    + intros [b Hb]. now exists EmptyString, b.
    + intros [a [b Hab]]. destruct a; [now exists b|discriminate].
  - rewrite orb_true_iff, prefix_app, IH. split.
    + intros [[b Hb]|[a [b Hab]]].
      * now exists EmptyString, b.
      * exists (String c a), b. simpl. now rewrite Hab.
    + intros [a [b Hab]]. destruct a as [|c' a].
      * left. now exists b.
      * right. exists a, b. simpl in Hab. now inversion Hab.
Qed.

Lemma keyword_score_zero keywords text :
  (forall kw, In kw keywords -> ~ occurs kw text) -> keyword_score keywords text = 0%nat.
Proof.
  intros Hno. unfold keyword_score.
  induction keywords as [|kw keywords IH]; [reflexivity|].
  simpl. destruct (str_in kw text) eqn:Hin.
  - exfalso. apply (Hno kw); [now left|]. now apply str_in_occurs.
  - apply IH. intros kw' Hkw'. apply Hno. now right.
Qed.

Lemma keyword_score_positive keywords text :
  (0 < keyword_score keywords text)%nat <-> exists kw, In kw keywords /\ occurs kw text.
Proof.
  unfold keyword_score. split.
  - intros Hpos. destruct (filter _ keywords) as [|kw l] eqn:Hf; [simpl in Hpos; lia|].
    assert (Hin : In kw (filter (fun keyword => str_in keyword text) keywords)).
    { rewrite Hf. now left. }
    apply filter_In in Hin as [Hin Hkw]. exists kw. split; [assumption|].
    now apply str_in_occurs.
  - intros [kw [Hin Hocc]].
    assert (Hf : In kw (filter (fun keyword => str_in keyword text) keywords)).
    { apply filter_In. split; [assumption|]. now apply str_in_occurs. }
    destruct (filter _ keywords); [destruct Hf|simpl; lia].
Qed.

Lemma industry_keys_nodup : NoDup (dict_keys industry_keywords).
Proof.
  unfold industry_keywords, dict_keys; simpl.
  repeat (constructor; [simpl; intuition discriminate|]). constructor.
Qed.

Lemma tone_keys_nodup : NoDup (dict_keys tone_indicators).
Proof.
  unfold tone_indicators, dict_keys; simpl.
  repeat (constructor; [simpl; intuition discriminate|]). constructor.
Qed.

Lemma winner_of_key buckets text winner :
  winner_of buckets text winner -> In winner (dict_keys buckets).
Proof.
  intros (before & kws & after & -> & _). unfold dict_keys.
  rewrite map_app. apply in_or_app. right. now left.
Qed.

Lemma pick_cases buckets text default :
  NoDup (dict_keys buckets) ->
  (pick buckets text default = Ok default
   /\ forall e, In e buckets -> keyword_score (snd e) text = 0%nat)
  \/ (exists winner, pick buckets text default = Ok winner /\ winner_of buckets text winner).
Proof.
  intros Hnd.
  destruct (Forall_Exists_dec (fun e : string * list string => keyword_score (snd e) text = 0%nat)
              (fun e => Nat.eq_dec _ 0%nat) buckets) as [Hall|Hex].
  - left. rewrite Forall_forall in Hall. split; [now apply pick_zero|exact Hall].
  - right. apply pick_positive; [assumption|].
    apply Exists_exists in Hex as [e [Hin Hne]]. exists e. split; [assumption|lia].
Qed.

(** C2, amended.  For every text and service list such that a keyword of
    some bucket occurs in the scored text (the text, a space, and the
    space-joined service names lowered by [str.lower], whatever that
    function does outside ASCII), the industry classifier returns the bucket
    with the maximum keyword-match score, and on a tie the one that comes
    first in the fixed order fitness, beauty, food, retail, healthcare,
    education, professional, automotive, entertainment. *)
Theorem C2_industry_first_maximum (str_lower : string -> string)
        (text : string) (services : list string) :
  (exists e kw, In e industry_keywords /\ In kw (snd e)
                /\ occurs kw (all_text str_lower text services)) ->
  dict_keys industry_keywords
  = ["fitness"; "beauty"; "food"; "retail"; "healthcare"; "education";
     "professional"; "automotive"; "entertainment"]
  /\ exists winner,
       _classify_industry str_lower text services = Ok winner
       /\ winner_of industry_keywords (all_text str_lower text services) winner.
Proof.
  intros (e & kw & He & Hkw & Hocc). split; [reflexivity|].
  apply (pick_positive industry_keywords (all_text str_lower text services) "general"
           industry_keys_nodup).
  exists e. split; [exact He|]. apply keyword_score_positive. now exists kw.
Qed.

(** C2, amended, at a text that names a gym and a spa and the ASCII service
    name 'Hair Salon': gym counts for fitness, spa, hair and salon for
    beauty, and the industry is beauty. *)
Lemma C2_witness_gym_spa :
  (exists e kw, In e industry_keywords /\ In kw (snd e)
                /\ occurs kw (all_text lower "our gym and spa" ["Hair Salon"]))
  /\ _classify_industry lower "our gym and spa" ["Hair Salon"] = Ok "beauty"
  /\ winner_of industry_keywords (all_text lower "our gym and spa" ["Hair Salon"]) "beauty".
Proof.
  assert (H : exists e kw, In e industry_keywords /\ In kw (snd e)
                           /\ occurs kw (all_text lower "our gym and spa" ["Hair Salon"])).
  { eexists. exists "gym". split; [left; reflexivity|]. split; [now left|].
    apply str_in_occurs. reflexivity. }
  split; [exact H|].
  destruct (C2_industry_first_maximum lower "our gym and spa" ["Hair Salon"] H)
    as (_ & winner & Hwinner & Hfirst).
  assert (Hrun : _classify_industry lower "our gym and spa" ["Hair Salon"] = Ok "beauty")
    by reflexivity.
  rewrite Hrun in Hwinner. injection Hwinner as <-. split; [reflexivity|exact Hfirst].
Defined.

(** C2 fails on the code for a text without keywords: all nine buckets tie
    at the maximum score 0, and the classifier returns ["general"], which is
    none of them, not the first bucket.  (No service name is lowered here,
    and the empty string is its own lower case.) *)
Lemma C2_no_keyword_is_general :
  _classify_industry lower "" [] = Ok "general"
  /\ ~ In "general" (dict_keys industry_keywords)
  /\ Forall (fun e => keyword_score (snd e) (all_text lower "" []) = 0%nat) industry_keywords.
Proof.
  split; [reflexivity|]. split.
  - simpl. intuition discriminate.
  - repeat constructor.
Qed.

(** C3, amended.  The classifier is total: for every text and service list
    [_classify_industry] and [_analyze_tone] return, without raising, a value
    of the closed sets of industries and tones.  When no industry keyword
    occurs in the text followed by a space and the service names, joined
    and lowered by [str.lower] (whatever that function does outside ASCII),
    the industry is ["general"]; when no tone keyword occurs in the text,
    the tone is ["professional"]. *)
Theorem C3_classifier_total (str_lower : string -> string)
        (text : string) (services : list string) :
  (exists i, _classify_industry str_lower text services = Ok i /\ In i industry_enum)
  /\ (exists t, _analyze_tone text = Ok t /\ In t tone_enum)
  /\ ((forall e kw, In e industry_keywords -> In kw (snd e) ->
                    ~ occurs kw (all_text str_lower text services)) ->
      _classify_industry str_lower text services = Ok "general")
  /\ ((forall e kw, In e tone_indicators -> In kw (snd e) -> ~ occurs kw text) ->
      _analyze_tone text = Ok "professional").
Proof.
  change (_classify_industry str_lower text services)
    with (pick industry_keywords (all_text str_lower text services) "general").
  change (_analyze_tone text) with (pick tone_indicators text "professional").
  repeat split.
  - destruct (pick_cases industry_keywords (all_text str_lower text services) "general"
                industry_keys_nodup) as [[-> _]|[w [-> Hw]]].
    + exists "general". split; [reflexivity|]. unfold industry_enum. simpl. tauto.
    + exists w. split; [reflexivity|]. apply winner_of_key in Hw.
      unfold industry_enum. simpl in *. tauto.
  - destruct (pick_cases tone_indicators text "professional" tone_keys_nodup)
      as [[-> _]|[w [-> Hw]]].
    + exists "professional". split; [reflexivity|]. now left.
    + exists w. split; [reflexivity|]. apply winner_of_key in Hw. exact Hw.
  - intros Hno. apply pick_zero; [exact industry_keys_nodup|].
    intros e He. apply keyword_score_zero. intros kw Hkw. now apply (Hno e kw).
  - intros Hno. apply pick_zero; [exact tone_keys_nodup|].
    intros e He. apply keyword_score_zero. intros kw Hkw. now apply (Hno e kw).
Qed.

(** C3 fails on the code when a keyword comes with the service list: no
    keyword of any bucket occurs in the text, and the industry is not
    ["general"].  The service name is ASCII, where [lower] is
    [str.lower]. *)
Lemma C3_keyword_in_services :
  Forall (fun e => Forall (fun kw => str_in kw "hello" = false) (snd e))
         (industry_keywords ++ tone_indicators)
  /\ _classify_industry lower "hello" ["Gym"] = Ok "fitness".
Proof.
  split; [|reflexivity]. repeat constructor.
Qed.

Lemma no_keyword_occurs (buckets : dict (list string)) (text : string) :
  forallb (fun e => forallb (fun kw => negb (str_in kw text)) (snd e)) buckets = true ->
  forall e kw, In e buckets -> In kw (snd e) -> ~ occurs kw text.
Proof.
  intros Hall e kw He Hkw Hocc. rewrite forallb_forall in Hall.
  specialize (Hall e He). rewrite forallb_forall in Hall. specialize (Hall kw Hkw).
  apply str_in_occurs in Hocc. rewrite Hocc in Hall. discriminate.
Qed.

(** C3, amended, at a text without keywords and the ASCII service name
    'Consultation'. *)
Lemma C3_witness_hello :
  _classify_industry lower "hello" ["Consultation"] = Ok "general"
  /\ _analyze_tone "hello" = Ok "professional".
Proof.
  destruct (C3_classifier_total lower "hello" ["Consultation"])
    as (_ & _ & Hindustry & Htone). split.
  - apply Hindustry. apply no_keyword_occurs. vm_compute. reflexivity.
  - apply Htone. apply no_keyword_occurs. vm_compute. reflexivity.
Defined.


(** *** Engagement estimate *)

Ltac string_cases s :=
  repeat match goal with
         | |- context [String.eqb s ?k] =>
             let E := fresh "E" in
             destruct (String.eqb_spec s k) as [E|E]; [try subst s|]
         end.

Lemma estimate_closed_form (post_type tone : string) :
  _estimate_engagement post_type tone
  = Ok {| estimated_likes := (likes (base_of post_type) * tone_tenths tone / 10)%Z;
          estimated_comments := (comments (base_of post_type) * tone_tenths tone / 10)%Z;
          estimated_shares := (shares (base_of post_type) * tone_tenths tone / 10)%Z;
          engagement_score := if String.eqb tone "friendly" then "high" else "medium" |}.
Proof.
  unfold _estimate_engagement, base_of, tone_tenths, dict_get_default, base_scores,
    tone_multipliers; cbn [dict_get].
  string_cases post_type; string_cases tone; vm_compute; reflexivity.
Qed.


Lemma multiplier_above_threshold (tone : string) :
  PrimFloat.ltb high_threshold (multiplier_of tone) = true <-> tone = "friendly".
Proof.
  unfold multiplier_of, dict_get_default, tone_multipliers; cbn [dict_get].
  string_cases tone; split; intros H; try reflexivity; try congruence;
    vm_compute in H; discriminate.
Qed.

Lemma estimate_products (post_type tone : string) :
  int_of_float (int_mul_float (likes (base_of post_type)) (multiplier_of tone))
  = Ok (likes (base_of post_type) * tone_tenths tone / 10)%Z
  /\ int_of_float (int_mul_float (comments (base_of post_type)) (multiplier_of tone))
     = Ok (comments (base_of post_type) * tone_tenths tone / 10)%Z
  /\ int_of_float (int_mul_float (shares (base_of post_type)) (multiplier_of tone))
     = Ok (shares (base_of post_type) * tone_tenths tone / 10)%Z.
Proof.
  unfold base_of, multiplier_of, tone_tenths, dict_get_default, base_scores,
    tone_multipliers; cbn [dict_get].
  string_cases post_type; string_cases tone; vm_compute; repeat split.
Qed.

(** C4.  The engagement estimate multiplies the base values of the post
    type by the multiplier of the tone, as binary64 floats, and truncates
    each product to an integer, which is the integer part of the exact
    decimal product; the score is "high" exactly when the multiplier is
    strictly greater than 1.1.  A friendly tip is estimated at 78 likes, 18
    comments, 30 shares and score "high"; a casual tip, whose multiplier is
    1.1 itself, has score "medium". *)
Theorem C4_engagement_estimate :
  (forall post_type tone : string,
      exists e,
        _estimate_engagement post_type tone = Ok e
        /\ int_of_float (int_mul_float (likes (base_of post_type)) (multiplier_of tone))
           = Ok (estimated_likes e)
        /\ int_of_float (int_mul_float (comments (base_of post_type)) (multiplier_of tone))
           = Ok (estimated_comments e)
        /\ int_of_float (int_mul_float (shares (base_of post_type)) (multiplier_of tone))
           = Ok (estimated_shares e)
        /\ estimated_likes e = (likes (base_of post_type) * tone_tenths tone / 10)%Z
        /\ estimated_comments e = (comments (base_of post_type) * tone_tenths tone / 10)%Z
        /\ estimated_shares e = (shares (base_of post_type) * tone_tenths tone / 10)%Z
        /\ (engagement_score e = "high"
            <-> PrimFloat.ltb high_threshold (multiplier_of tone) = true)
        /\ (engagement_score e = "high" <-> tone = "friendly")
        /\ (engagement_score e = "high" \/ engagement_score e = "medium"))
  /\ _estimate_engagement "tip" "friendly"
     = Ok {| estimated_likes := 78; estimated_comments := 18; estimated_shares := 30;
             engagement_score := "high" |}
  /\ multiplier_of "casual" = high_threshold
  /\ (exists e, _estimate_engagement "tip" "casual" = Ok e /\ engagement_score e = "medium").
Proof.
  split; [|split; [reflexivity|split; [reflexivity|eexists; split; reflexivity]]].
  intros post_type tone. eexists. split; [apply estimate_closed_form|].
  cbn [estimated_likes estimated_comments estimated_shares engagement_score].
  destruct (estimate_products post_type tone) as (Hl & Hc & Hs).
  repeat split; try assumption.
  - intros H. apply multiplier_above_threshold.
    destruct (String.eqb_spec tone "friendly"); [assumption|discriminate].
  - intros H. apply multiplier_above_threshold in H. subst tone. reflexivity.
  - intros H. destruct (String.eqb_spec tone "friendly"); [assumption|discriminate].
  - intros ->. reflexivity.
  - destruct (String.eqb tone "friendly"); [now left|now right].
Qed.


(** *** Content pool *)

(** C9 fails on the code: the table has four keys, three industries and
    [general], and the [general] entry holds six hashtags. *)
Lemma C9_four_entries_general_six :
  length industry_content = 4%nat
  /\ dict_keys industry_content = ["fitness"; "beauty"; "food"; "general"]
  /\ dict_get "retail" industry_content = None
  /\ dict_get "healthcare" industry_content = None
  /\ (exists general, dict_get "general" industry_content = Some general
                      /\ length (hashtags general) = 6%nat).
Proof.
  repeat split. eexists. split; reflexivity.
Qed.

(** C9, amended.  The content pool is keyed by the three industries
    fitness, beauty and food and by [general]; every entry holds 5 offers, 5
    tips and 5 value propositions; the three industries hold 7 hashtags each
    and [general] holds 6; any other industry resolves to the [general]
    entry. *)
Theorem C9_content_pool_shape :
  dict_keys industry_content = ["fitness"; "beauty"; "food"; "general"]
  /\ Forall (fun entry =>
               length (offers (snd entry)) = 5%nat
               /\ length (tips (snd entry)) = 5%nat
               /\ length (value_props (snd entry)) = 5%nat
               /\ length (hashtags (snd entry))
                  = (if String.eqb (fst entry) "general" then 6%nat else 7%nat))
            industry_content
  /\ (forall industry,
         ~ In industry ["fitness"; "beauty"; "food"] ->
         industry_data_of industry = dict_item "general" industry_content).
Proof.
  split; [reflexivity|]. split.
  - repeat constructor.
  - intros industry Hnot. unfold industry_data_of, dict_get_default, dict_item.
    cbn [dict_get industry_content bind].
    string_cases industry; try reflexivity; exfalso; apply Hnot; simpl; tauto.
Qed.


(** *** Weekly schedule: the loop *)

Section ScheduleSpec.
Context {P : Type} (best_time_of : P -> option string).

Lemma add_days_in_range start i :
  day_in_range start i -> add_days start (Z.of_nat i) = Ok (date_at start i).
Proof.
  unfold day_in_range, add_days, date_at. intros [H1 H2].
  destruct (Z.ltb_spec 0 (ymd2ord start + Z.of_nat i)); [|lia].
  destruct (Z.leb_spec (ymd2ord start + Z.of_nat i) MAXORDINAL); [|lia].
  reflexivity.
Qed.

Lemma add_days_ok start i d :
  add_days start (Z.of_nat i) = Ok d -> day_in_range start i.
Proof.
  unfold day_in_range, add_days.
  destruct (Z.ltb_spec 0 (ymd2ord start + Z.of_nat i)); [|discriminate].
  destruct (Z.leb_spec (ymd2ord start + Z.of_nat i) MAXORDINAL); [|discriminate].
  intros _. lia.
Qed.

Lemma post_index_lt posting_days (posts : list P) day j :
  post_index_of posting_days posts day = Some j -> (j < length posts)%nat.
Proof.
  unfold post_index_of. destruct (index day posting_days) as [k|]; [|discriminate].
  destruct (Nat.ltb_spec k (length posts)); [|discriminate].
  intros [= <-]. assumption.
Qed.

Lemma schedule_day_in_range start posting_days posts i day :
  day_in_range start i ->
  schedule_day best_time_of start posting_days posts i day
  = Ok (slot_for best_time_of start posting_days posts i day).
Proof.
  intros Hr. unfold schedule_day, slot_for. rewrite (add_days_in_range _ _ Hr). simpl.
  destruct (post_index_of posting_days posts day) as [j|] eqn:Hj; [|reflexivity].
  apply post_index_lt in Hj. unfold item.
  destruct (nth_error posts j) as [p|] eqn:Hp.
  - reflexivity.
  - apply nth_error_None in Hp. lia.
Qed.

Lemma schedule_day_ok start posting_days posts i day slot :
  schedule_day best_time_of start posting_days posts i day = Ok slot ->
  day_in_range start i.
Proof.
  unfold schedule_day. destruct (add_days start (Z.of_nat i)) as [d|e] eqn:Hd.
  - intros _. exact (add_days_ok _ _ _ Hd).
  - discriminate.
Qed.

Lemma schedule_loop_in_range start posting_days posts rest : forall i schedule,
  NoDup (dict_keys schedule ++ rest) ->
  (forall k, (k < length rest)%nat -> day_in_range start (i + k)) ->
  schedule_loop best_time_of start posting_days posts i rest schedule
  = Ok (schedule ++ week_from best_time_of start posting_days posts i rest).
Proof.
  induction rest as [|day rest IH]; intros i schedule Hnd Hr; simpl.
  - now rewrite app_nil_r.
  - rewrite schedule_day_in_range.
    2:{ specialize (Hr 0%nat). rewrite Nat.add_0_r in Hr. apply Hr. simpl. lia. }
    simpl. rewrite dict_set_fresh.
    2:{ apply NoDup_remove_2 in Hnd. intros Hin. apply Hnd. apply in_or_app. now left. }
    rewrite IH.
    + now rewrite <- app_assoc.
    + unfold dict_keys. rewrite map_app. simpl. rewrite <- app_assoc. exact Hnd.
    + intros k Hk. replace (S i + k)%nat with (i + S k)%nat by lia.
      apply Hr. simpl. lia.
Qed.

Lemma schedule_loop_ok start posting_days posts rest : forall i schedule result,
  schedule_loop best_time_of start posting_days posts i rest schedule = Ok result ->
  forall k, (k < length rest)%nat -> day_in_range start (i + k).
Proof.
  induction rest as [|day rest IH]; intros i schedule result Hok k Hk; simpl in *.
  - lia.
  - destruct (schedule_day best_time_of start posting_days posts i day) as [slot|e] eqn:Hd;
      [|discriminate].
    simpl in Hok. destruct k as [|k].
    + rewrite Nat.add_0_r. exact (schedule_day_ok _ _ _ _ _ _ Hd).
    + replace (i + S k)%nat with (S i + k)%nat by lia.
      apply (IH _ _ _ Hok). lia.
Qed.

Lemma days_nodup : NoDup days.
Proof.
  unfold days. repeat (constructor; [simpl; intuition discriminate|]). constructor.
Qed.

Lemma week_in_range start k :
  (1 <= ymd2ord start)%Z -> (ymd2ord start + 6 <= MAXORDINAL)%Z ->
  (k < 7)%nat -> day_in_range start k.
Proof. unfold day_in_range. lia. Qed.

Lemma create_weekly_schedule_returns posts frequency preferred_days start_date now start :
  start_of start_date now = Ok start ->
  (1 <= ymd2ord start)%Z -> (ymd2ord start + 6 <= MAXORDINAL)%Z ->
  create_weekly_schedule best_time_of posts frequency preferred_days start_date now
  = Ok (week best_time_of start (posting_days_of frequency preferred_days) posts).
Proof.
  intros Hs H1 H6. unfold create_weekly_schedule. rewrite Hs. unfold bind. cbv zeta.
  rewrite schedule_loop_in_range.
  - reflexivity.
  - exact days_nodup.
  - intros k Hk. apply week_in_range; assumption.
Qed.

Lemma create_weekly_schedule_inv posts frequency preferred_days start_date now schedule :
  create_weekly_schedule best_time_of posts frequency preferred_days start_date now
  = Ok schedule ->
  exists start,
    start_of start_date now = Ok start
    /\ (1 <= ymd2ord start)%Z /\ (ymd2ord start + 6 <= MAXORDINAL)%Z
    /\ schedule = week best_time_of start (posting_days_of frequency preferred_days) posts.
Proof.
  intros Hok. pose proof Hok as Hloop. unfold create_weekly_schedule in Hloop.
  destruct (start_of start_date now) as [start|e] eqn:Hs; [|discriminate].
  cbv beta iota zeta delta [bind] in Hloop. exists start.
  pose proof (schedule_loop_ok _ _ _ _ _ _ _ Hloop) as Hr.
  assert (H0 := Hr 0%nat ltac:(simpl; lia)).
  assert (H6 := Hr 6%nat ltac:(simpl; lia)).
  unfold day_in_range in H0, H6. simpl in H0, H6.
  assert (Hlo : (1 <= ymd2ord start)%Z) by lia.
  assert (Hhi : (ymd2ord start + 6 <= MAXORDINAL)%Z) by lia.
  repeat split; try assumption.
  rewrite (create_weekly_schedule_returns posts frequency preferred_days start_date now start
             Hs Hlo Hhi) in Hok.
  now injection Hok.
Qed.

End ScheduleSpec.


(** *** Weekly schedule: counting the filled slots *)

Lemma mem_In x l : mem x l = true <-> In x l.
Proof.
  induction l as [|y l IH]; simpl; [split; [discriminate|tauto]|].
  rewrite orb_true_iff, IH.
  destruct (String.eqb_spec x y) as [->|Hne]; split; intros [H|H]; auto; try discriminate.
Qed.

Lemma index_nth_error x l : forall j,
  index x l = Some j ->
  nth_error l j = Some x /\ forall i, (i < j)%nat -> nth_error l i <> Some x.
Proof.
  induction l as [|y l IH]; intros j; simpl; [discriminate|].
  destruct (String.eqb_spec x y) as [->|Hne].
  - intros [= <-]. split; [reflexivity|]. intros i Hi. lia.
  - destruct (index x l) as [k|]; [|discriminate].
    intros [= <-]. destruct (IH k eq_refl) as [Hk Hfirst]. split; [exact Hk|].
    intros [|i] Hi; simpl.
    + congruence.
    + apply Hfirst. lia.
Qed.

Lemma index_In x l j : index x l = Some j -> In x l.
Proof.
  intros H. apply index_nth_error in H as [H _]. eapply nth_error_In. exact H.
Qed.

Section Counting.
Context {P : Type} (best_time_of : P -> option string).

Lemma post_index_spec posting_days (posts : list P) day j :
  post_index_of posting_days posts day = Some j ->
  index day posting_days = Some j /\ (j < length posts)%nat.
Proof.
  unfold post_index_of. destruct (index day posting_days) as [k|]; [|discriminate].
  destruct (Nat.ltb_spec k (length posts)); [|discriminate].
  intros [= <-]. split; [reflexivity|assumption].
Qed.

Lemma filled_week_from start posting_days (posts : list P) rest : forall i,
  filled_slots (week_from best_time_of start posting_days posts i rest)
  = length (filter (has_post posting_days posts) rest).
Proof.
  unfold filled_slots. induction rest as [|day rest IH]; intros i; simpl; [reflexivity|].
  unfold has_post at 1.
  destruct (post_index_of posting_days posts day) as [j|] eqn:Hj; simpl.
  - apply post_index_lt in Hj.
    destruct (nth_error posts j) eqn:Hp; [|apply nth_error_None in Hp; lia].
    simpl. f_equal. apply IH.
  - apply IH.
Qed.

Lemma week_from_keys start posting_days (posts : list P) rest : forall i,
  dict_keys (week_from best_time_of start posting_days posts i rest) = rest.
Proof.
  induction rest as [|day rest IH]; intros i; simpl; [reflexivity|]. f_equal. apply IH.
Qed.

Lemma week_from_nth start posting_days (posts : list P) rest : forall i k day,
  nth_error rest k = Some day ->
  nth_error (week_from best_time_of start posting_days posts i rest) k
  = Some (day, slot_for best_time_of start posting_days posts (i + k) day).
Proof.
  induction rest as [|d rest IH]; intros i [|k] day; simpl; try discriminate.
  - intros [= ->]. now rewrite Nat.add_0_r.
  - intros H. rewrite (IH (S i) k day H). do 3 f_equal. lia.
Qed.

Lemma week_from_In start posting_days (posts : list P) rest : forall i day slot,
  In (day, slot) (week_from best_time_of start posting_days posts i rest) ->
  exists k, nth_error rest k = Some day
            /\ slot = slot_for best_time_of start posting_days posts (i + k) day.
Proof.
  induction rest as [|d rest IH]; intros i day slot; simpl; [intros []|].
  intros [[= <- <-]|Hin].
  - exists 0%nat. split; [reflexivity|]. now rewrite Nat.add_0_r.
  - destruct (IH _ _ _ Hin) as [k [Hk ->]]. exists (S k). split; [exact Hk|].
    f_equal. lia.
Qed.

(** The days that receive a post are at most as many as the posts. *)
Lemma filled_le_posts posting_days (posts : list P) rest :
  NoDup rest ->
  (length (filter (has_post posting_days posts) rest) <= length posts)%nat.
Proof.
  intros Hnd.
  set (filled := filter (has_post posting_days posts) rest).
  set (f := fun day => match index day posting_days with Some j => j | None => 0%nat end).
  rewrite <- (length_map f filled), <- (length_seq (length posts) 0).
  apply NoDup_incl_length.
  - apply NoDup_map_NoDup_ForallPairs; [|now apply NoDup_filter].
    intros a b Ha Hb Hab. unfold filled in Ha, Hb.
    apply filter_In in Ha as [_ Ha]. apply filter_In in Hb as [_ Hb].
    unfold has_post in Ha, Hb.
    destruct (post_index_of posting_days posts a) as [ja|] eqn:Hja; [|discriminate].
    destruct (post_index_of posting_days posts b) as [jb|] eqn:Hjb; [|discriminate].
    apply post_index_spec in Hja as [Hja _]. apply post_index_spec in Hjb as [Hjb _].
    unfold f in Hab. rewrite Hja, Hjb in Hab. subst jb.
    apply index_nth_error in Hja as [Hja _]. apply index_nth_error in Hjb as [Hjb _].
    congruence.
  - intros j Hj. apply in_map_iff in Hj as [day [<- Hday]].
    unfold filled in Hday. apply filter_In in Hday as [_ Hday]. unfold has_post in Hday.
    destruct (post_index_of posting_days posts day) as [k|] eqn:Hk; [|discriminate].
    apply post_index_spec in Hk as [Hk Hlt]. unfold f. rewrite Hk.
    apply in_seq. lia.
Qed.


End Counting.

Lemma slice_to_length_le {A} (l : list A) (n : Z) :
  (0 <= n)%Z -> (Z.of_nat (length (slice_to l n)) <= n)%Z.
Proof.
  intros Hn. unfold slice_to. destruct (Z.leb_spec 0 n); [|lia].
  pose proof (firstn_le_length (Z.to_nat n) l). lia.
Qed.

Lemma posting_days_length_le frequency preferred_days :
  (0 <= frequency)%Z ->
  (Z.of_nat (length (posting_days_of frequency preferred_days)) <= frequency)%Z.
Proof.
  intros Hf. unfold posting_days_of.
  set (pd := slice_to _ frequency).
  pose proof (slice_to_length_le
                (if negb (truthy preferred_days) then default_days frequency
                 else preferred_days)
                frequency Hf) as Hpd. fold pd in Hpd.
  destruct (Z.ltb_spec (Z.of_nat (length pd)) frequency) as [Hlt|Hge].
  - rewrite length_app.
    pose proof (slice_to_length_le (filter (fun day => negb (mem day pd)) days)
                  (frequency - Z.of_nat (length pd)) ltac:(lia)).
    lia.
  - exact Hpd.
Qed.



(** *** Calendar dates *)

Lemma days_before_year_nonneg y : (1 <= y)%Z -> (0 <= days_before_year y)%Z.
Proof.
  intros Hy. unfold days_before_year. Z.div_mod_to_equations. lia.
Qed.

Lemma days_before_month_nonneg y m :
  (1 <= m <= 12)%Z -> (0 <= days_before_month y m)%Z.
Proof.
  intros Hm. unfold days_before_month.
  assert (Hcases : (m = 1 \/ m = 2 \/ m = 3 \/ m = 4 \/ m = 5 \/ m = 6 \/ m = 7
                    \/ m = 8 \/ m = 9 \/ m = 10 \/ m = 11 \/ m = 12)%Z) by lia.
  destruct (is_leap y);
    repeat (destruct Hcases as [->|Hcases]; [simpl; lia|]); subst; simpl; lia.
Qed.

Lemma ymd2ord_pos d : valid_date d = true -> (1 <= ymd2ord d)%Z.
Proof.
  unfold valid_date, ymd2ord. rewrite !andb_true_iff, !Z.leb_le.
  intros [[[[[Hy _] Hm1] Hm2] Hd] _].
  pose proof (days_before_year_nonneg (year d) Hy).
  pose proof (days_before_month_nonneg (year d) (month d) ltac:(lia)).
  lia.
Qed.

Lemma strptime_ymd_valid s d : strptime_ymd s = Ok d -> valid_date d = true.
Proof.
  unfold strptime_ymd.
  destruct (match_year s) as [[y s1]|]; [|discriminate].
  destruct (match_dash s1) as [s2|]; [|discriminate].
  destruct (match_month s2) as [[m s3]|]; [|discriminate].
  destruct (match_dash s3) as [s4|]; [|discriminate].
  destruct (match_day s4) as [[dd [|c rest]]|]; try discriminate.
  destruct (valid_date (mkdate y m dd)) eqn:Hv; [|discriminate].
  now intros [= <-].
Qed.

Lemma start_of_valid start_date now start :
  valid_date now = true -> start_of start_date now = Ok start -> valid_date start = true.
Proof.
  unfold start_of. intros Hnow.
  destruct start_date as [[|c s]|]; try (now intros [= <-]).
  apply strptime_ymd_valid.
Qed.

Example add_days_leap_day :
  add_days (mkdate 2024 2 27) 2 = Ok (mkdate 2024 2 29)
  /\ add_days (mkdate 2023 2 27) 2 = Ok (mkdate 2023 3 1).
Proof. split; reflexivity. Qed.

Example add_days_new_year :
  add_days (mkdate 2025 12 29) 3 = Ok (mkdate 2026 1 1).
Proof. reflexivity. Qed.

Example add_days_last_date :
  ymd2ord (mkdate 9999 12 31) = MAXORDINAL
  /\ add_days (mkdate 9999 12 31) 1 = Raise (OverflowError "date value out of range").
Proof. split; reflexivity. Qed.

Example strptime_ymd_forms :
  strptime_ymd "2025-08-04" = Ok (mkdate 2025 8 4)
  /\ strptime_ymd "2025-8-4" = Ok (mkdate 2025 8 4)
  /\ strptime_ymd "2025-02-30" = Raise (ValueError "date out of range")
  /\ strptime_ymd "2025-08-041" = Raise (ValueError "unconverted data remains")
  /\ strptime_ymd "04/08/2025"
     = Raise (ValueError "time data does not match format '%Y-%m-%d'").
Proof. repeat split; reflexivity. Qed.


(** *** Dates written and read back *)

Lemma digit_of_nat k : (k < 10)%nat -> digit (digit_char (Z.of_nat k)) = Some (Z.of_nat k).
Proof.
  intros Hk. do 10 (destruct k as [|k]; [reflexivity|]). lia.
Qed.

Lemma digit_digit_char n : (0 <= n <= 9)%Z -> digit (digit_char n) = Some n.
Proof.
  intros Hn. rewrite <- (Z2Nat.id n) by lia. apply digit_of_nat. lia.
Qed.

Lemma two_digits_chars n rest :
  (0 <= n <= 99)%Z ->
  two_digits (String (digit_char (n / 10)) (String (digit_char (n mod 10)) rest))
  = Some ((n / 10)%Z, (n mod 10)%Z, rest).
Proof.
  intros Hn. unfold two_digits, one_digit.
  rewrite digit_digit_char by (Z.to_euclidean_division_equations; lia).
  now rewrite digit_digit_char by (Z.to_euclidean_division_equations; lia).
Qed.

Lemma match_year_pad4 y rest :
  (0 <= y <= 9999)%Z -> match_year (pad4 y ++ rest) = Some (y, rest).
Proof.
  intros Hy. unfold match_year, pad4, pad2. cbn [String.append].
  rewrite two_digits_chars by (Z.to_euclidean_division_equations; lia).
  rewrite two_digits_chars by (Z.to_euclidean_division_equations; lia).
  do 2 f_equal. Z.to_euclidean_division_equations. lia.
Qed.

Lemma match_month_pad2 m rest :
  (1 <= m <= 12)%Z -> match_month (pad2 m ++ rest) = Some (m, rest).
Proof.
  intros Hm.
  assert (H : (m = 1 \/ m = 2 \/ m = 3 \/ m = 4 \/ m = 5 \/ m = 6 \/ m = 7 \/ m = 8
               \/ m = 9 \/ m = 10 \/ m = 11 \/ m = 12)%Z) by lia.
  repeat (destruct H as [->|H]; [reflexivity|]). now subst.
Qed.

Lemma match_day_pad2 d :
  (1 <= d <= 31)%Z -> match_day (pad2 d) = Some (d, EmptyString).
Proof.
  intros Hd.
  assert (H : exists k, (k < 31)%nat /\ d = Z.of_nat (S k)).
  { exists (Z.to_nat (d - 1)). lia. }
  destruct H as (k & Hk & ->).
  do 31 (destruct k as [|k]; [reflexivity|]). lia.
Qed.

Lemma days_in_month_le y m : (days_in_month y m <= 31)%Z.
Proof.
  unfold days_in_month. destruct ((m =? 2)%Z && is_leap y); [lia|].
  assert (Hall : Forall (fun n => n <= 31)%Z DAYS_IN_MONTH)
    by (unfold DAYS_IN_MONTH; repeat constructor; lia).
  rewrite Forall_forall in Hall.
  destruct (nth_in_or_default (Z.to_nat m) DAYS_IN_MONTH (-1)%Z) as [Hin|Hdef].
  - now apply Hall.
  - rewrite Hdef. lia.
Qed.

(** A date written with [strftime('%Y-%m-%d')] is read back by
    [strptime]. *)
Lemma strptime_strftime d :
  valid_date d = true -> strptime_ymd (strftime_ymd d) = Ok d.
Proof.
  intros Hv. pose proof Hv as Hvalid. destruct d as [y m dd].
  unfold valid_date in Hv. cbn [year month day] in Hv.
  repeat (apply andb_true_iff in Hv as [Hv ?]).
  repeat match goal with H : (_ <=? _)%Z = true |- _ => apply Z.leb_le in H end.
  pose proof (days_in_month_le y m).
  unfold strptime_ymd, strftime_ymd. cbn [year month day].
  rewrite match_year_pad4 by lia.
  change (match_dash ("-" ++ pad2 m ++ "-" ++ pad2 dd))
    with (Some (pad2 m ++ "-" ++ pad2 dd)%string).
  cbv beta iota.
  rewrite match_month_pad2 by lia.
  change (match_dash ("-" ++ pad2 dd)) with (Some (pad2 dd)).
  cbv beta iota.
  rewrite match_day_pad2 by lia.
  now rewrite Hvalid.
Qed.

(** *** Weekly schedule: the claims *)

(** C1.  Scheduler called with frequency 3, preferred days monday, wednesday
    and friday, start date 2025-08-04 and at least three posts: the monday
    slot is dated 2025-08-04 and holds [posts[0]], the wednesday slot is
    dated 2025-08-06 and holds [posts[1]], the friday slot is dated
    2025-08-08 and holds [posts[2]], and the tuesday, thursday, saturday and
    sunday slots hold no post. *)
Theorem C1_monday_wednesday_friday {P : Type} (best_time_of : P -> option string)
        (p0 p1 p2 : P) (more : list P) (now : date) :
  create_weekly_schedule best_time_of (p0 :: p1 :: p2 :: more) 3
    ["monday"; "wednesday"; "friday"] (Some "2025-08-04") now
  = Ok [ ("monday",
          {| slot_date := "2025-08-04"; slot_post := Some p0;
             suggested_time := Some (time_of best_time_of p0); day_of_week := "Monday" |});
         ("tuesday",
          {| slot_date := "2025-08-05"; slot_post := None;
             suggested_time := None; day_of_week := "Tuesday" |});
         ("wednesday",
          {| slot_date := "2025-08-06"; slot_post := Some p1;
             suggested_time := Some (time_of best_time_of p1); day_of_week := "Wednesday" |});
         ("thursday",
          {| slot_date := "2025-08-07"; slot_post := None;
             suggested_time := None; day_of_week := "Thursday" |});
         ("friday",
          {| slot_date := "2025-08-08"; slot_post := Some p2;
             suggested_time := Some (time_of best_time_of p2); day_of_week := "Friday" |});
         ("saturday",
          {| slot_date := "2025-08-09"; slot_post := None;
             suggested_time := None; day_of_week := "Saturday" |});
         ("sunday",
          {| slot_date := "2025-08-10"; slot_post := None;
             suggested_time := None; day_of_week := "Sunday" |}) ].
Proof.
  rewrite (create_weekly_schedule_returns best_time_of _ _ _ _ _ (mkdate 2025 8 4)).
  - reflexivity.
  - reflexivity.
  - vm_compute. discriminate.
  - vm_compute. discriminate.
Qed.

(** With no preferred days the same call makes the same assignment: the
    default days for frequency 3 are monday, wednesday and friday. *)
Lemma default_days_same_assignment {P : Type} (best_time_of : P -> option string)
      (posts : list P) (now : date) :
  create_weekly_schedule best_time_of posts 3 [] (Some "2025-08-04") now
  = create_weekly_schedule best_time_of posts 3
      ["monday"; "wednesday"; "friday"] (Some "2025-08-04") now.
Proof. reflexivity. Qed.

(** The week from a start the scheduler has read: it returns, and the
    [i]-th entry is keyed by the [i]-th day name and dated [start + i]
    days. *)
Lemma week_dated {P : Type} (best_time_of : P -> option string)
      (posts : list P) (frequency : Z) (preferred_days : list string)
      (start_date : option string) (now start : date) :
  start_of start_date now = Ok start ->
  valid_date start = true ->
  (ymd2ord start + 6 <= MAXORDINAL)%Z ->
  exists schedule,
    create_weekly_schedule best_time_of posts frequency preferred_days start_date now
    = Ok schedule
    /\ forall i, (i < 7)%nat ->
         exists day slot d,
           nth_error days i = Some day
           /\ nth_error schedule i = Some (day, slot)
           /\ add_days start (Z.of_nat i) = Ok d
           /\ slot_date slot = strftime_ymd d.
Proof.
  intros Hs Hvalid Hhi. pose proof (ymd2ord_pos _ Hvalid) as Hlo.
  exists (week best_time_of start (posting_days_of frequency preferred_days) posts).
  split; [now apply (create_weekly_schedule_returns best_time_of)|].
  intros i Hi.
  destruct (nth_error days i) as [day|] eqn:Hday.
  2:{ apply nth_error_None in Hday. simpl in Hday. lia. }
  exists day, (slot_for best_time_of start (posting_days_of frequency preferred_days) posts i day),
    (date_at start i).
  split; [reflexivity|]. split; [|split].
  - unfold week. now rewrite (week_from_nth _ _ _ _ _ _ _ _ Hday).
  - apply add_days_in_range. now apply week_in_range.
  - reflexivity.
Qed.

Lemma strftime_ymd_read (start_date : string) (d now : date) :
  valid_date d = true -> start_date = strftime_ymd d ->
  start_of (Some start_date) now = Ok d.
Proof.
  intros Hvalid ->. pose proof (strptime_strftime d Hvalid) as Hround.
  unfold start_of. destruct (strftime_ymd d); [discriminate Hround|exact Hround].
Qed.

(** C5.  Whatever the posts, the frequency and the preferred days:
    - every schedule the scheduler returns has exactly 7 entries, keyed
      monday to sunday in that order;
    - when the start date given is read as the date [start] (by [strptime];
      an absent or empty start date stands for today), the scheduler
      returns, and the [i]-th entry, keyed by the [i]-th day name, is dated
      [start + i] days, whatever weekday [start] is;
    - in particular a start date written YYYY-MM-DD for the date [d] gives
      the entries the dates [d], [d + 1], ..., [d + 6].
    The dates are compared as the strings [strftime] writes for years of
    four digits, and the seventh day must be no later than 9999-12-31, the
    last date of [datetime]. *)
Theorem C5_seven_dated_slots {P : Type} (best_time_of : P -> option string)
        (posts : list P) (frequency : Z) (preferred_days : list string)
        (start_date : option string) (now : date) :
  (forall schedule,
      create_weekly_schedule best_time_of posts frequency preferred_days start_date now
      = Ok schedule ->
      length schedule = 7%nat
      /\ dict_keys schedule
         = ["monday"; "tuesday"; "wednesday"; "thursday"; "friday"; "saturday"; "sunday"])
  /\ (forall start,
        match start_date with
        | Some (String c s) => strptime_ymd (String c s) = Ok start
        | _ => start = now /\ valid_date now = true
        end ->
        (1000 <= year start)%Z ->
        (ymd2ord start + 6 <= MAXORDINAL)%Z ->
        exists schedule,
          create_weekly_schedule best_time_of posts frequency preferred_days start_date now
          = Ok schedule
          /\ forall i, (i < 7)%nat ->
               exists day slot d,
                 nth_error days i = Some day
                 /\ nth_error schedule i = Some (day, slot)
                 /\ add_days start (Z.of_nat i) = Ok d
                 /\ slot_date slot = strftime_ymd d)
  /\ (forall d,
        valid_date d = true ->
        (1000 <= year d)%Z ->
        (ymd2ord d + 6 <= MAXORDINAL)%Z ->
        exists schedule,
          create_weekly_schedule best_time_of posts frequency preferred_days
            (Some (strftime_ymd d)) now = Ok schedule
          /\ forall i, (i < 7)%nat ->
               exists day slot d',
                 nth_error days i = Some day
                 /\ nth_error schedule i = Some (day, slot)
                 /\ add_days d (Z.of_nat i) = Ok d'
                 /\ slot_date slot = strftime_ymd d').
Proof.
  split; [|split].
  - intros schedule Hok.
    apply create_weekly_schedule_inv in Hok as (start & _ & _ & _ & ->).
    split; [reflexivity|]. unfold week. now rewrite week_from_keys.
  - intros start Hread _ Hhi.
    assert (Hs : start_of start_date now = Ok start /\ valid_date start = true).
    { unfold start_of. destruct start_date as [[|c s]|].
      - destruct Hread as [-> Hnow]. now split.
      - split; [exact Hread|]. exact (strptime_ymd_valid _ _ Hread).
      - destruct Hread as [-> Hnow]. now split. }
    destruct Hs as [Hs Hvalid].
    exact (week_dated best_time_of posts frequency preferred_days start_date now start
             Hs Hvalid Hhi).
  - intros d Hvalid _ Hhi.
    exact (week_dated best_time_of posts frequency preferred_days (Some (strftime_ymd d))
             now d (strftime_ymd_read _ d now Hvalid eq_refl) Hvalid Hhi).
Qed.

(** A week that starts on a Wednesday: the slot keyed monday carries the
    start date all the same. *)
Example monday_slot_of_a_wednesday :
  weekday (mkdate 2025 8 6) = 2%Z
  /\ match create_weekly_schedule (fun _ : unit => None) [] 3 []
            (Some "2025-08-06") (mkdate 2025 8 6) with
     | Ok schedule => option_map slot_date (dict_get "monday" schedule)
     | Raise _ => None
     end = Some "2025-08-06".
Proof. split; reflexivity. Qed.


(** C5 at a week that starts on Wednesday 2025-08-06: the entry keyed
    monday is dated 2025-08-06 and the entry keyed sunday 2025-08-12. *)
Lemma C5_witness_2025_08_06 :
  weekday (mkdate 2025 8 6) = 2%Z
  /\ exists schedule,
       create_weekly_schedule (fun _ : nat => None) [1; 2; 3]%nat 3 [] (Some "2025-08-06")
         (mkdate 2025 1 1) = Ok schedule
       /\ dict_keys schedule
          = ["monday"; "tuesday"; "wednesday"; "thursday"; "friday"; "saturday"; "sunday"]
       /\ (exists slot, nth_error schedule 0 = Some ("monday", slot)
                        /\ slot_date slot = "2025-08-06")
       /\ (exists slot, nth_error schedule 3 = Some ("thursday", slot)
                        /\ slot_date slot = "2025-08-09")
       /\ (exists slot, nth_error schedule 6 = Some ("sunday", slot)
                        /\ slot_date slot = "2025-08-12").
Proof.
  split; [reflexivity|].
  destruct (C5_seven_dated_slots (fun _ : nat => None) [1; 2; 3]%nat 3 []
              (Some "2025-08-06") (mkdate 2025 1 1)) as (Hshape & Hdates & _).
  destruct (Hdates (mkdate 2025 8 6) eq_refl) as (schedule & Hok & Hslots).
  - simpl. lia.
  - vm_compute. discriminate.
  - exists schedule. split; [exact Hok|].
    split; [exact (proj2 (Hshape schedule Hok))|].
    split; [|split].
    + destruct (Hslots 0%nat ltac:(lia)) as (day & slot & d & Hday & Hnth & Hd & Hdate).
      injection Hday as <-. vm_compute in Hd. injection Hd as <-.
      exists slot. split; [exact Hnth|exact Hdate].
    + destruct (Hslots 3%nat ltac:(lia)) as (day & slot & d & Hday & Hnth & Hd & Hdate).
      injection Hday as <-. vm_compute in Hd. injection Hd as <-.
      exists slot. split; [exact Hnth|exact Hdate].
    + destruct (Hslots 6%nat ltac:(lia)) as (day & slot & d & Hday & Hnth & Hd & Hdate).
      injection Hday as <-. vm_compute in Hd. injection Hd as <-.
      exists slot. split; [exact Hnth|exact Hdate].
Defined.

(** C8 fails on the code: with one post and frequency 3 the scheduler
    returns a schedule, monday filled, wednesday and friday empty. *)
Lemma C8_one_post_three_days :
  (Z.of_nat (length [tt]) < 3)%Z
  /\ create_weekly_schedule (fun _ : unit => None) [tt] 3 [] (Some "2025-08-04")
       (mkdate 2025 8 4)
     = Ok [ ("monday",
             {| slot_date := "2025-08-04"; slot_post := Some tt;
                suggested_time := Some "12:00 PM"; day_of_week := "Monday" |});
            ("tuesday",
             {| slot_date := "2025-08-05"; slot_post := None;
                suggested_time := None; day_of_week := "Tuesday" |});
            ("wednesday",
             {| slot_date := "2025-08-06"; slot_post := None;
                suggested_time := None; day_of_week := "Wednesday" |});
            ("thursday",
             {| slot_date := "2025-08-07"; slot_post := None;
                suggested_time := None; day_of_week := "Thursday" |});
            ("friday",
             {| slot_date := "2025-08-08"; slot_post := None;
                suggested_time := None; day_of_week := "Friday" |});
            ("saturday",
             {| slot_date := "2025-08-09"; slot_post := None;
                suggested_time := None; day_of_week := "Saturday" |});
            ("sunday",
             {| slot_date := "2025-08-10"; slot_post := None;
                suggested_time := None; day_of_week := "Sunday" |}) ].
Proof. split; [simpl; lia|reflexivity]. Qed.

(** C8, amended.  Called with a frequency greater than the number of posts
    the scheduler itself does not fail: it returns the 7-day schedule and
    fills a posting day only when its index is below the number of posts,
    so that at most [len(posts)] slots, fewer than [frequency], hold a
    post.  The rejection is made by the calling route, which answers
    'Not enough posts available' (status 400) and does not call the
    scheduler. *)
Theorem C8_underfilled_not_rejected {P : Type} (best_time_of : P -> option string)
        (posts : list P) (frequency : Z) (preferred_days : list string)
        (start_date : option string) (now start : date) :
  (Z.of_nat (length posts) < frequency)%Z ->
  valid_date now = true ->
  start_of start_date now = Ok start ->
  (ymd2ord start + 6 <= MAXORDINAL)%Z ->
  (exists schedule,
      create_weekly_schedule best_time_of posts frequency preferred_days start_date now
      = Ok schedule
      /\ dict_keys schedule = days
      /\ (filled_slots schedule <= length posts)%nat
      /\ (Z.of_nat (filled_slots schedule) < frequency)%Z)
  /\ App.create_weekly_schedule best_time_of posts frequency preferred_days start_date now
     = App.NotEnoughPosts frequency (length posts).
Proof.
  intros Hfew Hnow Hs Hhi.
  pose proof (ymd2ord_pos _ (start_of_valid _ _ _ Hnow Hs)) as Hlo. split.
  - eexists. split; [apply (create_weekly_schedule_returns best_time_of); eassumption|].
    unfold week. rewrite week_from_keys, filled_week_from.
    pose proof (filled_le_posts (posting_days_of frequency preferred_days) posts days
                  days_nodup).
    repeat split; [assumption|lia].
  - unfold App.create_weekly_schedule.
    destruct (Z.ltb_spec (Z.of_nat (length posts)) frequency); [reflexivity|lia].
Qed.

(** C8, amended, at one post and frequency 3. *)
Lemma C8_witness_one_post :
  exists schedule,
    create_weekly_schedule (fun _ : unit => None) [tt] 3 [] (Some "2025-08-04")
      (mkdate 2025 8 4) = Ok schedule
    /\ (filled_slots schedule <= 1)%nat
    /\ App.create_weekly_schedule (fun _ : unit => None) [tt] 3 [] (Some "2025-08-04")
         (mkdate 2025 8 4) = App.NotEnoughPosts 3 1.
Proof.
  destruct (C8_underfilled_not_rejected (fun _ : unit => None) [tt] 3 []
              (Some "2025-08-04") (mkdate 2025 8 4) (mkdate 2025 8 4))
    as [(schedule & Hok & _ & Hle & _) Hroute].
  - simpl. lia.
  - reflexivity.
  - reflexivity.
  - vm_compute. discriminate.
  - exists schedule. repeat split; assumption.
Defined.




(** *** Sampling and hashtags *)

Section Sampling.
Context {A : Type}.

Lemma set_nth_incl (pool : list A) : forall j x target,
  In x target -> incl pool target -> incl (set_nth j x pool) target.
Proof.
  induction pool as [|y pool IH]; intros j x target Hx Hincl.
  - destruct j; simpl; apply incl_nil_l.
  - assert (Hy : In y target) by (apply Hincl; now left).
    assert (Hpool : incl pool target) by (intros z Hz; apply Hincl; now right).
    destruct j as [|j]; simpl.
    + intros z [<-|Hz]; [exact Hx|now apply Hpool].
    + intros z [<-|Hz]; [exact Hy|]. exact (IH j x target Hx Hpool z Hz).
Qed.

Lemma sample_loop_incl k : forall n (pool : list A) g result g' target,
  sample_loop k n pool g = (result, g') ->
  incl pool target ->
  incl result target /\ (length result <= k)%nat.
Proof.
  induction k as [|k IH]; intros n pool g result g' target Hs Hincl; simpl in Hs.
  - injection Hs as <- <-. split; [apply incl_nil_l|reflexivity].
  - destruct (randbelow n g) as [j g1].
    destruct (nth_error pool j) as [x|] eqn:Hx.
    2:{ injection Hs as <- <-. split; [apply incl_nil_l|simpl; lia]. }
    destruct (nth_error pool (n - 1)) as [last|] eqn:Hlast.
    2:{ injection Hs as <- <-. split; [apply incl_nil_l|simpl; lia]. }
    destruct (sample_loop k (n - 1) (set_nth j last pool) g1) as [rest g2] eqn:Hrest.
    injection Hs as <- <-.
    apply nth_error_In in Hx. apply nth_error_In in Hlast.
    destruct (IH _ _ _ _ _ target Hrest) as [Hin Hlen].
    { apply set_nth_incl; [now apply Hincl|exact Hincl]. }
    split.
    + intros z [<-|Hz]; [now apply Hincl|now apply Hin].
    + simpl. lia.
Qed.

Lemma sample_incl (population : list A) (k : Z) g result g' :
  sample population k g = Ok (result, g') ->
  incl result population /\ (Z.of_nat (length result) <= k)%Z.
Proof.
  unfold sample.
  destruct ((0 <=? k)%Z && (k <=? Z.of_nat (length population))%Z) eqn:Hk; [|discriminate].
  apply andb_true_iff in Hk as [Hk0 _]. apply Z.leb_le in Hk0.
  intros [= Hs].
  destruct (sample_loop_incl _ _ _ _ _ _ population Hs (incl_refl _)) as [Hin Hlen].
  split; [exact Hin|lia].
Qed.

Lemma sample_returns (population : list A) (k : Z) g :
  (0 <= k <= Z.of_nat (length population))%Z ->
  exists result g', sample population k g = Ok (result, g').
Proof.
  intros [H0 H1]. unfold sample.
  destruct (Z.leb_spec 0 k); [|lia].
  destruct (Z.leb_spec k (Z.of_nat (length population))); [|lia]. simpl.
  destruct (sample_loop (Z.to_nat k) (length population) population g) as [result g'].
  now exists result, g'.
Qed.

Lemma choice_returns (seq : list A) g :
  seq <> [] -> exists x g', choice seq g = Ok (x, g') /\ In x seq.
Proof.
  intros Hne. unfold choice. destruct seq as [|a seq]; [congruence|].
  unfold randbelow. destruct g as [|r g].
  - exists a, []. split; [reflexivity|now left].
  - destruct (nth_error (a :: seq) (r mod length (a :: seq))) as [x|] eqn:Hx.
    + exists x, g. split; [reflexivity|]. eapply nth_error_In. exact Hx.
    + apply nth_error_None in Hx.
      pose proof (Nat.mod_upper_bound r (length (a :: seq)) ltac:(simpl; lia)). lia.
Qed.

End Sampling.

Lemma generate_hashtags_spec base_hashtags post_type g result g' :
  _generate_hashtags base_hashtags post_type g = Ok (result, g') ->
  (length result <= 8)%nat
  /\ incl result (base_hashtags ++ type_hashtags_of post_type ++ general_hashtags).
Proof.
  unfold _generate_hashtags. intros Hs. apply sample_incl in Hs as [Hin Hlen].
  split; [lia|]. unfold type_hashtags_of. rewrite app_assoc. exact Hin.
Qed.

Lemma generate_hashtags_returns base_hashtags post_type g :
  exists result g', _generate_hashtags base_hashtags post_type g = Ok (result, g').
Proof.
  unfold _generate_hashtags. apply sample_returns. lia.
Qed.


(** *** Post generators *)

(** One step of a computation in [M] that returned: the first action
    returned too, and the rest ran from its state. *)
Ltac bind_inv H :=
  match type of H with
  | mbind ?m ?k ?g = Ok _ =>
      let E := fresh "E" in
      unfold mbind at 1 in H;
      destruct (m g) as [[? ?]|?] eqn:E; [|discriminate H];
      cbv beta zeta in H
  end.

Lemma lift_inv {A} (r : result A) g a g' : lift r g = Ok (a, g') -> r = Ok a /\ g' = g.
Proof. unfold lift. destruct r; [intros [= -> ->]; now split|discriminate]. Qed.

Lemma standard_post_inv business_profile tone post_type g post g' :
  _generate_standard_post business_profile tone post_type g = Ok (post, g') ->
  ContentGenerator.post_type post = post_type
  /\ post_tone post = tone
  /\ post_industry post = industry_of business_profile
  /\ news_source post = None
  /\ (length (post_hashtags post) <= 8)%nat
  /\ incl (post_hashtags post) (standard_pool (industry_of business_profile) post_type).
Proof.
  unfold _generate_standard_post. fold (industry_of business_profile). intros H.
  bind_inv H. apply lift_inv in E as [Hdata ->].
  repeat bind_inv H.
  unfold ret in H. injection H as <- <-. cbn [ContentGenerator.post_type post_tone
    post_industry news_source post_hashtags].
  repeat split.
  - match goal with
    | E : _generate_hashtags _ _ _ = Ok _ |- _ =>
        exact (proj1 (generate_hashtags_spec _ _ _ _ _ E))
    end.
  - match goal with
    | E : _generate_hashtags _ _ _ = Ok _ |- _ =>
        pose proof (proj2 (generate_hashtags_spec _ _ _ _ _ E)) as Hin
    end.
    unfold standard_pool, industry_hashtags. now rewrite Hdata.
Qed.

Lemma insight_post_inv business_profile tone item news g post g' :
  _generate_insight_post business_profile tone (item :: news) g = Ok (post, g') ->
  ContentGenerator.post_type post = "insight"
  /\ post_tone post = tone
  /\ post_industry post = industry_of business_profile
  /\ news_source post <> None
  /\ (length (post_hashtags post) <= 8)%nat
  /\ incl (post_hashtags post) (insight_pool (industry_of business_profile)).
Proof.
  unfold _generate_insight_post. cbn [truthy negb].
  fold (industry_of business_profile). intros H.
  repeat bind_inv H.
  match goal with
  | E : lift (industry_data_of _) _ = Ok _ |- _ => apply lift_inv in E as [Hdata ->]
  end.
  unfold ret in H. injection H as <- <-. cbn [ContentGenerator.post_type post_tone
    post_industry news_source post_hashtags].
  repeat split.
  - discriminate.
  - match goal with
    | E : _generate_hashtags _ _ _ = Ok _ |- _ =>
        exact (proj1 (generate_hashtags_spec _ _ _ _ _ E))
    end.
  - match goal with
    | E : _generate_hashtags _ _ _ = Ok _ |- _ =>
        pose proof (proj2 (generate_hashtags_spec _ _ _ _ _ E)) as Hin
    end.
    unfold insight_pool, industry_hashtags. now rewrite Hdata.
Qed.


(** *** The generators return *)

Lemma format_from_well_braced template : forall field content_vars,
  braces_ok template (field_open field) = true ->
  ok_or_key_error (format_from template field content_vars).
Proof.
  induction template as [|c template IH]; intros field content_vars Hb; simpl in *.
  - destruct field; [discriminate|]. left. now eexists.
  - destruct field as [name|]; simpl in Hb.
    + destruct (Ascii.eqb c "}"); simpl in Hb.
      * unfold dict_item. destruct (dict_get name content_vars) as [value|]; simpl.
        -- destruct (IH None content_vars Hb) as [[s ->]|[k ->]]; simpl.
           ++ left. now eexists.
           ++ right. now eexists.
        -- right. now eexists.
      * exact (IH (Some (name ++ String c EmptyString)%string) content_vars Hb).
    + destruct (Ascii.eqb c "{").
      * exact (IH (Some EmptyString) content_vars Hb).
      * destruct (Ascii.eqb c "}"); [discriminate|].
        destruct (IH None content_vars Hb) as [[s ->]|[k ->]]; simpl.
        -- left. now eexists.
        -- right. now eexists.
Qed.

Lemma dict_get_In {V} k (d : dict V) v : dict_get k d = Some v -> In (k, v) d.
Proof.
  induction d as [|[k' v'] d IH]; simpl; [discriminate|].
  destruct (String.eqb_spec k k') as [->|Hne].
  - intros [= ->]. now left.
  - intros H. right. now apply IH.
Qed.

Lemma templates_well_braced post_type tone by_tone templates template :
  dict_get post_type post_templates = Some by_tone ->
  dict_get tone by_tone = Some templates ->
  In template templates ->
  braces_ok template false = true.
Proof.
  intros Hpt Htone Hin.
  assert (Hall : forallb (fun t => braces_ok t false) all_templates = true)
    by (vm_compute; reflexivity).
  rewrite forallb_forall in Hall. apply Hall. unfold all_templates.
  apply in_flat_map. exists (post_type, by_tone). split; [now apply dict_get_In|].
  apply in_flat_map. exists (tone, templates). split; [now apply dict_get_In|assumption].
Qed.

Lemma templates_found post_type tone :
  In post_type known_post_types -> In tone tone_enum ->
  exists by_tone templates,
    dict_get post_type post_templates = Some by_tone
    /\ dict_get tone by_tone = Some templates
    /\ templates <> [].
Proof.
  unfold known_post_types, tone_enum. simpl.
  intros [<-|[<-|[<-|[<-|[]]]]] [<-|[<-|[<-|[<-|[]]]]];
    (eexists; eexists; split; [reflexivity|split; [reflexivity|discriminate]]).
Qed.

Lemma industry_data_found industry :
  exists industry_data,
    industry_data_of industry = Ok industry_data
    /\ offers industry_data <> [] /\ tips industry_data <> []
    /\ value_props industry_data <> [].
Proof.
  unfold industry_data_of, dict_get_default, dict_item.
  cbn [dict_get industry_content bind].
  string_cases industry;
    (eexists; split; [reflexivity|repeat split; discriminate]).
Qed.

Lemma mbind_returns {A B} (m : M A) (k : A -> M B) g :
  returns m g ->
  (forall a g1, m g = Ok (a, g1) -> returns (k a) g1) ->
  returns (mbind m k) g.
Proof.
  intros (a & g1 & E) Hk. unfold returns, mbind. rewrite E. exact (Hk a g1 E).
Qed.

Lemma lift_returns {A} (r : result A) a g : r = Ok a -> returns (lift r) g.
Proof. intros ->. now exists a, g. Qed.

Lemma ret_returns {A} (a : A) g : returns (ret a) g.
Proof. now exists a, g. Qed.

Lemma choice_nonempty {A} (seq : list A) g : seq <> [] -> returns (choice seq) g.
Proof.
  intros Hne. destruct (choice_returns seq g Hne) as (x & g' & E & _). now exists x, g'.
Qed.

Lemma choice_In {A} (seq : list A) g x g' : choice seq g = Ok (x, g') -> In x seq.
Proof.
  unfold choice. destruct seq as [|a seq]; [discriminate|].
  destruct (randbelow (length (a :: seq)) g) as [j g1].
  destruct (nth_error (a :: seq) j) as [y|] eqn:Hy; [|discriminate].
  intros [= <- <-]. eapply nth_error_In. exact Hy.
Qed.

Lemma type_specific_vars_returns post_type industry_data content_vars g :
  offers industry_data <> [] -> tips industry_data <> [] ->
  returns (type_specific_vars post_type industry_data content_vars) g.
Proof.
  intros Ho Ht. unfold type_specific_vars.
  destruct (String.eqb post_type "promo").
  { apply mbind_returns; [now apply choice_nonempty|intros; apply ret_returns]. }
  destruct (String.eqb post_type "tip").
  { apply mbind_returns; [now apply choice_nonempty|intros].
    apply mbind_returns; [now apply choice_nonempty|intros; apply ret_returns]. }
  destruct (String.eqb post_type "update").
  { apply mbind_returns; [now apply choice_nonempty|intros; apply ret_returns]. }
  apply ret_returns.
Qed.

Lemma fallback_returns template content_vars fallback g :
  braces_ok template false = true ->
  returns (lift (match format template content_vars with
                 | Raise (KeyError _) => Ok fallback
                 | r => r
                 end)) g.
Proof.
  intros Hb. unfold format, returns.
  destruct (format_from_well_braced template None content_vars Hb) as [[s ->]|[k ->]];
    now eexists; eexists.
Qed.

Lemma hashtags_returns base_hashtags post_type g :
  returns (_generate_hashtags base_hashtags post_type) g.
Proof. apply generate_hashtags_returns. Qed.

Theorem standard_post_returns business_profile tone post_type g :
  In tone tone_enum -> In post_type known_post_types ->
  returns (_generate_standard_post business_profile tone post_type) g.
Proof.
  intros Htone Htype. unfold _generate_standard_post.
  destruct (industry_data_found (industry_of business_profile))
    as (industry_data & Hdata & Ho & Ht & Hv).
  fold (industry_of business_profile).
  destruct (templates_found post_type tone Htype Htone) as (by_tone & templates & Hbt & Htp & Hne).
  apply mbind_returns; [now apply (lift_returns _ industry_data)|intros d g1 E1].
  apply lift_inv in E1 as [E1 ->]. rewrite Hdata in E1. injection E1 as <-.
  apply mbind_returns; [apply (lift_returns _ by_tone); unfold dict_item; now rewrite Hbt|].
  intros bt g1 E2. apply lift_inv in E2 as [E2 ->].
  unfold dict_item in E2. rewrite Hbt in E2. injection E2 as <-.
  apply mbind_returns; [apply (lift_returns _ templates); unfold dict_item; now rewrite Htp|].
  intros tp g1 E3. apply lift_inv in E3 as [E3 ->].
  unfold dict_item in E3. rewrite Htp in E3. injection E3 as <-.
  apply mbind_returns; [now apply choice_nonempty|intros template g1 E4].
  apply choice_In in E4.
  apply mbind_returns; [now apply choice_nonempty|intros cta g2 _].
  apply mbind_returns; [now apply choice_nonempty|intros vp g3 _].
  apply mbind_returns; [now apply type_specific_vars_returns|intros vars g4 _].
  apply mbind_returns.
  { apply fallback_returns. exact (templates_well_braced _ _ _ _ _ Hbt Htp E4). }
  intros content g5 _.
  apply mbind_returns; [apply hashtags_returns|intros tags g6 _].
  apply mbind_returns;
    [exact (lift_returns _ _ _ (estimate_closed_form post_type tone))|intros e g7 _].
  apply ret_returns.
Qed.

Theorem insight_post_returns business_profile tone industry_news g :
  In tone tone_enum ->
  returns (_generate_insight_post business_profile tone industry_news) g.
Proof.
  intros Htone. unfold _generate_insight_post.
  destruct industry_news as [|item news]; cbn [truthy negb].
  { apply standard_post_returns; [assumption|simpl; tauto]. }
  destruct (industry_data_found (industry_of business_profile))
    as (industry_data & Hdata & _).
  fold (industry_of business_profile).
  destruct (templates_found "insight" tone ltac:(simpl; tauto) Htone)
    as (by_tone & templates & Hbt & Htp & Hne).
  apply mbind_returns; [now apply choice_nonempty|intros news_item g1 _].
  apply mbind_returns; [apply (lift_returns _ by_tone); unfold dict_item; now rewrite Hbt|].
  intros bt g2 E2. apply lift_inv in E2 as [E2 ->].
  unfold dict_item in E2. rewrite Hbt in E2. injection E2 as <-.
  apply mbind_returns; [apply (lift_returns _ templates); unfold dict_item; now rewrite Htp|].
  intros tp g2 E3. apply lift_inv in E3 as [E3 ->].
  unfold dict_item in E3. rewrite Htp in E3. injection E3 as <-.
  apply mbind_returns; [now apply choice_nonempty|intros template g2 E4].
  apply choice_In in E4.
  apply mbind_returns; [now apply choice_nonempty|intros cta g3 _].
  apply mbind_returns.
  { apply fallback_returns. exact (templates_well_braced _ _ _ _ _ Hbt Htp E4). }
  intros content g4 _.
  apply mbind_returns; [now apply (lift_returns _ industry_data)|intros d g5 _].
  apply mbind_returns; [apply hashtags_returns|intros tags g6 _].
  apply mbind_returns;
    [exact (lift_returns _ _ _ (estimate_closed_form "insight" tone))|intros e g7 _].
  apply ret_returns.
Qed.


(** *** Post type distribution *)

Lemma effective_types_nonempty preferred_types : effective_types preferred_types <> [].
Proof. destruct preferred_types; discriminate. Qed.

Lemma item_nth_error {A} (l : list A) i x : nth_error l i = Some x -> item l i = Ok x.
Proof. unfold item. now intros ->. Qed.

Lemma distribute_from (types : list string) n : forall start acc,
  types <> [] ->
  fold_left
    (fun acc i =>
       bind acc (fun post_types =>
       bind (item types (i mod length types)) (fun post_type =>
       Ok (post_types ++ [post_type]))))
    (seq start n) (Ok acc)
  = Ok (acc ++ round_robin types start n).
Proof.
  induction n as [|n IH]; intros start acc Hne.
  - unfold round_robin. simpl. now rewrite app_nil_r.
  - assert (Hlt : (start mod length types < length types)%nat).
    { apply Nat.mod_upper_bound. destruct types; [congruence|simpl; lia]. }
    destruct (nth_error types (start mod length types)) as [t|] eqn:Ht.
    2:{ apply nth_error_None in Ht. lia. }
    cbn [seq fold_left bind]. rewrite (item_nth_error _ _ _ Ht). cbn [bind].
    rewrite IH by assumption. unfold round_robin. cbn [seq map].
    rewrite <- app_assoc. cbn [app]. do 3 f_equal.
    symmetry. apply nth_error_nth. exact Ht.
Qed.

Lemma distribute_post_types_round_robin frequency preferred_types :
  _distribute_post_types frequency preferred_types
  = Ok (round_robin (effective_types preferred_types) 0 (Z.to_nat frequency)).
Proof.
  unfold _distribute_post_types. fold (effective_types preferred_types).
  now rewrite distribute_from by apply effective_types_nonempty.
Qed.

Lemma round_robin_In types start n t :
  types <> [] -> In t (round_robin types start n) -> In t types.
Proof.
  intros Hne Hin. unfold round_robin in Hin. apply in_map_iff in Hin as [i [<- _]].
  apply nth_In. apply Nat.mod_upper_bound. destruct types; [congruence|simpl; lia].
Qed.

Lemma generate_one_returns business_profile tone industry_news post_type g :
  In tone tone_enum -> In post_type known_post_types ->
  returns (generate_one business_profile tone industry_news post_type) g.
Proof.
  intros Htone Htype. unfold generate_one.
  destruct (String.eqb post_type "insight" && truthy industry_news);
    [now apply insight_post_returns|now apply standard_post_returns].
Qed.

Lemma generate_loop_returns business_profile tone industry_news post_types :
  In tone tone_enum -> incl post_types known_post_types ->
  forall posts g,
    returns (generate_loop business_profile tone industry_news post_types posts) g.
Proof.
  intros Htone. induction post_types as [|post_type post_types IH]; intros Hk posts g; simpl.
  - apply ret_returns.
  - apply mbind_returns.
    + apply generate_one_returns; [assumption|]. apply Hk. now left.
    + intros post g1 _. apply IH. intros t Ht. apply Hk. now right.
Qed.

Theorem generate_posts_returns business_profile post_preferences industry_news g :
  In (tone_of post_preferences) tone_enum ->
  incl (types_of post_preferences) known_post_types ->
  returns (generate_posts business_profile post_preferences industry_news) g.
Proof.
  intros Htone Htypes. unfold generate_posts.
  fold (tone_of post_preferences).
  apply mbind_returns.
  - eapply lift_returns. apply distribute_post_types_round_robin.
  - intros types g1 E. apply lift_inv in E as [E ->].
    rewrite distribute_post_types_round_robin in E. injection E as <-.
    apply generate_loop_returns; [assumption|].
    intros t Ht. apply Htypes. unfold types_of.
    eapply round_robin_In; [|exact Ht]. apply effective_types_nonempty.
Qed.

Lemma generate_loop_types_without_news business_profile tone post_types :
  forall posts g result g',
    generate_loop business_profile tone [] post_types posts g = Ok (result, g') ->
    map ContentGenerator.post_type result
    = map ContentGenerator.post_type posts ++ post_types.
Proof.
  induction post_types as [|post_type post_types IH]; intros posts g result g' H;
    simpl in H.
  - unfold ret in H. injection H as <- <-. now rewrite app_nil_r.
  - bind_inv H. rewrite (IH _ _ _ _ H). rewrite map_app. simpl.
    unfold generate_one in E. cbn [truthy] in E. rewrite andb_false_r in E.
    apply standard_post_inv in E as (-> & _).
    now rewrite <- app_assoc.
Qed.

(** Without news every post keeps the type requested at its position: the
    types of the posts are the round robin over the requested types. *)
Theorem generate_posts_types_without_news business_profile post_preferences g posts g' :
  generate_posts business_profile post_preferences [] g = Ok (posts, g') ->
  map ContentGenerator.post_type posts
  = round_robin (types_of post_preferences) 0 (Z.to_nat (frequency_of post_preferences)).
Proof.
  unfold generate_posts. intros H. bind_inv H. apply lift_inv in E as [E ->].
  apply generate_loop_types_without_news in H. simpl in H. rewrite H.
  rewrite distribute_post_types_round_robin in E. now injection E as <-.
Qed.


(** *** Templates and the fields they ask for *)

Lemma format_from_missing_field template : forall field content_vars,
  braces_ok template (field_open field) = true ->
  (exists name, In name (fields_from template field)
                /\ dict_get name content_vars = None) ->
  exists k, format_from template field content_vars = Raise (KeyError k).
Proof.
  induction template as [|c template IH]; intros field content_vars Hb (name & Hin & Hnone);
    simpl in *.
  - destruct Hin.
  - destruct field as [current|]; simpl in Hb.
    + destruct (Ascii.eqb c "}"); simpl in Hb.
      * unfold dict_item. destruct (dict_get current content_vars) as [value|] eqn:Hcur; simpl.
        -- destruct Hin as [<-|Hin]; [congruence|].
           destruct (IH None content_vars Hb) as [k ->]; [now exists name|].
           now exists k.
        -- now exists current.
      * apply (IH (Some (current ++ String c EmptyString)%string) content_vars Hb).
        now exists name.
    + destruct (Ascii.eqb c "{").
      * apply (IH (Some EmptyString) content_vars Hb). now exists name.
      * destruct (Ascii.eqb c "}"); [discriminate|].
        destruct (IH None content_vars Hb) as [k ->]; [now exists name|].
        now exists k.
Qed.

Lemma format_from_all_fields template : forall field content_vars,
  braces_ok template (field_open field) = true ->
  (forall name, In name (fields_from template field) ->
                dict_get name content_vars <> None) ->
  exists s, format_from template field content_vars = Ok s.
Proof.
  induction template as [|c template IH]; intros field content_vars Hb Hall; simpl in *.
  - destruct field; [discriminate|]. now eexists.
  - destruct field as [current|]; simpl in Hb.
    + destruct (Ascii.eqb c "}"); simpl in Hb.
      * unfold dict_item. destruct (dict_get current content_vars) as [value|] eqn:Hcur.
        -- destruct (IH None content_vars Hb) as [s ->].
           { intros name Hin. apply Hall. now right. }
           simpl. now eexists.
        -- exfalso. apply (Hall current); [now left|assumption].
      * apply (IH (Some (current ++ String c EmptyString)%string) content_vars Hb).
        exact Hall.
    + destruct (Ascii.eqb c "{").
      * apply (IH (Some EmptyString) content_vars Hb). exact Hall.
      * destruct (Ascii.eqb c "}"); [discriminate|].
        destruct (IH None content_vars Hb) as [s ->]; [exact Hall|].
        simpl. now eexists.
Qed.

Lemma insight_templates_ask_for_content tone by_tone templates template :
  dict_get "insight" post_templates = Some by_tone ->
  dict_get tone by_tone = Some templates ->
  In template templates ->
  In "insight_content" (fields template).
Proof.
  intros Hbt Htp Hin. injection Hbt as <-.
  assert (Hall : forallb (fun entry =>
                   forallb (fun t => mem "insight_content" (fields t)) (snd entry))
                   (dict_get_default "insight" [] post_templates) = true)
    by (vm_compute; reflexivity).
  rewrite forallb_forall in Hall. apply dict_get_In in Htp.
  specialize (Hall _ Htp). rewrite forallb_forall in Hall.
  specialize (Hall _ Hin).
  now apply mem_In.
Qed.

(** An insight post requested without news, for any profile, tone and random
    state: the post generated keeps the type ["insight"], carries no news
    source, and its content is the generic sentence. *)
Theorem insight_without_news_is_generic business_profile tone g post g' :
  generate_one business_profile tone [] "insight" g = Ok (post, g') ->
  ContentGenerator.post_type post = "insight"
  /\ news_source post = None
  /\ post_content post = generic_content business_profile (call_to_action post).
Proof.
  unfold generate_one. cbn [truthy]. rewrite andb_false_r.
  unfold _generate_standard_post. intros H.
  repeat bind_inv H. unfold ret in H. injection H as <- <-.
  cbn [ContentGenerator.post_type news_source post_content call_to_action].
  split; [reflexivity|]. split; [reflexivity|].
  repeat match goal with
         | E : lift _ _ = Ok _ |- _ => apply lift_inv in E as [E ->]
         end.
  match goal with
  | E : type_specific_vars _ _ _ _ = Ok _ |- _ =>
      unfold type_specific_vars in E; cbn [String.eqb Ascii.eqb Bool.eqb] in E;
      unfold ret in E; injection E as <- <-
  end.
  match goal with
  | Hbt : dict_item "insight" post_templates = Ok ?bt,
    Htp : dict_item tone ?bt = Ok ?tp,
    Hch : choice ?tp _ = Ok (?template, _),
    Hfmt : match format ?template ?vars with _ => _ end = Ok _ |- _ =>
      unfold dict_item in Hbt, Htp;
      destruct (dict_get "insight" post_templates) as [bt'|] eqn:Hbt'; [|discriminate Hbt];
      injection Hbt as <-;
      destruct (dict_get tone bt') as [tp'|] eqn:Htp'; [|discriminate Htp];
      injection Htp as <-;
      apply choice_In in Hch;
      pose proof (insight_templates_ask_for_content _ _ _ _ Hbt' Htp' Hch) as Hfield;
      pose proof (templates_well_braced _ _ _ _ _ Hbt' Htp' Hch) as Hb;
      destruct (format_from_missing_field template None vars Hb) as [k Hk];
      [ exists "insight_content"; split; [exact Hfield|];
        destruct (contact_phone business_profile) as [[|c p]|]; reflexivity
      | unfold format in Hfmt; rewrite Hk in Hfmt; injection Hfmt as <- ]
  end.
  unfold generic_content, name_of.
  destruct (contact_phone business_profile) as [[|c p]|]; reflexivity.
Qed.


(** *** Generated posts: the claims *)

Lemma generate_one_hashtags business_profile tone industry_news post_type g post g' :
  generate_one business_profile tone industry_news post_type g = Ok (post, g') ->
  hashtags_ok post.
Proof.
  unfold generate_one, hashtags_ok. intros H.
  assert (Hstd : forall pt, _generate_standard_post business_profile tone pt g = Ok (post, g') ->
            (length (post_hashtags post) <= 8)%nat
            /\ match news_source post with
               | None => incl (post_hashtags post)
                              (standard_pool (post_industry post) (ContentGenerator.post_type post))
               | Some _ => ContentGenerator.post_type post = "insight"
                           /\ incl (post_hashtags post) (insight_pool (post_industry post))
               end).
  { intros pt Hpt. apply standard_post_inv in Hpt as (-> & _ & -> & -> & Hlen & Hin).
    split; assumption. }
  destruct industry_news as [|item news]; cbn [truthy] in H.
  { rewrite andb_false_r in H. now apply (Hstd post_type). }
  rewrite andb_true_r in H.
  destruct (String.eqb post_type "insight"); [|now apply (Hstd post_type)].
  apply insight_post_inv in H as (Hty & _ & -> & Hsrc & Hlen & Hin).
  split; [assumption|]. destruct (news_source post); [now split|congruence].
Qed.

Lemma generate_loop_hashtags business_profile tone industry_news post_types :
  forall posts g result g',
    Forall hashtags_ok posts ->
    generate_loop business_profile tone industry_news post_types posts g = Ok (result, g') ->
    Forall hashtags_ok result.
Proof.
  induction post_types as [|post_type post_types IH]; intros posts g result g' Hacc H;
    simpl in H.
  - unfold ret in H. now injection H as <- <-.
  - bind_inv H. eapply IH; [|exact H].
    apply Forall_app. split; [assumption|]. constructor; [|constructor].
    eapply generate_one_hashtags. exact E.
Qed.

(** C6, amended.  Every generated post has at most 8 hashtags.  The hashtags
    of a post without news source are among the industry pool, the set of
    its post type and the three general hashtags; an insight post built from
    a news item draws from these and from the two further hashtags
    #industrytrends and #businessinsights. *)
Theorem C6_hashtags_bounded (business_profile : BusinessProfile)
        (post_preferences : PostPreferences) (industry_news : list NewsItem)
        (g : rng) (posts : list Post) (g' : rng) :
  generate_posts business_profile post_preferences industry_news g = Ok (posts, g') ->
  Forall hashtags_ok posts.
Proof.
  unfold generate_posts. intros H. bind_inv H.
  eapply generate_loop_hashtags; [constructor|exact H].
Qed.

(** C6 fails on the code for an insight post built from a news item: its
    hashtags can include #industrytrends, which is in none of the industry
    pool, the insight set and the general hashtags. *)
Lemma C6_insight_extra_hashtag :
  exists post g',
    generate_posts fitzone one_insight hiit_news [0; 0; 0; 7]%nat = Ok ([post], g')
    /\ ContentGenerator.post_type post = "insight"
    /\ post_hashtags post
       = ["#industrytrends"; "#fitness"; "#smallbusiness"; "#local"; "#knowledge";
          "#industry"; "#insights"; "#trends"]
    /\ (length (post_hashtags post) <= 8)%nat
    /\ ~ incl (post_hashtags post) (standard_pool "fitness" "insight").
Proof.
  eexists. eexists. split; [vm_compute; reflexivity|].
  cbn [ContentGenerator.post_type post_hashtags].
  split; [reflexivity|]. split; [reflexivity|]. split; [simpl; lia|].
  intros Hincl. specialize (Hincl "#industrytrends" (or_introl eq_refl)).
  vm_compute in Hincl. intuition discriminate.
Qed.

(** C6, amended, at one insight post for the sample profile. *)
Lemma C6_witness_fitzone :
  exists posts g',
    generate_posts fitzone one_insight hiit_news [0; 0; 0; 7]%nat = Ok (posts, g')
    /\ Forall hashtags_ok posts.
Proof.
  eexists. eexists. split; [vm_compute; reflexivity|].
  eapply (C6_hashtags_bounded fitzone one_insight hiit_news [0; 0; 0; 7]%nat).
  vm_compute. reflexivity.
Defined.

(** C7 on the code: an insight post requested without news goes through
    [_generate_standard_post] with post type ["insight"]; the post keeps that
    type and, no template field [insight_content] being supplied, its
    content is the fallback sentence.  No tip post is produced. *)
Theorem C7_insight_without_news_stays_insight :
  exists post g',
    generate_posts fitzone one_insight [] [2; 4]%nat = Ok ([post], g')
    /\ ContentGenerator.post_type post = "insight"
    /\ post_content post
       = "Great news from FitZone Gym! We have something special for you. Link in bio to book online."
    /\ news_source post = None.
Proof.
  eexists. eexists. split; [vm_compute; reflexivity|].
  repeat split.
Qed.


(** *** Post type distribution and the posts generated *)

Lemma round_robin_length types start n : length (round_robin types start n) = n.
Proof. unfold round_robin. now rewrite length_map, length_seq. Qed.

Lemma round_robin_nth types n i :
  types <> [] -> (i < n)%nat ->
  nth_error (round_robin types 0 n) i = nth_error types (i mod length types).
Proof.
  intros Hne Hi. unfold round_robin.
  rewrite nth_error_map, nth_error_seq.
  destruct (Nat.ltb_spec i n); [|lia]. simpl.
  symmetry. apply nth_error_nth'.
  apply Nat.mod_upper_bound. destruct types; [congruence|simpl; lia].
Qed.

(** X2.  [_distribute_post_types] never raises; it returns [frequency] types (none
    for a frequency below 1), the [i]-th being [P[i mod len(P)]], where [P]
    is [preferred_types], or promo, tip, update when that list is empty. *)
Theorem distribute_post_types_spec (frequency : Z) (preferred_types : list string) :
  let P := match preferred_types with
           | [] => ["promo"; "tip"; "update"]
           | _ :: _ => preferred_types
           end in
  exists post_types,
    _distribute_post_types frequency preferred_types = Ok post_types
    /\ length post_types = Z.to_nat frequency
    /\ forall i, (i < Z.to_nat frequency)%nat ->
         nth_error post_types i = nth_error P (i mod length P).
Proof.
  intros P. eexists. split; [apply distribute_post_types_round_robin|].
  assert (HP : effective_types preferred_types = P) by (now destruct preferred_types).
  rewrite HP. split; [apply round_robin_length|].
  intros i Hi. apply round_robin_nth; [|exact Hi].
  subst P. destruct preferred_types; discriminate.
Qed.

Lemma standard_post_meta business_profile tone post_type g post g' :
  _generate_standard_post business_profile tone post_type g = Ok (post, g') ->
  post_meta_ok business_profile tone post_type post.
Proof.
  unfold _generate_standard_post. fold (industry_of business_profile). intros H.
  repeat bind_inv H.
  unfold ret in H. injection H as <- <-. unfold post_meta_ok.
  cbn [ContentGenerator.post_type post_tone post_industry estimated_engagement
       best_time_to_post call_to_action].
  repeat split.
  - match goal with
    | E : lift (_estimate_engagement _ _) _ = Ok _ |- _ => now apply lift_inv in E as [E _]
    end.
  - match goal with
    | E : choice cta_options _ = Ok _ |- _ => exact (choice_In _ _ _ _ E)
    end.
Qed.

Lemma insight_post_meta business_profile tone item news g post g' :
  _generate_insight_post business_profile tone (item :: news) g = Ok (post, g') ->
  post_meta_ok business_profile tone "insight" post.
Proof.
  unfold _generate_insight_post. cbn [truthy negb].
  fold (industry_of business_profile). intros H.
  repeat bind_inv H.
  unfold ret in H. injection H as <- <-. unfold post_meta_ok.
  cbn [ContentGenerator.post_type post_tone post_industry estimated_engagement
       best_time_to_post call_to_action].
  repeat split.
  - match goal with
    | E : lift (_estimate_engagement _ _) _ = Ok _ |- _ => now apply lift_inv in E as [E _]
    end.
  - match goal with
    | E : choice cta_options _ = Ok _ |- _ => exact (choice_In _ _ _ _ E)
    end.
Qed.

Lemma generate_one_meta business_profile tone industry_news post_type g post g' :
  generate_one business_profile tone industry_news post_type g = Ok (post, g') ->
  post_meta_ok business_profile tone post_type post.
Proof.
  unfold generate_one. intros H.
  destruct industry_news as [|item news]; cbn [truthy] in H.
  { rewrite andb_false_r in H. now apply standard_post_meta in H. }
  rewrite andb_true_r in H.
  destruct (String.eqb_spec post_type "insight") as [->|_];
    [now apply insight_post_meta in H|now apply standard_post_meta in H].
Qed.

Lemma generate_loop_meta business_profile tone industry_news post_types :
  forall posts g result g',
    generate_loop business_profile tone industry_news post_types posts g = Ok (result, g') ->
    exists new,
      result = posts ++ new
      /\ Forall2 (post_meta_ok business_profile tone) post_types new.
Proof.
  induction post_types as [|post_type post_types IH]; intros posts g result g' H;
    simpl in H.
  - unfold ret in H. injection H as <- <-. exists []. rewrite app_nil_r. now split.
  - bind_inv H. apply generate_one_meta in E.
    destruct (IH _ _ _ _ H) as (new & -> & Hnew).
    eexists (_ :: new). rewrite <- app_assoc. split; [reflexivity|].
    now constructor.
Qed.

Lemma Forall2_nth_error {A B} (R : A -> B -> Prop) l l' :
  Forall2 R l l' ->
  forall i a, nth_error l i = Some a -> exists b, nth_error l' i = Some b /\ R a b.
Proof.
  induction 1 as [|x y l l' Hxy _ IH]; intros i a Hi.
  - now destruct i.
  - destruct i as [|i]; simpl in *.
    + injection Hi as <-. now exists y.
    + now apply IH.
Qed.

Lemma generate_posts_meta business_profile post_preferences industry_news g posts g' :
  generate_posts business_profile post_preferences industry_news g = Ok (posts, g') ->
  Forall2 (post_meta_ok business_profile (tone_of post_preferences))
          (round_robin (types_of post_preferences) 0
                       (Z.to_nat (frequency_of post_preferences)))
          posts.
Proof.
  unfold generate_posts. intros H. bind_inv H. apply lift_inv in E as [E ->].
  rewrite distribute_post_types_round_robin in E. injection E as <-.
  now apply generate_loop_meta in H as (new & -> & Hnew).
Qed.

(** X4.  Every run of [generate_posts] that returns gives [frequency] posts; the
    [i]-th post has the type at position [i mod len(types)] of the requested
    types, the requested tone, the industry of the profile, the engagement
    estimate and the posting time of that type, tone and industry, and a
    call to action from the fixed list: also when news items turn insight
    posts into news posts. *)
Theorem generate_posts_shape (business_profile : BusinessProfile)
        (post_preferences : PostPreferences) (industry_news : list NewsItem)
        (g : rng) (posts : list Post) (g' : rng) :
  generate_posts business_profile post_preferences industry_news g = Ok (posts, g') ->
  length posts = Z.to_nat (frequency_of post_preferences)
  /\ forall i, (i < Z.to_nat (frequency_of post_preferences))%nat ->
       exists post_type post,
         nth_error (types_of post_preferences) (i mod length (types_of post_preferences))
         = Some post_type
         /\ nth_error posts i = Some post
         /\ post_meta_ok business_profile (tone_of post_preferences) post_type post.
Proof.
  intros H. apply generate_posts_meta in H as Hnew.
  pose proof (Forall2_length Hnew) as Hlen. rewrite round_robin_length in Hlen.
  split; [now symmetry|].
  intros i Hi.
  assert (Hne : types_of post_preferences <> []) by apply effective_types_nonempty.
  pose proof (round_robin_nth (types_of post_preferences) _ i Hne Hi) as Hrr.
  destruct (nth_error (round_robin (types_of post_preferences) 0
                         (Z.to_nat (frequency_of post_preferences))) i) as [t|] eqn:Ht.
  2:{ apply nth_error_None in Ht. rewrite round_robin_length in Ht. lia. }
  destruct (Forall2_nth_error _ _ _ Hnew i t Ht) as (post & Hp & Hok).
  exists t, post. repeat split; [now symmetry|assumption|apply Hok..].
Qed.

(** X4 at one insight post of a fitness profile. *)
Lemma generate_posts_shape_witness :
  exists posts g',
    generate_posts fitzone one_insight hiit_news [3; 1; 4] = Ok (posts, g')
    /\ length posts = 1%nat.
Proof.
  eexists. eexists. split; [vm_compute; reflexivity|].
  eapply (generate_posts_shape fitzone one_insight hiit_news [3; 1; 4]).
  vm_compute. reflexivity.
Defined.

(** X3.  With a tone that has templates and post types among promo, tip, update
    and insight, [generate_posts] returns, for every profile, frequency,
    news list and random state, a list of [frequency] posts (none for a
    frequency below 1). *)
Theorem generate_posts_total (business_profile : BusinessProfile)
        (post_preferences : PostPreferences) (industry_news : list NewsItem) (g : rng) :
  In (tone_of post_preferences) tone_enum ->
  incl (types_of post_preferences) known_post_types ->
  exists posts g',
    generate_posts business_profile post_preferences industry_news g = Ok (posts, g')
    /\ length posts = Z.to_nat (frequency_of post_preferences).
Proof.
  intros Htone Htypes.
  destruct (generate_posts_returns business_profile post_preferences industry_news g
              Htone Htypes) as (posts & g' & H).
  exists posts, g'. split; [exact H|].
  apply generate_posts_meta in H. apply Forall2_length in H.
  now rewrite round_robin_length in H.
Qed.

(** X3 at the profile and the news item of the test of [content_generator.py]. *)
Lemma generate_posts_total_witness :
  exists posts g',
    generate_posts fitzone one_insight hiit_news [3; 1; 4] = Ok (posts, g')
    /\ length posts = 1%nat.
Proof.
  apply (generate_posts_total fitzone one_insight hiit_news [3; 1; 4]).
  - simpl. tauto.
  - intros t [<-|[]]. simpl. tauto.
Defined.

(** *** Tones and post types without templates *)

Lemma by_tone_keys post_type by_tone tone :
  dict_get post_type post_templates = Some by_tone ->
  ~ In tone tone_enum ->
  dict_get tone by_tone = None.
Proof.
  intros Hbt Htone.
  assert (Hkeys : dict_keys by_tone = tone_enum).
  { apply dict_get_In in Hbt. simpl in Hbt.
    destruct Hbt as [[= _ <-]|[[= _ <-]|[[= _ <-]|[[= _ <-]|[]]]]]; reflexivity. }
  destruct (dict_get tone by_tone) as [templates|] eqn:Hget; [|reflexivity].
  exfalso. apply Htone. rewrite <- Hkeys. apply dict_get_In in Hget.
  unfold dict_keys. now apply (in_map fst) in Hget.
Qed.

Lemma post_templates_keys post_type :
  ~ In post_type known_post_types -> dict_get post_type post_templates = None.
Proof.
  intros Hn. destruct (dict_get post_type post_templates) as [by_tone|] eqn:Hget;
    [|reflexivity].
  exfalso. apply Hn. apply dict_get_In in Hget. apply (in_map fst) in Hget. exact Hget.
Qed.

Lemma known_type_found post_type :
  In post_type known_post_types ->
  exists by_tone, dict_get post_type post_templates = Some by_tone.
Proof.
  simpl. intros [<-|[<-|[<-|[<-|[]]]]]; now eexists.
Qed.

Lemma standard_post_unknown_tone business_profile tone post_type g :
  In post_type known_post_types -> ~ In tone tone_enum ->
  _generate_standard_post business_profile tone post_type g = Raise (KeyError tone).
Proof.
  intros Htype Htone. unfold _generate_standard_post.
  fold (industry_of business_profile).
  destruct (industry_data_found (industry_of business_profile)) as (d & Hd & _).
  destruct (known_type_found _ Htype) as (by_tone & Hbt).
  unfold mbind at 1. unfold lift at 1. rewrite Hd.
  unfold mbind at 1. unfold lift at 1. unfold dict_item at 1. rewrite Hbt.
  unfold mbind at 1. unfold lift at 1. unfold dict_item at 1.
  now rewrite (by_tone_keys _ _ _ Hbt Htone).
Qed.

Lemma standard_post_unknown_type business_profile tone post_type g :
  ~ In post_type known_post_types ->
  _generate_standard_post business_profile tone post_type g = Raise (KeyError post_type).
Proof.
  intros Htype. unfold _generate_standard_post.
  fold (industry_of business_profile).
  destruct (industry_data_found (industry_of business_profile)) as (d & Hd & _).
  unfold mbind at 1. unfold lift at 1. rewrite Hd.
  unfold mbind at 1. unfold lift at 1. unfold dict_item at 1.
  now rewrite (post_templates_keys _ Htype).
Qed.

Lemma insight_post_unknown_tone business_profile tone item news g :
  ~ In tone tone_enum ->
  _generate_insight_post business_profile tone (item :: news) g = Raise (KeyError tone).
Proof.
  intros Htone. unfold _generate_insight_post. cbn [truthy negb].
  destruct (choice_returns (item :: news) g ltac:(discriminate)) as (x & g1 & E & _).
  unfold mbind at 1. rewrite E.
  destruct (known_type_found "insight" ltac:(simpl; tauto)) as (by_tone & Hbt).
  unfold mbind at 1. unfold lift at 1. unfold dict_item at 1. rewrite Hbt.
  unfold mbind at 1. unfold lift at 1. unfold dict_item at 1.
  now rewrite (by_tone_keys _ _ _ Hbt Htone).
Qed.

Lemma generate_one_unknown business_profile tone industry_news post_type g :
  (~ In post_type known_post_types ->
   generate_one business_profile tone industry_news post_type g
   = Raise (KeyError post_type))
  /\ (In post_type known_post_types -> ~ In tone tone_enum ->
      generate_one business_profile tone industry_news post_type g
      = Raise (KeyError tone)).
Proof.
  unfold generate_one. split.
  - intros Htype.
    destruct (String.eqb_spec post_type "insight") as [->|_].
    { exfalso. apply Htype. simpl. tauto. }
    now apply standard_post_unknown_type.
  - intros Htype Htone.
    destruct industry_news as [|item news]; cbn [truthy].
    { rewrite andb_false_r. now apply standard_post_unknown_tone. }
    rewrite andb_true_r. destruct (String.eqb post_type "insight").
    + now apply insight_post_unknown_tone.
    + now apply standard_post_unknown_tone.
Qed.

(** X5.  [generate_posts] asked for at least one post raises [KeyError] when the
    first post type has no templates (the key is the post type), and when it
    has but the tone is none of professional, friendly, casual, premium (the
    key is the tone): no post is returned, whatever the profile, the news
    and the random state. *)
Theorem generate_posts_key_error (business_profile : BusinessProfile)
        (post_preferences : PostPreferences) (industry_news : list NewsItem) (g : rng) :
  (0 < frequency_of post_preferences)%Z ->
  exists first_type,
    nth_error (types_of post_preferences) 0 = Some first_type
    /\ (~ In first_type known_post_types ->
        generate_posts business_profile post_preferences industry_news g
        = Raise (KeyError first_type))
    /\ (In first_type known_post_types ->
        ~ In (tone_of post_preferences) tone_enum ->
        generate_posts business_profile post_preferences industry_news g
        = Raise (KeyError (tone_of post_preferences))).
Proof.
  intros Hfreq.
  assert (Hne : types_of post_preferences <> []) by apply effective_types_nonempty.
  destruct (types_of post_preferences) as [|first_type types] eqn:Htypes; [congruence|].
  exists first_type. split; [reflexivity|].
  assert (Hrun : generate_posts business_profile post_preferences industry_news g
                 = mbind (generate_one business_profile (tone_of post_preferences)
                            industry_news first_type)
                         (fun post =>
                            generate_loop business_profile (tone_of post_preferences)
                              industry_news
                              (round_robin (first_type :: types) 1
                                 (Z.to_nat (frequency_of post_preferences) - 1))
                              ([] ++ [post])) g).
  { unfold generate_posts. unfold mbind at 1. unfold lift at 1.
    rewrite distribute_post_types_round_robin.
    fold (types_of post_preferences). fold (tone_of post_preferences).
    fold (frequency_of post_preferences). rewrite Htypes.
    destruct (Z.to_nat (frequency_of post_preferences)) as [|n] eqn:Hn; [lia|].
    replace (S n - 1)%nat with n by lia.
    unfold round_robin. cbn [seq map generate_loop].
    rewrite Nat.Div0.mod_0_l. reflexivity. }
  rewrite Hrun. unfold mbind.
  destruct (generate_one_unknown business_profile (tone_of post_preferences)
              industry_news first_type g) as [Hty Hto].
  split.
  - intros H. now rewrite Hty.
  - intros H1 H2. now rewrite Hto.
Qed.

(** X5 at the tone 'witty', which the /api/content/generate route documents. *)
Lemma generate_posts_key_error_witness :
  generate_posts fitzone
    {| tone := Some "witty"; frequency := Some 3%Z; post_types := None |} [] [2; 7]
  = Raise (KeyError "witty").
Proof.
  destruct (generate_posts_key_error fitzone
              {| tone := Some "witty"; frequency := Some 3%Z; post_types := None |}
              [] [2; 7] ltac:(reflexivity)) as (first_type & Hfirst & _ & Htone).
  simpl in Hfirst. injection Hfirst as <-.
  apply Htone.
  - simpl. tauto.
  - simpl. intros [H|[H|[H|[H|[]]]]]; discriminate H.
Defined.


(** *** The suggested posting time *)

(** X11.  [_suggest_best_time] in closed form.  Only a morning and an afternoon
    slot are ever looked up, so of the eight times of the table four are
    returned (6:00 AM, 2:00 PM, 9:00 AM, 3:00 PM); the evening, lunch and
    dinner times are never suggested, food always gets the default 12:00 PM,
    and so do fitness in the afternoon and beauty in the morning.  The slot
    is the morning for tips and updates and the afternoon for every other
    post type; an industry outside the table is treated as general. *)
Theorem suggest_best_time_closed_form (industry post_type : string) :
  let morning := String.eqb post_type "tip" || String.eqb post_type "update" in
  _suggest_best_time industry post_type
  = if String.eqb industry "fitness" then (if morning then "6:00 AM" else "12:00 PM")
    else if String.eqb industry "beauty" then (if morning then "12:00 PM" else "2:00 PM")
    else if String.eqb industry "food" then "12:00 PM"
    else (if morning then "9:00 AM" else "3:00 PM").
Proof.
  unfold _suggest_best_time, dict_get_default, industry_times, post_type_times.
  cbn [dict_get].
  destruct (String.eqb_spec post_type "promo") as [->|Hp]; cbn [orb String.eqb Ascii.eqb Bool.eqb];
    [string_cases industry; reflexivity|].
  destruct (String.eqb_spec post_type "tip") as [->|Ht]; cbn [orb];
    [string_cases industry; reflexivity|].
  destruct (String.eqb_spec post_type "update") as [->|Hu]; cbn [orb];
    [string_cases industry; reflexivity|].
  destruct (String.eqb_spec post_type "insight") as [->|Hi];
    string_cases industry; reflexivity.
Qed.

(** *** Sampling without replacement *)

Section SamplingPositions.
Context {A : Type}.

Lemma set_nth_length (pool : list A) : forall j x, length (set_nth j x pool) = length pool.
Proof.
  induction pool as [|y pool IH]; intros j x; destruct j; simpl; auto.
Qed.

Lemma firstn_snoc (l : list A) : forall m last,
  nth_error l m = Some last -> firstn (S m) l = firstn m l ++ [last].
Proof.
  induction l as [|y l IH]; intros m last Hm.
  - now destruct m.
  - destruct m as [|m]; simpl in *.
    + now injection Hm as <-.
    + f_equal. now apply IH.
Qed.

Lemma sample_step_perm (pool : list A) : forall n j x last,
  (j < n)%nat ->
  nth_error pool j = Some x ->
  nth_error pool (n - 1) = Some last ->
  Permutation (x :: firstn (n - 1) (set_nth j last pool)) (firstn n pool).
Proof.
  induction pool as [|y pool IH]; intros n j x last Hj Hx Hlast.
  - now destruct j.
  - destruct n as [|m]; [lia|]. replace (S m - 1)%nat with m in * by lia.
    destruct j as [|j]; simpl in Hx.
    + injection Hx as <-. destruct m as [|m]; simpl in Hlast.
      * reflexivity.
      * cbn [set_nth]. rewrite !firstn_cons. apply perm_skip.
        rewrite (firstn_snoc pool m last Hlast). apply Permutation_cons_append.
    + destruct m as [|m]; [lia|]. simpl in Hlast.
      cbn [set_nth]. rewrite !firstn_cons. rewrite perm_swap. apply perm_skip.
      specialize (IH (S m) j x last ltac:(lia) Hx).
      replace (S m - 1)%nat with m in IH by lia. now apply IH.
Qed.

Lemma randbelow_lt n g : (0 < n)%nat -> (fst (randbelow n g) < n)%nat.
Proof.
  intros Hn. unfold randbelow. destruct g as [|x g]; simpl; [assumption|].
  apply Nat.mod_upper_bound. lia.
Qed.

Lemma sample_loop_perm k : forall n (pool : list A) g,
  (k <= n <= length pool)%nat ->
  length (fst (sample_loop k n pool g)) = k
  /\ exists rest, Permutation (fst (sample_loop k n pool g) ++ rest) (firstn n pool).
Proof.
  induction k as [|k IH]; intros n pool g Hn; simpl.
  - split; [reflexivity|]. now exists (firstn n pool).
  - pose proof (randbelow_lt n g ltac:(lia)) as Hj.
    destruct (randbelow n g) as [j g1]. simpl in Hj.
    destruct (nth_error pool j) as [x|] eqn:Hx.
    2:{ apply nth_error_None in Hx. lia. }
    destruct (nth_error pool (n - 1)) as [last|] eqn:Hlast.
    2:{ apply nth_error_None in Hlast. lia. }
    destruct (IH (n - 1)%nat (set_nth j last pool) g1) as [Hlen [rest Hperm]].
    { rewrite set_nth_length. lia. }
    destruct (sample_loop k (n - 1) (set_nth j last pool) g1) as [result g2].
    simpl in *. split; [now f_equal|].
    exists rest. rewrite <- (sample_step_perm pool n j x last Hj Hx Hlast).
    now apply perm_skip.
Qed.

Lemma sample_perm (population : list A) (k : Z) g result g' :
  sample population k g = Ok (result, g') ->
  length result = Z.to_nat k
  /\ exists rest, Permutation (result ++ rest) population.
Proof.
  unfold sample.
  destruct ((0 <=? k)%Z && (k <=? Z.of_nat (length population))%Z) eqn:Hk; [|discriminate].
  apply andb_true_iff in Hk as [Hk0 Hk1]. apply Z.leb_le in Hk0, Hk1.
  intros [= Hs].
  destruct (sample_loop_perm (Z.to_nat k) (length population) population g ltac:(lia))
    as [Hlen [rest Hperm]].
  rewrite Hs in Hlen, Hperm. simpl in Hlen, Hperm. rewrite firstn_all in Hperm.
  split; [assumption|now exists rest].
Qed.

End SamplingPositions.

(** *** Hashtags: how many, and which *)

(** X9.  [_generate_hashtags] never raises.  It draws min(8, n) of the n
    positions of the list base + type-specific + general without
    replacement: the hashtags returned, together with the ones left over,
    are a rearrangement of that list, so a hashtag is returned at most as
    often as the list holds it. *)
Theorem generate_hashtags_without_replacement (base_hashtags : list string)
        (post_type : string) (g : rng) :
  let pool := base_hashtags ++ type_hashtags_of post_type ++ general_hashtags in
  exists result g' rest,
    _generate_hashtags base_hashtags post_type g = Ok (result, g')
    /\ length result = Nat.min 8 (length pool)
    /\ Permutation (result ++ rest) pool.
Proof.
  intros pool.
  destruct (generate_hashtags_returns base_hashtags post_type g) as (result & g' & H).
  exists result, g'. pose proof H as Hs. unfold _generate_hashtags in Hs.
  apply sample_perm in Hs as [Hlen [rest Hperm]].
  fold (type_hashtags_of post_type) in Hlen, Hperm.
  rewrite <- app_assoc in Hlen, Hperm. fold pool in Hlen, Hperm.
  exists rest. repeat split; [assumption| |assumption].
  rewrite Hlen. lia.
Qed.

Lemma distinct_NoDup l : distinct l = true -> NoDup l.
Proof.
  induction l as [|x l IH]; simpl; intros H; constructor.
  - apply andb_true_iff in H as [H _]. intros Hin. apply mem_In in Hin.
    now rewrite Hin in H.
  - apply IH. now apply andb_true_iff in H as [_ H].
Qed.

Lemma hashtags_sampled base_hashtags post_type g result g' :
  _generate_hashtags base_hashtags post_type g = Ok (result, g') ->
  length result
  = Nat.min 8 (length (base_hashtags ++ type_hashtags_of post_type ++ general_hashtags))
  /\ (NoDup (base_hashtags ++ type_hashtags_of post_type ++ general_hashtags) ->
      NoDup result).
Proof.
  unfold _generate_hashtags. intros Hs.
  apply sample_perm in Hs as [Hlen [rest Hperm]].
  fold (type_hashtags_of post_type) in Hlen, Hperm.
  rewrite <- app_assoc in Hlen, Hperm.
  split; [rewrite Hlen; lia|].
  intros Hnd. apply (Permutation_NoDup (Permutation_sym Hperm)) in Hnd.
  now apply NoDup_app_remove_r in Hnd.
Qed.

Lemma type_hashtags_length post_type :
  In post_type known_post_types -> (3 <= length (type_hashtags_of post_type))%nat.
Proof. simpl. intros [<-|[<-|[<-|[<-|[]]]]]; simpl; lia. Qed.

Lemma industry_data_cases industry d :
  industry_data_of industry = Ok d ->
  (6 <= length (hashtags d))%nat
  /\ (In industry ["fitness"; "beauty"; "food"] ->
      forall post_type, In post_type known_post_types ->
        distinct (hashtags d ++ type_hashtags_of post_type ++ general_hashtags) = true)
  /\ (In industry ["fitness"; "beauty"; "food"] ->
      distinct ((hashtags d ++ insight_extra_hashtags)
                  ++ type_hashtags_of "insight" ++ general_hashtags) = true).
Proof.
  unfold industry_data_of, dict_get_default, dict_item.
  cbn [dict_get industry_content bind].
  string_cases industry; intros [= <-]; (split; [simpl; lia|]);
    (split; [intros Hin pt Hpt|intros Hin]);
    try (simpl in Hin; exfalso; intuition congruence);
    try (simpl in Hpt; destruct Hpt as [<-|[<-|[<-|[<-|[]]]]]);
    vm_compute; reflexivity.
Qed.

Lemma standard_post_eight business_profile tone post_type g post g' :
  _generate_standard_post business_profile tone post_type g = Ok (post, g') ->
  eight_hashtags post.
Proof.
  unfold _generate_standard_post. fold (industry_of business_profile). intros H.
  bind_inv H. apply lift_inv in E as [Hdata ->].
  bind_inv H. apply lift_inv in E as [Hbt ->].
  assert (Htype : In post_type known_post_types).
  { unfold dict_item in Hbt.
    destruct (dict_get post_type post_templates) as [bt|] eqn:Hget; [|discriminate].
    apply dict_get_In in Hget. now apply (in_map fst) in Hget. }
  repeat bind_inv H.
  unfold ret in H. injection H as <- <-. unfold eight_hashtags.
  cbn [post_hashtags post_industry].
  match goal with
  | E : _generate_hashtags _ _ _ = Ok _ |- _ => apply hashtags_sampled in E as [Hlen Hnd]
  end.
  destruct (industry_data_cases _ _ Hdata) as (H6 & Hd & _).
  pose proof (type_hashtags_length _ Htype) as H3.
  split.
  - rewrite Hlen. rewrite !length_app. simpl length. lia.
  - intros Hin. apply Hnd. apply distinct_NoDup. now apply Hd.
Qed.

Lemma insight_post_eight business_profile tone item news g post g' :
  _generate_insight_post business_profile tone (item :: news) g = Ok (post, g') ->
  eight_hashtags post.
Proof.
  unfold _generate_insight_post. cbn [truthy negb].
  fold (industry_of business_profile). intros H.
  repeat bind_inv H.
  match goal with
  | E : lift (industry_data_of _) _ = Ok _ |- _ => apply lift_inv in E as [Hdata ->]
  end.
  unfold ret in H. injection H as <- <-. unfold eight_hashtags.
  cbn [post_hashtags post_industry].
  match goal with
  | E : _generate_hashtags _ _ _ = Ok _ |- _ => apply hashtags_sampled in E as [Hlen Hnd]
  end.
  destruct (industry_data_cases _ _ Hdata) as (H6 & _ & Hd).
  split.
  - rewrite Hlen. rewrite !length_app. simpl length. lia.
  - intros Hin. apply Hnd. apply distinct_NoDup. now apply Hd.
Qed.

Lemma generate_one_eight business_profile tone industry_news post_type g post g' :
  generate_one business_profile tone industry_news post_type g = Ok (post, g') ->
  eight_hashtags post.
Proof.
  unfold generate_one. intros H.
  destruct industry_news as [|item news]; cbn [truthy] in H.
  { rewrite andb_false_r in H. now apply standard_post_eight in H. }
  rewrite andb_true_r in H.
  destruct (String.eqb post_type "insight");
    [now apply insight_post_eight in H|now apply standard_post_eight in H].
Qed.

Lemma generate_loop_eight business_profile tone industry_news post_types :
  forall posts g result g',
    Forall eight_hashtags posts ->
    generate_loop business_profile tone industry_news post_types posts g = Ok (result, g') ->
    Forall eight_hashtags result.
Proof.
  induction post_types as [|post_type post_types IH]; intros posts g result g' Hacc H;
    simpl in H.
  - unfold ret in H. now injection H as <- <-.
  - bind_inv H. eapply IH; [|exact H].
    apply Forall_app. split; [assumption|]. constructor; [|constructor].
    eapply generate_one_eight. exact E.
Qed.

(** X10.  Every generated post carries exactly 8 hashtags.  For the industries
    fitness, beauty and food no hashtag is repeated within a post. *)
Theorem generated_posts_eight_hashtags (business_profile : BusinessProfile)
        (post_preferences : PostPreferences) (industry_news : list NewsItem)
        (g : rng) (posts : list Post) (g' : rng) :
  generate_posts business_profile post_preferences industry_news g = Ok (posts, g') ->
  Forall eight_hashtags posts.
Proof.
  unfold generate_posts. intros H. bind_inv H.
  eapply generate_loop_eight; [constructor|exact H].
Qed.

(** X10 at one insight post of a fitness profile. *)
Lemma generated_posts_eight_hashtags_witness :
  exists posts g',
    generate_posts fitzone one_insight hiit_news [3; 1; 4; 1; 5; 9; 2; 6] = Ok (posts, g')
    /\ Forall eight_hashtags posts.
Proof.
  eexists. eexists. split; [vm_compute; reflexivity|].
  eapply (generated_posts_eight_hashtags fitzone one_insight hiit_news
            [3; 1; 4; 1; 5; 9; 2; 6]).
  vm_compute. reflexivity.
Defined.

(** The pool of the general industry (also the pool of every industry
    outside fitness, beauty, food) lists #community and #local, which are
    general hashtags too, so a post can carry one of them twice. *)
Example general_post_repeats_hashtag :
  exists post g',
    _generate_standard_post corner_shop "friendly" "promo" [0; 0; 0; 0; 4] = Ok (post, g')
    /\ post_hashtags post
       = ["#local"; "#business"; "#smallbusiness"; "#local"; "#save"; "#special";
          "#offer"; "#deal"].
Proof. eexists. eexists. split; vm_compute; reflexivity. Qed.


(** *** The content of a post: template filled, or generic sentence *)

Ltac bind_inv_as H x g' E :=
  match type of H with
  | mbind ?m ?k ?g = Ok _ =>
      unfold mbind at 1 in H;
      destruct (m g) as [[x g']|?] eqn:E; [|discriminate H];
      cbv beta zeta in H
  end.

(** The steps of a run of [_generate_standard_post] that returned. *)
Lemma standard_post_run business_profile tone post_type g post g' :
  _generate_standard_post business_profile tone post_type g = Ok (post, g') ->
  exists industry_data by_tone templates template g1 cta g2 value_prop g3 content_vars g4,
    industry_data_of (industry_of business_profile) = Ok industry_data
    /\ dict_get post_type post_templates = Some by_tone
    /\ dict_get tone by_tone = Some templates
    /\ choice templates g = Ok (template, g1)
    /\ choice cta_options g1 = Ok (cta, g2)
    /\ choice (value_props industry_data) g2 = Ok (value_prop, g3)
    /\ type_specific_vars post_type industry_data
         [ ("business_name", name_of business_profile); ("call_to_action", cta);
           ("value_prop", value_prop) ] g3 = Ok (content_vars, g4)
    /\ call_to_action post = cta
    /\ match format template (with_contact_info business_profile content_vars) with
       | Raise (KeyError _) =>
           Ok ("Great news from " ++ name_of business_profile ++ "! "
               ++ dict_get_default "offer" "We have something special for you."
                    (with_contact_info business_profile content_vars)
               ++ " " ++ cta)%string
       | r => r
       end = Ok (post_content post).
Proof.
  unfold _generate_standard_post. fold (industry_of business_profile).
  fold (name_of business_profile). intros H.
  bind_inv_as H industry_data g0 Hdata. apply lift_inv in Hdata as [Hdata ->].
  bind_inv_as H by_tone g0 Hbt. apply lift_inv in Hbt as [Hbt ->].
  bind_inv_as H templates g0 Htp. apply lift_inv in Htp as [Htp ->].
  bind_inv_as H template g1 Htemplate.
  bind_inv_as H cta g2 Hcta.
  bind_inv_as H value_prop g3 Hvp.
  bind_inv_as H content_vars g4 Hvars.
  bind_inv_as H content g5 Hcontent. apply lift_inv in Hcontent as [Hcontent ->].
  repeat bind_inv H. unfold ret in H. injection H as <- <-.
  cbn [call_to_action post_content].
  unfold dict_item in Hbt, Htp.
  destruct (dict_get post_type post_templates) as [by_tone'|] eqn:Hbt'; [|discriminate].
  injection Hbt as ->.
  destruct (dict_get tone by_tone) as [templates'|] eqn:Htp'; [|discriminate].
  injection Htp as ->.
  exists industry_data, by_tone, templates, template, g1, cta, g2, value_prop, g3,
         content_vars, g4.
  repeat split; try assumption.
  unfold with_contact_info, contact_info_of.
  destruct (contact_phone business_profile) as [[|c p]|]; exact Hcontent.
Qed.

Ltac choice_inv H :=
  match type of H with
  | mbind (choice ?l) _ ?g = Ok _ =>
      let E := fresh "E" in
      unfold mbind at 1 in H;
      destruct (choice l g) as [[? ?]|?] eqn:E; [|discriminate H];
      apply choice_In in E
  end.

(** The entries of [content_vars]: the supplied fields, each with a value of
    its pool. *)
Lemma content_vars_spec business_profile post_type industry_data cta value_prop g3
      content_vars g4 :
  In cta cta_options -> In value_prop (value_props industry_data) ->
  type_specific_vars post_type industry_data
    [ ("business_name", name_of business_profile); ("call_to_action", cta);
      ("value_prop", value_prop) ] g3 = Ok (content_vars, g4) ->
  (forall field, In field (supplied_fields post_type) ->
     dict_get field (with_contact_info business_profile content_vars) <> None)
  /\ (forall field value,
        dict_get field (with_contact_info business_profile content_vars) = Some value ->
        In field (supplied_fields post_type)
        /\ In value (field_values business_profile industry_data cta field)).
Proof.
  intros Hcta Hvp H. unfold type_specific_vars, supplied_fields, with_contact_info in *.
  destruct (String.eqb post_type "promo").
  { choice_inv H. unfold ret in H. injection H as <- <-. cbn [dict_set String.eqb Ascii.eqb Bool.eqb].
    split.
    - intros field Hin. simpl in Hin.
      destruct Hin as [<-|[<-|[<-|[<-|[<-|[]]]]]]; simpl; discriminate.
    - intros field value. unfold field_values. cbn [dict_get app In].
      string_cases field; intros [= <-]; (split; [tauto|]); simpl; auto. }
  destruct (String.eqb post_type "tip").
  { choice_inv H. choice_inv H. unfold ret in H. injection H as <- <-.
    cbn [dict_set String.eqb Ascii.eqb Bool.eqb].
    split.
    - intros field Hin. simpl in Hin.
      destruct Hin as [<-|[<-|[<-|[<-|[<-|[<-|[]]]]]]]; simpl; discriminate.
    - intros field value. unfold field_values. cbn [dict_get app In].
      string_cases field; intros [= <-]; (split; [tauto|]); simpl; auto. }
  destruct (String.eqb post_type "update").
  { choice_inv H. unfold ret in H. injection H as <- <-. cbn [dict_set String.eqb Ascii.eqb Bool.eqb].
    split.
    - intros field Hin. simpl in Hin.
      destruct Hin as [<-|[<-|[<-|[<-|[<-|[]]]]]]; simpl; discriminate.
    - intros field value. unfold field_values. cbn [dict_get app In].
      string_cases field; intros [= <-]; (split; [tauto|]); simpl; auto. }
  unfold ret in H. injection H as <- <-. cbn [dict_set String.eqb Ascii.eqb Bool.eqb].
  split.
  - intros field Hin. simpl in Hin.
    destruct Hin as [<-|[<-|[<-|[<-|[]]]]]; simpl; discriminate.
  - intros field value. unfold field_values. cbn [dict_get app In].
    string_cases field; intros [= <-]; (split; [tauto|]); simpl; auto.
Qed.

Ltac table_cases Hbt Htp Hin :=
  apply dict_get_In in Hbt; apply dict_get_In in Htp;
  simpl in Hbt;
  repeat (destruct Hbt as [Hbt|Hbt]; [injection Hbt as <- <-|]); [..|destruct Hbt];
  simpl in Htp;
  repeat (destruct Htp as [Htp|Htp]; [injection Htp as <- <-|]); try (destruct Htp);
  simpl in Hin;
  repeat (destruct Hin as [Hin|Hin]; [subst|]); try (destruct Hin).

(** The templates that ask for a field never supplied are tip templates of
    the tones professional and premium. *)
Lemma unfilled_templates post_type tone by_tone templates template :
  dict_get post_type post_templates = Some by_tone ->
  dict_get tone by_tone = Some templates ->
  In template templates ->
  In post_type ["promo"; "tip"; "update"] ->
  fields_supplied post_type template = false ->
  post_type = "tip" /\ In tone ["professional"; "premium"].
Proof.
  intros Hbt Htp Hin Hpt Hf.
  table_cases Hbt Htp Hin;
    try (vm_compute in Hf; discriminate Hf);
    try (simpl in Hpt; exfalso; intuition discriminate);
    (split; [reflexivity|simpl; tauto]).
Qed.

Lemma forallb_false_existsb {A} (p : A -> bool) (l : list A) :
  forallb p l = false -> existsb (fun x => negb (p x)) l = true.
Proof.
  induction l as [|x l IH]; simpl; [discriminate|].
  destruct (p x); simpl; [exact IH|reflexivity].
Qed.

Lemma missing_field_key_error business_profile post_type industry_data cta value_prop g3
      content_vars g4 template :
  In cta cta_options -> In value_prop (value_props industry_data) ->
  type_specific_vars post_type industry_data
    [ ("business_name", name_of business_profile); ("call_to_action", cta);
      ("value_prop", value_prop) ] g3 = Ok (content_vars, g4) ->
  braces_ok template false = true ->
  fields_supplied post_type template = false ->
  exists k, format template (with_contact_info business_profile content_vars)
            = Raise (KeyError k).
Proof.
  intros Hcta Hvp Hvars Hb Hf.
  destruct (content_vars_spec _ _ _ _ _ _ _ _ Hcta Hvp Hvars) as [_ Hsome].
  unfold fields_supplied in Hf.
  assert (Hex : existsb (fun field => negb (mem field (supplied_fields post_type)))
                        (fields template) = true).
  { now apply forallb_false_existsb. }
  apply existsb_exists in Hex as (field & Hfield & Hmem).
  apply (format_from_missing_field template None _ Hb).
  exists field. split; [exact Hfield|].
  destruct (dict_get field (with_contact_info business_profile content_vars)) as [v|] eqn:Hget;
    [|reflexivity].
  apply Hsome in Hget as [Hin _]. apply mem_In in Hin. now rewrite Hin in Hmem.
Qed.

Lemma all_fields_format business_profile post_type industry_data cta value_prop g3
      content_vars g4 template :
  In cta cta_options -> In value_prop (value_props industry_data) ->
  type_specific_vars post_type industry_data
    [ ("business_name", name_of business_profile); ("call_to_action", cta);
      ("value_prop", value_prop) ] g3 = Ok (content_vars, g4) ->
  braces_ok template false = true ->
  fields_supplied post_type template = true ->
  exists s, format template (with_contact_info business_profile content_vars) = Ok s.
Proof.
  intros Hcta Hvp Hvars Hb Hf.
  destruct (content_vars_spec _ _ _ _ _ _ _ _ Hcta Hvp Hvars) as [Hall _].
  apply (format_from_all_fields template None _ Hb).
  intros name Hname. apply Hall. unfold fields_supplied in Hf.
  rewrite forallb_forall in Hf. apply mem_In. now apply Hf.
Qed.

Lemma no_offer_outside_promo business_profile post_type industry_data cta value_prop g3
      content_vars g4 :
  In cta cta_options -> In value_prop (value_props industry_data) ->
  type_specific_vars post_type industry_data
    [ ("business_name", name_of business_profile); ("call_to_action", cta);
      ("value_prop", value_prop) ] g3 = Ok (content_vars, g4) ->
  post_type <> "promo" ->
  dict_get_default "offer" "We have something special for you."
    (with_contact_info business_profile content_vars)
  = "We have something special for you.".
Proof.
  intros Hcta Hvp Hvars Hpt.
  destruct (content_vars_spec _ _ _ _ _ _ _ _ Hcta Hvp Hvars) as [_ Hsome].
  unfold dict_get_default.
  destruct (dict_get "offer" (with_contact_info business_profile content_vars)) as [v|] eqn:Hget;
    [|reflexivity].
  apply Hsome in Hget as [Hin _]. exfalso. unfold supplied_fields in Hin.
  destruct (String.eqb_spec post_type "promo"); [contradiction|].
  destruct (String.eqb post_type "tip"); [simpl in Hin; intuition discriminate|].
  destruct (String.eqb post_type "update"); simpl in Hin; intuition discriminate.
Qed.

(** X6.  The content of a promo, tip or update post is one of the three
    templates of its type and tone with every field replaced by a value of
    the pool of that field (the business name, the call to action of the
    post, an offer, tip or value proposition of the industry, ...), with
    one exception: a tip of tone professional or premium can be the generic
    sentence instead. *)
Theorem standard_post_content (business_profile : BusinessProfile)
        (tone post_type : string) (g : rng) (post : Post) (g' : rng) :
  In post_type ["promo"; "tip"; "update"] ->
  _generate_standard_post business_profile tone post_type g = Ok (post, g') ->
  filled_template business_profile post_type tone post
  \/ (post_type = "tip" /\ In tone ["professional"; "premium"]
      /\ post_content post = generic_content business_profile (call_to_action post)).
Proof.
  intros Hpt H.
  destruct (standard_post_run _ _ _ _ _ _ H)
    as (industry_data & by_tone & templates & template & g1 & cta & g2 & value_prop & g3
        & content_vars & g4 & Hdata & Hbt & Htp & Htemplate & Hcta & Hvp & Hvars & Hcall
        & Hcontent).
  apply choice_In in Htemplate, Hcta, Hvp.
  pose proof (templates_well_braced _ _ _ _ _ Hbt Htp Htemplate) as Hb.
  destruct (fields_supplied post_type template) eqn:Hf.
  - left.
    destruct (all_fields_format _ _ _ _ _ _ _ _ _ Hcta Hvp Hvars Hb Hf) as [s Hs].
    rewrite Hs in Hcontent. injection Hcontent as ->.
    exists industry_data, by_tone, templates, template,
           (with_contact_info business_profile content_vars).
    repeat split; try assumption.
    intros field value Hget. rewrite Hcall.
    now apply (content_vars_spec _ _ _ _ _ _ _ _ Hcta Hvp Hvars) in Hget as [_ Hval].
  - right.
    destruct (unfilled_templates _ _ _ _ _ Hbt Htp Htemplate Hpt Hf) as [-> Htone].
    split; [reflexivity|]. split; [exact Htone|].
    destruct (missing_field_key_error _ _ _ _ _ _ _ _ _ Hcta Hvp Hvars Hb Hf) as [k Hk].
    rewrite Hk in Hcontent.
    rewrite (no_offer_outside_promo _ _ _ _ _ _ _ _ Hcta Hvp Hvars) in Hcontent
      by discriminate.
    injection Hcontent as <-. rewrite Hcall. reflexivity.
Qed.

(** X6 at a friendly promo post. *)
Lemma standard_post_content_witness :
  exists post g',
    _generate_standard_post fitzone "friendly" "promo" [1; 2; 3; 4] = Ok (post, g')
    /\ (filled_template fitzone "promo" "friendly" post
        \/ ("promo" = "tip" /\ In "friendly" ["professional"; "premium"]
            /\ post_content post = generic_content fitzone (call_to_action post))).
Proof.
  eexists. eexists. split; [vm_compute; reflexivity|].
  eapply (standard_post_content fitzone "friendly" "promo" [1; 2; 3; 4]).
  - simpl. tauto.
  - vm_compute. reflexivity.
Defined.

(** The templates that mention [{industry}], a field [content_vars] never
    holds: the third professional and the second premium tip template. *)
Lemma industry_template_drawn tone j g templates by_tone template g1 :
  (tone = "professional" /\ j mod 3 = 2%nat) \/ (tone = "premium" /\ j mod 3 = 1%nat) ->
  dict_get "tip" post_templates = Some by_tone ->
  dict_get tone by_tone = Some templates ->
  choice templates (j :: g) = Ok (template, g1) ->
  fields_supplied "tip" template = false.
Proof.
  intros Hcase Hbt Htp Hch. injection Hbt as <-.
  destruct Hcase as [[-> Hj]|[-> Hj]]; injection Htp as <-;
    unfold choice, randbelow in Hch; cbn [length] in Hch; rewrite Hj in Hch;
    injection Hch as <- <-; vm_compute; reflexivity.
Qed.

(** X7.  Whenever the tip template drawn is the third of the professional tone
    ('Expert advice: ... professional {industry} guidance.') or the second
    of the premium tone ('Exclusive knowledge: ... your {industry}
    experience ...'), the post returned is the generic sentence 'Great news
    from <business>! We have something special for you. <call to action>':
    the tip drawn from the pool does not reach the post. *)
Theorem tip_industry_template_is_generic (business_profile : BusinessProfile)
        (tone : string) (j : nat) (g : rng) :
  (tone = "professional" /\ j mod 3 = 2%nat) \/ (tone = "premium" /\ j mod 3 = 1%nat) ->
  exists post g',
    _generate_standard_post business_profile tone "tip" (j :: g) = Ok (post, g')
    /\ post_content post = generic_content business_profile (call_to_action post).
Proof.
  intros Hcase.
  destruct (standard_post_returns business_profile tone "tip" (j :: g)) as (post & g' & H).
  { destruct Hcase as [[-> _]|[-> _]]; simpl; tauto. }
  { simpl. tauto. }
  exists post, g'. split; [exact H|].
  destruct (standard_post_run _ _ _ _ _ _ H)
    as (industry_data & by_tone & templates & template & g1 & cta & g2 & value_prop & g3
        & content_vars & g4 & Hdata & Hbt & Htp & Htemplate & Hcta & Hvp & Hvars & Hcall
        & Hcontent).
  pose proof (industry_template_drawn _ _ _ _ _ _ _ Hcase Hbt Htp Htemplate) as Hf.
  apply choice_In in Htemplate, Hcta, Hvp.
  pose proof (templates_well_braced _ _ _ _ _ Hbt Htp Htemplate) as Hb.
  destruct (missing_field_key_error _ _ _ _ _ _ _ _ _ Hcta Hvp Hvars Hb Hf) as [k Hk].
  rewrite Hk in Hcontent.
  rewrite (no_offer_outside_promo _ _ _ _ _ _ _ _ Hcta Hvp Hvars) in Hcontent
    by discriminate.
  injection Hcontent as <-. rewrite Hcall. reflexivity.
Qed.

(** X7 at a professional tip whose first draw is 2. *)
Lemma tip_industry_template_is_generic_witness :
  exists post g',
    _generate_standard_post fitzone "professional" "tip" [2; 0; 0; 1; 1] = Ok (post, g')
    /\ post_content post = generic_content fitzone (call_to_action post).
Proof.
  apply (tip_industry_template_is_generic fitzone "professional" 2 [0; 0; 1; 1]).
  left. split; reflexivity.
Defined.

(** *** Insight posts built from a news item *)

Lemma insight_fields tone by_tone templates template :
  dict_get "insight" post_templates = Some by_tone ->
  dict_get tone by_tone = Some templates ->
  In template templates ->
  forall field, In field (fields template) ->
    In field ["business_name"; "insight_content"; "call_to_action"].
Proof.
  intros Hbt Htp Hin. injection Hbt as <-.
  assert (Hall : forallb (fun entry =>
                   forallb (fun t =>
                     forallb (fun f => mem f ["business_name"; "insight_content";
                                              "call_to_action"]) (fields t))
                     (snd entry))
                   (dict_get_default "insight" [] post_templates) = true)
    by (vm_compute; reflexivity).
  rewrite forallb_forall in Hall. apply dict_get_In in Htp.
  specialize (Hall _ Htp). rewrite forallb_forall in Hall.
  specialize (Hall _ Hin). rewrite forallb_forall in Hall.
  intros field Hfield. apply mem_In. now apply Hall.
Qed.

(** X8.  An insight post built from news: one of the supplied news items is
    chosen; the content is one of the three insight templates of the tone
    with the business name, the headline of the item (or 'Industry trends
    continue to evolve' when it has none) and the call to action of the
    post filled in; the news source of the post is the source of the item,
    or 'Industry Reports'.  The fallback sentence is never used. *)
Theorem insight_post_from_news (business_profile : BusinessProfile) (tone : string)
        (item : NewsItem) (news : list NewsItem) (g : rng) (post : Post) (g' : rng) :
  _generate_insight_post business_profile tone (item :: news) g = Ok (post, g') ->
  exists news_item by_tone templates template,
    In news_item (item :: news)
    /\ dict_get "insight" post_templates = Some by_tone
    /\ dict_get tone by_tone = Some templates
    /\ In template templates
    /\ format template
         [ ("business_name", name_of business_profile);
           ("insight_content",
             match headline news_item with
             | Some h => h
             | None => "Industry trends continue to evolve"
             end);
           ("call_to_action", call_to_action post) ]
       = Ok (post_content post)
    /\ news_source post
       = Some (match source news_item with Some s => s | None => "Industry Reports" end).
Proof.
  unfold _generate_insight_post. cbn [truthy negb].
  fold (industry_of business_profile). fold (name_of business_profile). intros H.
  bind_inv_as H news_item g1 Hitem.
  bind_inv_as H by_tone g0 Hbt. apply lift_inv in Hbt as [Hbt ->].
  bind_inv_as H templates g0 Htp. apply lift_inv in Htp as [Htp ->].
  bind_inv_as H template g2 Htemplate.
  bind_inv_as H cta g3 Hcta.
  bind_inv_as H content g4 Hcontent. apply lift_inv in Hcontent as [Hcontent ->].
  repeat bind_inv H. unfold ret in H. injection H as <- <-.
  cbn [call_to_action post_content news_source].
  unfold dict_item in Hbt, Htp.
  destruct (dict_get "insight" post_templates) as [by_tone'|] eqn:Hbt'; [|discriminate].
  injection Hbt as ->.
  destruct (dict_get tone by_tone) as [templates'|] eqn:Htp'; [|discriminate].
  injection Htp as ->.
  apply choice_In in Hitem, Htemplate.
  exists news_item, by_tone, templates, template.
  repeat split; try assumption.
  pose proof (templates_well_braced _ _ _ _ _ Hbt' Htp' Htemplate) as Hb.
  match type of Hcontent with
  | match format _ ?vars with _ => _ end = _ =>
      destruct (format_from_all_fields template None vars Hb) as [s Hs]
  end.
  { intros name Hname.
    apply (insight_fields _ _ _ _ Hbt' Htp' Htemplate) in Hname.
    simpl in Hname. destruct Hname as [<-|[<-|[<-|[]]]]; simpl; discriminate. }
  unfold format in *. rewrite Hs in Hcontent. injection Hcontent as <-. exact Hs.
Qed.

(** X8 at the news item of the test of [content_generator.py]. *)
Lemma insight_post_from_news_witness :
  exists post g',
    _generate_insight_post fitzone "casual" hiit_news [0; 1; 2] = Ok (post, g')
    /\ news_source post = Some "Fitness Magazine".
Proof.
  eexists. eexists. split; [vm_compute; reflexivity|].
  destruct (insight_post_from_news fitzone "casual"
              {| headline := Some "HIIT workouts gain popularity among busy professionals";
                 source := Some "Fitness Magazine" |} [] [0; 1; 2] _ _
              ltac:(vm_compute; reflexivity))
    as (news_item & _ & _ & _ & Hin & _ & _ & _ & _ & Hsrc).
  destruct Hin as [<-|[]]. exact Hsrc.
Defined.


(** *** Weekly schedule: distinct posting days *)

Lemma In_index x l : In x l -> exists j, index x l = Some j.
Proof.
  induction l as [|y l IH]; simpl; [intros []|].
  destruct (String.eqb_spec x y) as [->|Hne]; [now eexists|].
  intros [->|Hin]; [congruence|]. destruct (IH Hin) as [j ->]. now eexists.
Qed.

Lemma NoDup_index l j x :
  NoDup l -> nth_error l j = Some x -> index x l = Some j.
Proof.
  intros Hnd Hj.
  destruct (In_index x l (nth_error_In _ _ Hj)) as [k Hk].
  rewrite Hk. f_equal.
  apply index_nth_error in Hk as [Hk _].
  apply (proj1 (NoDup_nth_error l) Hnd).
  - apply nth_error_Some. congruence.
  - congruence.
Qed.

Lemma In_firstn_nth {A} (l : list A) n x :
  In x (firstn n l) <-> exists j, (j < n)%nat /\ nth_error l j = Some x.
Proof.
  split.
  - intros Hin. apply In_nth_error in Hin as [j Hj].
    assert (Hlt : (j < n)%nat).
    { assert (j < length (firstn n l))%nat by (apply nth_error_Some; congruence).
      pose proof (firstn_le_length n l). rewrite length_firstn in *. lia. }
    exists j. split; [exact Hlt|]. now rewrite nth_error_firstn in Hj; destruct (Nat.ltb_spec j n); [|lia].
  - intros (j & Hlt & Hj). apply (nth_error_In _ j).
    rewrite nth_error_firstn. now destruct (Nat.ltb_spec j n); [|lia].
Qed.

Section DistinctDays.
Context {P : Type} (best_time_of : P -> option string).

(** With distinct posting days that are days of the week, the days that
    receive a post are the first [len(posts)] posting days. *)
Lemma has_post_firstn posting_days (posts : list P) day :
  NoDup posting_days -> incl posting_days days ->
  In day (filter (has_post posting_days posts) days)
  <-> In day (firstn (length posts) posting_days).
Proof.
  intros Hnd Hincl. rewrite filter_In, In_firstn_nth. unfold has_post. split.
  - intros [_ H].
    destruct (post_index_of posting_days posts day) as [j|] eqn:Hj; [|discriminate].
    apply post_index_spec in Hj as [Hj Hlt]. apply index_nth_error in Hj as [Hj _].
    now exists j.
  - intros (j & Hlt & Hj). split.
    + apply Hincl. exact (nth_error_In _ _ Hj).
    + unfold post_index_of. rewrite (NoDup_index _ _ _ Hnd Hj).
      now destruct (Nat.ltb_spec j (length posts)); [|lia].
Qed.

Lemma filled_count posting_days (posts : list P) :
  NoDup posting_days -> incl posting_days days ->
  length (filter (has_post posting_days posts) days)
  = Nat.min (length posts) (length posting_days).
Proof.
  intros Hnd Hincl.
  rewrite <- (length_firstn (length posts) posting_days).
  apply Permutation_length. apply NoDup_Permutation.
  - apply NoDup_filter. exact days_nodup.
  - rewrite <- (firstn_skipn (length posts) posting_days) in Hnd.
    exact (NoDup_app_remove_r _ _ Hnd).
  - intros day. now apply has_post_firstn.
Qed.

End DistinctDays.

Lemma default_days_distinct frequency :
  NoDup (default_days frequency) /\ incl (default_days frequency) days.
Proof.
  unfold default_days.
  destruct (frequency <=? 3)%Z; [|destruct (frequency <=? 5)%Z].
  - split; [apply distinct_NoDup; reflexivity|].
    intros d Hd. apply mem_In. simpl in Hd.
    destruct Hd as [<-|[<-|[<-|[]]]]; reflexivity.
  - split; [apply distinct_NoDup; reflexivity|].
    intros d Hd. apply mem_In. simpl in Hd.
    destruct Hd as [<-|[<-|[<-|[<-|[<-|[]]]]]]; reflexivity.
  - split; [exact days_nodup|apply incl_refl].
Qed.

Lemma days_or_default_distinct frequency preferred_days :
  NoDup preferred_days -> incl preferred_days days ->
  NoDup (days_or_default frequency preferred_days)
  /\ incl (days_or_default frequency preferred_days) days.
Proof.
  intros Hnd Hincl. unfold days_or_default.
  destruct preferred_days; cbn [truthy negb]; [apply default_days_distinct|now split].
Qed.

Lemma NoDup_firstn {A} (l : list A) n : NoDup l -> NoDup (firstn n l).
Proof.
  intros Hnd. rewrite <- (firstn_skipn n l) in Hnd. exact (NoDup_app_remove_r _ _ Hnd).
Qed.

Lemma incl_firstn {A} (l : list A) n : incl (firstn n l) l.
Proof.
  intros x Hx. rewrite <- (firstn_skipn n l). apply in_or_app. now left.
Qed.

Lemma slice_to_distinct (l : list string) n :
  NoDup l -> NoDup (slice_to l n) /\ incl (slice_to l n) l.
Proof.
  intros Hnd. unfold slice_to.
  destruct (0 <=? n)%Z; (split; [now apply NoDup_firstn|apply incl_firstn]).
Qed.

(** The days of the week outside [chosen], a list of distinct days of the
    week: the other [7 - len(chosen)] days. *)
Lemma remaining_days_length chosen :
  NoDup chosen -> incl chosen days ->
  (length (filter (fun day => negb (mem day chosen)) days) + length chosen = 7)%nat.
Proof.
  intros Hnd Hincl.
  change 7%nat with (length days).
  rewrite <- (length_app _ chosen).
  apply Permutation_length. apply NoDup_Permutation.
  - apply NoDup_app.
    + apply NoDup_filter. exact days_nodup.
    + exact Hnd.
    + intros x Hx Hc. apply filter_In in Hx as [_ Hx].
      apply mem_In in Hc. now rewrite Hc in Hx.
  - exact days_nodup.
  - intros day. rewrite in_app_iff, filter_In. split.
    + intros [[H _]|H]; [exact H|now apply Hincl].
    + intros Hd. destruct (mem day chosen) eqn:Hm.
      * right. now apply mem_In.
      * left. now split.
Qed.

Lemma NoDup_le_days (l : list string) :
  NoDup l -> incl l days -> (length l <= 7)%nat.
Proof. intros Hnd Hincl. exact (NoDup_incl_length Hnd Hincl). Qed.

(** The posting days, when the preferred days are distinct days of the
    week: distinct days of the week again, [min(frequency, 7)] of them for a
    frequency that is not negative, beginning with the first [frequency]
    preferred days. *)
Lemma posting_days_distinct frequency preferred_days :
  NoDup preferred_days -> incl preferred_days days ->
  let posting_days := posting_days_of frequency preferred_days in
  NoDup posting_days /\ incl posting_days days
  /\ ((0 <= frequency)%Z -> length posting_days = Nat.min (Z.to_nat frequency) 7).
Proof.
  intros Hnd Hincl.
  destruct (days_or_default_distinct frequency _ Hnd Hincl) as [Hnd' Hincl'].
  unfold posting_days_of. fold (days_or_default frequency preferred_days).
  set (chosen := slice_to (days_or_default frequency preferred_days) frequency).
  destruct (slice_to_distinct (days_or_default frequency preferred_days) frequency Hnd')
    as [Hc Hci]. fold chosen in Hc, Hci.
  assert (Hcd : incl chosen days) by (intros x Hx; apply Hincl'; now apply Hci).
  pose proof (remaining_days_length chosen Hc Hcd) as Hrem.
  set (remaining := filter (fun day => negb (mem day chosen)) days) in *.
  cbv zeta.
  destruct (Z.ltb_spec (Z.of_nat (length chosen)) frequency) as [Hlt|Hge].
  - assert (Hs : slice_to remaining (frequency - Z.of_nat (length chosen))
                 = firstn (Z.to_nat (frequency - Z.of_nat (length chosen))) remaining).
    { unfold slice_to.
      now destruct (Z.leb_spec 0 (frequency - Z.of_nat (length chosen))); [|lia]. }
    rewrite Hs. split; [|split].
    + apply NoDup_app.
      * exact Hc.
      * apply NoDup_firstn. apply NoDup_filter. exact days_nodup.
      * intros x Hx Hr. apply incl_firstn in Hr. apply filter_In in Hr as [_ Hr].
        apply mem_In in Hx. now rewrite Hx in Hr.
    + intros x Hx. apply in_app_iff in Hx as [Hx|Hx]; [now apply Hcd|].
      apply incl_firstn in Hx. now apply filter_In in Hx as [Hx _].
    + intros _. rewrite length_app, length_firstn. lia.
  - split; [exact Hc|]. split; [exact Hcd|].
    intros Hf. pose proof (slice_to_length_le (days_or_default frequency preferred_days)
                             frequency Hf) as Hle. fold chosen in Hle.
    pose proof (NoDup_le_days chosen Hc Hcd). lia.
Qed.

Section ScheduleDistinct.
Context {P : Type} (best_time_of : P -> option string).

(** The week built over distinct posting days: the number of filled slots,
    and the slot of the [i]-th post. *)
Lemma week_distinct start posting_days (posts : list P) :
  NoDup posting_days -> incl posting_days days ->
  filled_slots (week best_time_of start posting_days posts)
  = Nat.min (length posts) (length posting_days)
  /\ forall i post day,
       nth_error posts i = Some post -> nth_error posting_days i = Some day ->
       exists slot,
         In (day, slot) (week best_time_of start posting_days posts)
         /\ slot_post slot = Some post
         /\ suggested_time slot = Some (time_of best_time_of post).
Proof.
  intros Hnd Hincl. split.
  - unfold week. rewrite filled_week_from. now apply filled_count.
  - intros i post day Hpost Hday.
    assert (Hin : In day days) by (apply Hincl; exact (nth_error_In _ _ Hday)).
    apply In_nth_error in Hin as [k Hk].
    exists (slot_for best_time_of start posting_days posts (0 + k) day).
    split.
    + apply (nth_error_In _ k). unfold week. now apply week_from_nth.
    + unfold slot_for, post_index_of. rewrite (NoDup_index _ _ _ Hnd Hday).
      assert (Hlt : (i < length posts)%nat) by (apply nth_error_Some; congruence).
      destruct (Nat.ltb_spec i (length posts)); [|lia].
      cbn [slot_post suggested_time]. rewrite Hpost. split; reflexivity.
Qed.

End ScheduleDistinct.

(** X12.  With preferred days that are distinct days of the week (or none, for
    the default days) and a frequency that is not negative, the scheduler
    uses min(frequency, 7) distinct posting days and fills exactly
    min(len(posts), frequency, 7) slots: for every [i] below that number,
    [posts[i]] is in the slot of the [i]-th posting day, with the posting
    time of that post. *)
Theorem distinct_days_schedule_in_order {P : Type} (best_time_of : P -> option string)
        (posts : list P) (frequency : Z) (preferred_days : list string)
        (start_date : option string) (now start : date) :
  NoDup preferred_days -> incl preferred_days days ->
  (0 <= frequency)%Z ->
  valid_date now = true ->
  start_of start_date now = Ok start ->
  (ymd2ord start + 6 <= MAXORDINAL)%Z ->
  let posting_days := posting_days_of frequency preferred_days in
  exists schedule,
    create_weekly_schedule best_time_of posts frequency preferred_days start_date now
    = Ok schedule
    /\ NoDup posting_days
    /\ length posting_days = Nat.min (Z.to_nat frequency) 7
    /\ filled_slots schedule
       = Nat.min (length posts) (Nat.min (Z.to_nat frequency) 7)
    /\ forall i post,
         (i < Nat.min (Z.to_nat frequency) 7)%nat ->
         nth_error posts i = Some post ->
         exists day slot,
           nth_error posting_days i = Some day
           /\ In (day, slot) schedule
           /\ slot_post slot = Some post
           /\ suggested_time slot = Some (time_of best_time_of post).
Proof.
  intros Hnd Hincl Hf Hnow Hs Hhi posting_days.
  pose proof (ymd2ord_pos _ (start_of_valid _ _ _ Hnow Hs)) as Hlo.
  destruct (posting_days_distinct frequency preferred_days Hnd Hincl) as (Hpn & Hpi & Hlen).
  fold posting_days in Hpn, Hpi, Hlen. specialize (Hlen Hf).
  destruct (week_distinct best_time_of start posting_days posts Hpn Hpi) as [Hfilled Hslot].
  eexists. split; [apply (create_weekly_schedule_returns best_time_of); eassumption|].
  fold posting_days. split; [exact Hpn|]. split; [exact Hlen|].
  split; [now rewrite Hfilled, Hlen|].
  intros i post Hi Hpost.
  destruct (nth_error posting_days i) as [day|] eqn:Hday.
  2:{ apply nth_error_None in Hday. lia. }
  destruct (Hslot i post day Hpost Hday) as (slot & Hin & Hp & Ht).
  now exists day, slot.
Qed.

(** X12 at four posts, frequency 4 and preferred days saturday, tuesday. *)
Lemma distinct_days_schedule_in_order_witness :
  exists schedule,
    create_weekly_schedule (fun _ : nat => None) [10; 20; 30; 40]%nat 4
      ["saturday"; "tuesday"] (Some "2025-08-04") (mkdate 2025 8 4) = Ok schedule
    /\ filled_slots schedule = 4%nat.
Proof.
  assert (Hnd : NoDup ["saturday"; "tuesday"]) by (apply distinct_NoDup; reflexivity).
  assert (Hincl : incl ["saturday"; "tuesday"] days).
  { intros d [<-|[<-|[]]]; apply mem_In; reflexivity. }
  destruct (distinct_days_schedule_in_order (fun _ : nat => None) [10; 20; 30; 40]%nat 4
              ["saturday"; "tuesday"] (Some "2025-08-04") (mkdate 2025 8 4)
              (mkdate 2025 8 4) Hnd Hincl ltac:(lia) eq_refl eq_refl)
    as (schedule & Hok & _ & _ & Hfilled & _).
  - vm_compute. discriminate.
  - exists schedule. split; [exact Hok|exact Hfilled].
Defined.

(** *** Weekly schedule: a posting day that is no day of the week *)

Lemma NoDup_incl_lt {A} (l l' : list A) x :
  NoDup l -> incl l l' -> In x l' -> ~ In x l -> (length l < length l')%nat.
Proof.
  intros Hnd Hincl Hx Hnx.
  assert (H : (length (x :: l) <= length l')%nat).
  { apply NoDup_incl_length; [now constructor|].
    intros y [<-|Hy]; [exact Hx|now apply Hincl]. }
  simpl in H. lia.
Qed.

(** X13.  A preferred day that is not one of the seven lower-case day names
    ('Monday', 'mon', ...) stays in the posting days and keeps its index,
    but no slot is keyed by it: the post at its position is in no slot, and
    fewer than [frequency] slots are filled, however many posts there
    are. *)
Theorem unknown_day_name_loses_post {P : Type} (best_time_of : P -> option string)
        (posts : list P) (frequency : Z) (preferred_days : list string)
        (start_date : option string) (now start : date) (i : nat) (name : string) :
  (i < Z.to_nat frequency)%nat ->
  nth_error preferred_days i = Some name ->
  ~ In name days ->
  valid_date now = true ->
  start_of start_date now = Ok start ->
  (ymd2ord start + 6 <= MAXORDINAL)%Z ->
  let posting_days := posting_days_of frequency preferred_days in
  exists schedule,
    create_weekly_schedule best_time_of posts frequency preferred_days start_date now
    = Ok schedule
    /\ nth_error posting_days i = Some name
    /\ (forall day slot, In (day, slot) schedule ->
          day <> name /\ post_index_of posting_days posts day <> Some i)
    /\ (Z.of_nat (filled_slots schedule) < frequency)%Z.
Proof.
  intros Hi Hname Hnot Hnow Hs Hhi posting_days.
  pose proof (ymd2ord_pos _ (start_of_valid _ _ _ Hnow Hs)) as Hlo.
  assert (Hf : (0 < frequency)%Z) by lia.
  assert (Hpd : nth_error posting_days i = Some name).
  { unfold posting_days, posting_days_of.
    destruct preferred_days as [|d preferred_days]; [now destruct i|].
    cbn [truthy negb].
    assert (Hfirst : nth_error (slice_to (d :: preferred_days) frequency) i = Some name).
    { unfold slice_to. destruct (Z.leb_spec 0 frequency); [|lia].
      rewrite nth_error_firstn. now destruct (Nat.ltb_spec i (Z.to_nat frequency)); [|lia]. }
    destruct (_ <? frequency)%Z; [|exact Hfirst].
    rewrite nth_error_app1; [exact Hfirst|]. apply nth_error_Some. congruence. }
  eexists. split; [apply (create_weekly_schedule_returns best_time_of); eassumption|].
  fold posting_days. split; [exact Hpd|]. split.
  - intros day slot Hin. unfold week in Hin.
    apply week_from_In in Hin as (k & Hk & _).
    assert (Hday : day <> name).
    { intros ->. apply Hnot. exact (nth_error_In _ _ Hk). }
    split; [exact Hday|]. intros Hidx.
    apply post_index_spec in Hidx as [Hidx _].
    apply index_nth_error in Hidx as [Hidx _]. congruence.
  - unfold week. rewrite filled_week_from.
    pose proof (posting_days_length_le frequency preferred_days ltac:(lia)) as Hlen.
    fold posting_days in Hlen.
    assert (Hlt : (length (filter (has_post posting_days posts) days)
                   < length posting_days)%nat).
    { apply (NoDup_incl_lt _ _ name).
      - apply NoDup_filter. exact days_nodup.
      - intros day Hday. apply filter_In in Hday as [_ Hday]. unfold has_post in Hday.
        destruct (post_index_of posting_days posts day) as [k|] eqn:Hk; [|discriminate].
        apply post_index_spec in Hk as [Hk _]. exact (index_In _ _ _ Hk).
      - exact (nth_error_In _ _ Hpd).
      - intros Hin. apply filter_In in Hin as [Hin _]. now apply Hnot. }
    lia.
Qed.

(** X13 at the preferred day 'Monday'. *)
Lemma unknown_day_name_loses_post_witness :
  exists schedule,
    create_weekly_schedule (fun _ : nat => None) [10; 20; 30]%nat 3
      ["Monday"; "wednesday"; "friday"] (Some "2025-08-04") (mkdate 2025 8 4) = Ok schedule
    /\ (Z.of_nat (filled_slots schedule) < 3)%Z.
Proof.
  destruct (unknown_day_name_loses_post (fun _ : nat => None) [10; 20; 30]%nat 3
              ["Monday"; "wednesday"; "friday"] (Some "2025-08-04") (mkdate 2025 8 4)
              (mkdate 2025 8 4) 0 "Monday" ltac:(simpl; lia) eq_refl)
    as (schedule & Hok & _ & _ & Hlt).
  - intros Hin. apply mem_In in Hin. discriminate Hin.
  - reflexivity.
  - reflexivity.
  - vm_compute. discriminate.
  - exists schedule. split; assumption.
Defined.

(** *** Weekly schedule: what a slot holds *)

(** X14.  In every schedule returned, the slots carry the capitalised day names
    Monday to Sunday; a slot has a suggested time exactly when it holds a
    post, which then is one of the posts passed in, and the time is the
    posting time of that post (12:00 PM when it has none); and no position
    of the post list is placed on two days. *)
Theorem schedule_slots_consistent {P : Type} (best_time_of : P -> option string)
        (posts : list P) (frequency : Z) (preferred_days : list string)
        (start_date : option string) (now : date) (schedule : dict (Slot P)) :
  create_weekly_schedule best_time_of posts frequency preferred_days start_date now
  = Ok schedule ->
  let posting_days := posting_days_of frequency preferred_days in
  map (fun entry => day_of_week (snd entry)) schedule
  = ["Monday"; "Tuesday"; "Wednesday"; "Thursday"; "Friday"; "Saturday"; "Sunday"]
  /\ (forall day slot, In (day, slot) schedule ->
        match slot_post slot with
        | Some post =>
            In post posts
            /\ suggested_time slot = Some (time_of best_time_of post)
            /\ In day posting_days
        | None => suggested_time slot = None
        end)
  /\ (forall day day' j,
        post_index_of posting_days posts day = Some j ->
        post_index_of posting_days posts day' = Some j ->
        day = day').
Proof.
  intros Hok posting_days.
  apply create_weekly_schedule_inv in Hok as (start & Hs & Hlo & Hhi & ->).
  fold posting_days. split; [reflexivity|]. split.
  - intros day slot Hin. unfold week in Hin.
    apply week_from_In in Hin as (k & Hk & ->).
    unfold slot_for. cbn [slot_post suggested_time].
    destruct (post_index_of posting_days posts day) as [j|] eqn:Hj; [|reflexivity].
    apply post_index_spec in Hj as [Hj Hlt].
    destruct (nth_error posts j) as [post|] eqn:Hpost; [|reflexivity].
    split; [exact (nth_error_In _ _ Hpost)|]. split; [reflexivity|].
    exact (index_In _ _ _ Hj).
  - intros day day' j Hd Hd'.
    apply post_index_spec in Hd as [Hd _]. apply post_index_spec in Hd' as [Hd' _].
    apply index_nth_error in Hd as [Hd _]. apply index_nth_error in Hd' as [Hd' _].
    congruence.
Qed.

(** X14 at three posts and the default days. *)
Lemma schedule_slots_consistent_witness :
  exists schedule,
    create_weekly_schedule (fun _ : nat => None) [10; 20; 30]%nat 3 []
      (Some "2025-08-04") (mkdate 2025 8 4) = Ok schedule
    /\ map (fun entry => day_of_week (snd entry)) schedule
       = ["Monday"; "Tuesday"; "Wednesday"; "Thursday"; "Friday"; "Saturday"; "Sunday"].
Proof.
  eexists. split; [vm_compute; reflexivity|].
  eapply (schedule_slots_consistent (fun _ : nat => None) [10; 20; 30]%nat 3 []
            (Some "2025-08-04") (mkdate 2025 8 4)).
  vm_compute. reflexivity.
Defined.


(** *** Dictionaries: assignment, deletion, update *)

Section DictOps.
Context {V : Type}.

Lemma dict_get_set_same (k : string) (v : V) (d : dict V) :
  dict_get k (dict_set k v d) = Some v.
Proof.
  induction d as [|[k' v'] d IH]; simpl.
  - now rewrite String.eqb_refl.
  - destruct (String.eqb_spec k k') as [->|Hne]; simpl.
    + now rewrite String.eqb_refl.
    + destruct (String.eqb_spec k k'); [contradiction|exact IH].
Qed.

Lemma dict_get_set_other (k k' : string) (v : V) (d : dict V) :
  k <> k' -> dict_get k (dict_set k' v d) = dict_get k d.
Proof.
  intros Hne. induction d as [|[k0 v0] d IH]; simpl.
  - now destruct (String.eqb_spec k k').
  - destruct (String.eqb_spec k' k0) as [->|Hne0]; simpl.
    + now destruct (String.eqb_spec k k0).
    + destruct (String.eqb_spec k k0); [reflexivity|exact IH].
Qed.

Lemma dict_get_set (k k' : string) (v : V) (d : dict V) :
  dict_get k (dict_set k' v d) = if String.eqb k k' then Some v else dict_get k d.
Proof.
  destruct (String.eqb_spec k k') as [->|Hne];
    [apply dict_get_set_same|now apply dict_get_set_other].
Qed.

Lemma dict_get_del (k k' : string) (d : dict V) :
  dict_get k (dict_del k' d) = if String.eqb k k' then None else dict_get k d.
Proof.
  unfold dict_del. induction d as [|[k0 v0] d IH]; simpl.
  - now destruct (String.eqb k k').
  - destruct (String.eqb_spec k' k0) as [->|Hne0]; simpl.
    + rewrite IH. now destruct (String.eqb_spec k k0).
    + destruct (String.eqb_spec k k0) as [->|Hne].
      * destruct (String.eqb_spec k0 k'); [congruence|reflexivity].
      * exact IH.
Qed.

Lemma dict_get_None (k : string) (d : dict V) :
  dict_get k d = None <-> ~ In k (dict_keys d).
Proof.
  induction d as [|[k' v'] d IH]; simpl; [tauto|].
  destruct (String.eqb_spec k k') as [->|Hne].
  - split; [discriminate|]. intros H. exfalso. apply H. now left.
  - rewrite IH. split; [intros H [E|Hin]; [congruence|contradiction]|tauto].
Qed.

Lemma dict_keys_set (k : string) (v : V) (d : dict V) :
  dict_keys (dict_set k v d)
  = if dict_mem k d then dict_keys d else dict_keys d ++ [k].
Proof.
  unfold dict_mem. induction d as [|[k' v'] d IH]; simpl; [reflexivity|].
  destruct (String.eqb_spec k k') as [->|Hne]; simpl; [reflexivity|].
  rewrite IH. now destruct (dict_get k d).
Qed.

(** A dict has distinct keys; assignment keeps them distinct. *)
Lemma dict_set_nodup (k : string) (v : V) (d : dict V) :
  NoDup (dict_keys d) -> NoDup (dict_keys (dict_set k v d)).
Proof.
  intros Hnd. rewrite dict_keys_set. unfold dict_mem.
  destruct (dict_get k d) eqn:Hget; [exact Hnd|].
  apply dict_get_None in Hget.
  apply NoDup_app; [exact Hnd|repeat constructor; intros []|].
  intros x Hx [<-|[]]. contradiction.
Qed.

(** [d.update(updates)]: a key of [updates] takes its value there, any other
    key keeps its value. *)
Lemma dict_get_update (k : string) (updates d : dict V) :
  NoDup (dict_keys updates) ->
  dict_get k (dict_update updates d)
  = match dict_get k updates with
    | Some v => Some v
    | None => dict_get k d
    end.
Proof.
  unfold dict_update. revert d.
  induction updates as [|[k' v'] updates IH]; intros d Hnd; simpl; [reflexivity|].
  inversion Hnd as [|? ? Hnotin Hnd']; subst.
  rewrite IH by assumption.
  destruct (String.eqb_spec k k') as [->|Hne].
  - assert (Hnone : dict_get k' updates = None) by now apply dict_get_None.
    rewrite Hnone. apply dict_get_set_same.
  - destruct (dict_get k updates); [reflexivity|]. now apply dict_get_set_other.
Qed.

End DictOps.

(** *** The post store: store, get, update, delete *)

(** X17.  [store_post] followed by [get_post]: the post stored under [post_id] is
    the post passed in with its id and the two timestamps set and every
    other key as it was; a post stored under the same id before is
    replaced; the posts under other ids are not touched. *)
Theorem store_post_then_get (post_id : string) (post : dict Json)
        (created_at updated_at : string) (posts : File) :
  exists stored posts',
    store_post post_id post created_at updated_at posts = (true, stored, posts')
    /\ get_post post_id posts' = Some stored
    /\ dict_get "id" stored = Some (JStr post_id)
    /\ dict_get "created_at" stored = Some (JStr created_at)
    /\ dict_get "updated_at" stored = Some (JStr updated_at)
    /\ (forall k, stamp_key k = false -> dict_get k stored = dict_get k post)
    /\ (forall other, other <> post_id -> get_post other posts' = get_post other posts).
Proof.
  unfold store_post, get_post. eexists. eexists. split; [reflexivity|].
  split; [apply dict_get_set_same|].
  split; [now rewrite !dict_get_set|].
  split; [now rewrite !dict_get_set|].
  split; [now rewrite !dict_get_set|].
  split.
  - intros k Hk. unfold stamp_key in Hk.
    apply orb_false_iff in Hk as [Hk Hu]. apply orb_false_iff in Hk as [Hi Hc].
    rewrite !dict_get_set. now rewrite Hu, Hc, Hi.
  - intros other Hne. now apply dict_get_set_other.
Qed.

Lemma update_post_spec (post_id : string) (updates : dict Json) (now : string)
      (posts : File) (old : dict Json) :
  NoDup (dict_keys updates) ->
  get_post post_id posts = Some old ->
  exists new posts',
    DataStorage.update_post post_id updates now posts = (true, posts')
    /\ get_post post_id posts' = Some new
    /\ dict_get "updated_at" new = Some (JStr now)
    /\ (forall k, k <> "updated_at" ->
          dict_get k new = match dict_get k updates with
                           | Some v => Some v
                           | None => dict_get k old
                           end)
    /\ (forall other, other <> post_id -> get_post other posts' = get_post other posts).
Proof.
  intros Hnd Hold. unfold DataStorage.update_post. unfold get_post in *. rewrite Hold.
  eexists. eexists. split; [reflexivity|].
  split; [apply dict_get_set_same|].
  split; [apply dict_get_set_same|].
  split.
  - intros k Hk. rewrite dict_get_set_other by assumption. now apply dict_get_update.
  - intros other Hne. now apply dict_get_set_other.
Qed.

(** X18.  [update_post] on an id that is not stored returns [False] and leaves
    the file as it is.  On a stored id it returns [True]; the stored post
    then has [updated_at] set to the time of the call, every other key of
    [updates] at its value there, and every remaining key as before; the
    posts under other ids are not touched. *)
Theorem update_post_merges (post_id : string) (updates : dict Json) (now : string)
        (posts : File) :
  NoDup (dict_keys updates) ->
  match get_post post_id posts with
  | None => DataStorage.update_post post_id updates now posts = (false, posts)
  | Some old =>
      exists new posts',
        DataStorage.update_post post_id updates now posts = (true, posts')
        /\ get_post post_id posts' = Some new
        /\ dict_get "updated_at" new = Some (JStr now)
        /\ (forall k, k <> "updated_at" ->
              dict_get k new = match dict_get k updates with
                               | Some v => Some v
                               | None => dict_get k old
                               end)
        /\ (forall other, other <> post_id -> get_post other posts' = get_post other posts)
  end.
Proof.
  intros Hnd. destruct (get_post post_id posts) as [old|] eqn:Hold.
  - now apply update_post_spec.
  - unfold DataStorage.update_post. unfold get_post in Hold. now rewrite Hold.
Qed.

(** X18 at a stored draft whose status is updated. *)
Lemma update_post_merges_witness :
  exists new posts',
    DataStorage.update_post "p1" [("status", JStr "scheduled")] "2025-08-04T10:00:00"
      [("p1", [("id", JStr "p1"); ("status", JStr "draft")])] = (true, posts')
    /\ get_post "p1" posts' = Some new
    /\ dict_get "status" new = Some (JStr "scheduled").
Proof.
  assert (Hnd : NoDup (dict_keys [("status", JStr "scheduled")]))
    by (repeat constructor; intros []).
  pose proof (update_post_merges "p1" [("status", JStr "scheduled")] "2025-08-04T10:00:00"
                [("p1", [("id", JStr "p1"); ("status", JStr "draft")])] Hnd) as H.
  cbn [get_post dict_get String.eqb Ascii.eqb Bool.eqb] in H.
  destruct H as (new & posts' & Hup & Hget & _ & Hkeys & _).
  exists new, posts'. split; [exact Hup|]. split; [exact Hget|].
  now rewrite (Hkeys "status") by discriminate.
Defined.

Lemma delete_post_removes (post_id : string) (posts : File) :
  exists posts',
    DataStorage.delete_post post_id posts
    = (match get_post post_id posts with Some _ => true | None => false end, posts')
    /\ get_post post_id posts' = None
    /\ (forall other, other <> post_id -> get_post other posts' = get_post other posts)
    /\ (get_post post_id posts = None -> posts' = posts)
    /\ DataStorage.delete_post post_id posts' = (false, posts').
Proof.
  unfold DataStorage.delete_post, dict_mem, get_post.
  destruct (dict_get post_id posts) as [old|] eqn:Hget.
  - exists (dict_del post_id posts). split; [reflexivity|].
    assert (Hgone : dict_get post_id (dict_del post_id posts) = None)
      by (rewrite dict_get_del; now rewrite String.eqb_refl).
    split; [exact Hgone|]. split.
    + intros other Hne. rewrite dict_get_del.
      now destruct (String.eqb_spec other post_id).
    + split; [discriminate|]. now rewrite Hgone.
  - exists posts. split; [reflexivity|]. split; [exact Hget|].
    split; [reflexivity|]. split; [reflexivity|]. now rewrite Hget.
Qed.

(** *** The routes on a post *)

(** X19.  DELETE /api/posts/<post_id> answers 404 'Post not found' exactly when no
    post is stored under the id, and then changes nothing; otherwise it
    answers 200 and the post is gone, so that repeating the request answers
    404.  The posts under other ids are not touched. *)
Theorem delete_post_route (post_id : string) (posts : File) :
  exists posts',
    Api.delete_post post_id posts
    = (match get_post post_id posts with
       | Some _ => Api.Done "Post deleted successfully"
       | None => Api.NotFound "Post not found"
       end, posts')
    /\ get_post post_id posts' = None
    /\ (forall other, other <> post_id -> get_post other posts' = get_post other posts)
    /\ (get_post post_id posts = None -> posts' = posts)
    /\ Api.delete_post post_id posts' = (Api.NotFound "Post not found", posts').
Proof.
  destruct (delete_post_removes post_id posts)
    as (posts' & Hdel & Hgone & Hframe & Hsame & Hagain).
  exists posts'. unfold Api.delete_post. rewrite Hdel, Hagain.
  split; [now destruct (get_post post_id posts)|]. now repeat split.
Qed.

(** The fields copied from an object body. *)
Lemma copy_fields_object (fields : list string) (d : dict Json) :
  forall existing_post,
  exists copied,
    Api.copy_fields fields (JObject d) existing_post = inr copied
    /\ (NoDup (dict_keys existing_post) -> NoDup (dict_keys copied))
    /\ (existing_post <> [] -> copied <> [])
    /\ forall k,
         dict_get k copied
         = if mem k fields
           then match dict_get k d with
                | Some v => Some v
                | None => dict_get k existing_post
                end
           else dict_get k existing_post.
Proof.
  induction fields as [|field fields IH]; intros existing_post; simpl.
  - exists existing_post. now repeat split.
  - unfold dict_mem. destruct (dict_get field d) as [v|] eqn:Hd.
    + destruct (IH (dict_set field v existing_post)) as (copied & -> & Hnd & Hne & Hget).
      exists copied. split; [reflexivity|]. split; [|split].
      * intros H. apply Hnd. now apply dict_set_nodup.
      * intros _. apply Hne. destruct existing_post as [|[k0 v0] e]; simpl;
          [discriminate|destruct (String.eqb field k0); discriminate].
      * intros k. rewrite Hget, dict_get_set.
        destruct (String.eqb_spec k field) as [->|Hne']; simpl.
        -- rewrite Hd. now destruct (mem field fields).
        -- reflexivity.
    + destruct (IH existing_post) as (copied & -> & Hnd & Hne & Hget).
      exists copied. split; [reflexivity|]. split; [exact Hnd|]. split; [exact Hne|].
      intros k. rewrite Hget.
      destruct (String.eqb_spec k field) as [->|Hne']; simpl; [|reflexivity].
      rewrite Hd. now destruct (mem field fields).
Qed.

(** X20.  PUT /api/posts/<post_id> with a JSON object as body, on a stored post:
    the answer is 200.  Of the keys of the body only content, hashtags,
    call_to_action and scheduled_date are copied to the post; every other
    key of the stored post (its id, status, business_id, ...) keeps its
    value whatever the body holds.  The post shown in the answer carries
    the time read in the route as updated_at, the post stored the time read
    in the store; they agree on every other key. *)
Theorem put_post_copies_allowed_fields (post_id : string) (d : dict Json)
        (now now' : string) (posts : File) (old : dict Json) :
  d <> [] ->
  get_post post_id posts = Some old ->
  old <> [] ->
  NoDup (dict_keys old) ->
  exists shown new posts',
    Api.update_post post_id (JObject d) now now' posts = (Api.Done shown, posts')
    /\ get_post post_id posts' = Some new
    /\ dict_get "updated_at" shown = Some (JStr now)
    /\ dict_get "updated_at" new = Some (JStr now')
    /\ (forall k, k <> "updated_at" ->
          dict_get k new = dict_get k shown
          /\ dict_get k shown
             = if mem k Api.updatable_fields
               then match dict_get k d with
                    | Some v => Some v
                    | None => dict_get k old
                    end
               else dict_get k old)
    /\ (forall other, other <> post_id -> get_post other posts' = get_post other posts).
Proof.
  intros Hd Hold Hne Hnd. unfold Api.update_post.
  assert (Htruthy : json_truthy (JObject d) = true) by (destruct d; [congruence|reflexivity]).
  rewrite Htruthy, Hold. cbn [negb].
  assert (Hold_truthy : truthy old = true) by (destruct old; [congruence|reflexivity]).
  rewrite Hold_truthy. cbn [negb].
  destruct (copy_fields_object Api.updatable_fields d old)
    as (copied & -> & Hcnd & _ & Hcopied).
  specialize (Hcnd Hnd).
  set (shown := dict_set "updated_at" (JStr now) copied).
  assert (Hsnd : NoDup (dict_keys shown)) by now apply dict_set_nodup.
  destruct (update_post_spec post_id shown now' posts old Hsnd Hold)
    as (new & posts' & Hup & Hget & Hat & Hkeys & Hframe).
  rewrite Hup. exists shown, new, posts'.
  split; [reflexivity|]. split; [exact Hget|].
  split; [apply dict_get_set_same|]. split; [exact Hat|]. split; [|exact Hframe].
  intros k Hk.
  assert (Hshown : dict_get k shown
                   = if mem k Api.updatable_fields
                     then match dict_get k d with
                          | Some v => Some v
                          | None => dict_get k old
                          end
                     else dict_get k old).
  { unfold shown. rewrite dict_get_set_other by assumption. apply Hcopied. }
  split; [|exact Hshown].
  rewrite (Hkeys k Hk), Hshown.
  destruct (mem k Api.updatable_fields); [destruct (dict_get k d); [reflexivity|]|];
    now destruct (dict_get k old).
Qed.

(** X20 at a body with a content and a status: only the content is copied. *)
Lemma put_post_copies_allowed_fields_witness :
  exists shown new posts',
    Api.update_post "p1" (JObject [("content", JStr "New text"); ("status", JStr "published")])
      "t1" "t2" [("p1", [("id", JStr "p1"); ("content", JStr "Old"); ("status", JStr "draft")])]
    = (Api.Done shown, posts')
    /\ get_post "p1" posts' = Some new
    /\ dict_get "status" new = Some (JStr "draft")
    /\ dict_get "content" new = Some (JStr "New text").
Proof.
  destruct (put_post_copies_allowed_fields "p1"
              [("content", JStr "New text"); ("status", JStr "published")] "t1" "t2"
              [("p1", [("id", JStr "p1"); ("content", JStr "Old"); ("status", JStr "draft")])]
              [("id", JStr "p1"); ("content", JStr "Old"); ("status", JStr "draft")])
    as (shown & new & posts' & Hput & Hget & _ & _ & Hkeys & _).
  - discriminate.
  - reflexivity.
  - discriminate.
  - apply distinct_NoDup. reflexivity.
  - exists shown, new, posts'. split; [exact Hput|]. split; [exact Hget|].
    destruct (Hkeys "status" ltac:(discriminate)) as [-> ->].
    destruct (Hkeys "content" ltac:(discriminate)) as [-> ->].
    split; reflexivity.
Defined.

(** X21.  PUT /api/posts/<post_id>, whatever JSON value [get_json] returned
    as the body: a request that is not answered with 200 changes nothing in
    the store, and no request changes or removes a post stored under
    another id.  A body that is null, false, 0, or an empty string, array or
    object is answered 400; an id that is not stored, or stored with an
    empty object, 404; a body that is a number or a boolean, on a stored
    post, 500, since the field test raises TypeError. *)
Theorem put_post_rejections (post_id : string) (data : Json) (now now' : string)
        (posts : File) :
  exists reply posts',
    Api.update_post post_id data now now' posts = (reply, posts')
    /\ (forall other, other <> post_id -> get_post other posts' = get_post other posts)
    /\ match reply with
       | Api.Done _ => True
       | _ => posts' = posts
       end
    /\ (json_truthy data = false -> reply = Api.BadRequest "No data provided")
    /\ (json_truthy data = true ->
        (get_post post_id posts = None \/ get_post post_id posts = Some []) ->
        reply = Api.NotFound "Post not found")
    /\ (json_truthy data = true ->
        (exists old, get_post post_id posts = Some old /\ old <> []) ->
        match data with
        | JBool _ | JInt _ | JFloat _ => reply = Api.Failed Api.TypeError
        | _ => True
        end).
Proof.
  unfold Api.update_post.
  destruct (json_truthy data) eqn:Htruthy; cbn [negb].
  2:{ exists (Api.BadRequest "No data provided"), posts.
      split; [reflexivity|]. split; [reflexivity|]. split; [reflexivity|].
      split; [reflexivity|]. split; discriminate. }
  destruct (get_post post_id posts) as [old|] eqn:Hold.
  2:{ exists (Api.NotFound "Post not found"), posts.
      split; [reflexivity|]. split; [reflexivity|]. split; [reflexivity|].
      split; [discriminate|]. split; [reflexivity|].
      intros _ (old & Hsome & _). discriminate. }
  destruct old as [|entry old]; cbn [truthy negb].
  { exists (Api.NotFound "Post not found"), posts.
    split; [reflexivity|]. split; [reflexivity|]. split; [reflexivity|].
    split; [discriminate|]. split; [reflexivity|].
    intros _ (old & Hsome & Hne). congruence. }
  destruct (Api.copy_fields Api.updatable_fields data (entry :: old)) as [e|copied] eqn:Hcopy.
  - exists (Api.Failed e), posts.
    split; [reflexivity|]. split; [reflexivity|]. split; [reflexivity|].
    split; [discriminate|]. split; [intros _ [H|H]; discriminate|].
    intros _ _. destruct data; try exact I; simpl in Hcopy; now injection Hcopy as <-.
  - unfold DataStorage.update_post. unfold get_post in Hold. rewrite Hold.
    eexists. eexists. split; [reflexivity|].
    split; [intros other Hne; unfold get_post; now apply dict_get_set_other|].
    split; [exact I|]. split; [discriminate|]. split; [intros _ [H|H]; discriminate|].
    intros _ _. destruct data; try exact I; simpl in Hcopy; discriminate.
Qed.


(** *** Storing the generated posts *)

Lemma store_generated_from business_id uuid4 clock generated_posts :
  forall i0 posts,
  (forall i j, (i0 <= i < j)%nat -> (j < i0 + length generated_posts)%nat ->
               uuid4 i <> uuid4 j) ->
  exists shown posts',
    Api.store_generated business_id generated_posts uuid4 clock i0 posts = (shown, posts')
    /\ length shown = length generated_posts
    /\ (forall i post,
          nth_error generated_posts i = Some post ->
          exists stored,
            nth_error shown i = Some stored
            /\ get_post (uuid4 (i0 + i)) posts' = Some stored
            /\ stored_as_draft business_id uuid4 clock (i0 + i) post stored)
    /\ (forall other,
          (forall i, (i < length generated_posts)%nat -> uuid4 (i0 + i) <> other) ->
          get_post other posts' = get_post other posts).
Proof.
  induction generated_posts as [|post rest IH]; intros i0 posts Hfresh.
  - exists [], posts. split; [reflexivity|]. split; [reflexivity|].
    split; [intros [|i] p H; discriminate H|reflexivity].
  - cbn [Api.store_generated]. unfold store_post.
    set (stored := dict_set "updated_at" _ _).
    set (posts1 := dict_set (uuid4 i0) stored posts).
    destruct (IH (S i0) posts1) as (shown & posts' & Hrun & Hlen & Hall & Hframe).
    { intros i j Hij Hj. apply Hfresh; [lia|]. simpl. lia. }
    rewrite Hrun. exists (stored :: shown), posts'.
    split; [reflexivity|]. split; [simpl; now rewrite Hlen|]. split.
    + intros [|i] p Hp; simpl in Hp.
      * injection Hp as <-. exists stored. split; [reflexivity|].
        rewrite Nat.add_0_r. split.
        -- rewrite Hframe.
           ++ unfold posts1, get_post. apply dict_get_set_same.
           ++ intros i Hi. apply not_eq_sym. apply Hfresh; [lia|]. simpl. lia.
        -- unfold stored_as_draft, stored. rewrite !dict_get_set.
           repeat split; try reflexivity.
           intros k Hk. unfold draft_key in Hk.
           repeat (apply orb_false_iff in Hk as [Hk ?]).
           rewrite !dict_get_set.
           repeat match goal with H : String.eqb k _ = false |- _ => rewrite H; clear H end.
           reflexivity.
      * destruct (Hall i p Hp) as (st & Hn & Hg & Hd).
        exists st. replace (i0 + S i)%nat with (S i0 + i)%nat by lia.
        split; [exact Hn|]. split; assumption.
    + intros other Hother. rewrite Hframe.
      * unfold posts1, get_post. apply dict_get_set_other.
        specialize (Hother 0%nat ltac:(simpl; lia)). rewrite Nat.add_0_r in Hother.
        congruence.
      * intros i Hi. replace (S i0 + i)%nat with (i0 + S i)%nat by lia.
        apply Hother. simpl. lia.
Qed.

(** X22.  POST /api/content/generate stores every generated post: when the
    identifiers drawn are distinct, the [i]-th post is stored under the
    [i]-th identifier with that id, the business id of the request and
    status 'draft', and with every key the generator gave it unchanged; the
    post listed in the answer is the post stored.  The created_at written
    by the route is replaced by the one [store_post] writes.  Posts stored
    under other ids are not touched. *)
Theorem generated_posts_stored_as_drafts (business_id : string)
        (generated_posts : list (dict Json)) (uuid4 clock : nat -> string) (posts : File) :
  (forall i j, (i < j < length generated_posts)%nat -> uuid4 i <> uuid4 j) ->
  exists shown posts',
    Api.store_generated business_id generated_posts uuid4 clock 0 posts = (shown, posts')
    /\ length shown = length generated_posts
    /\ (forall i post,
          nth_error generated_posts i = Some post ->
          exists stored,
            nth_error shown i = Some stored
            /\ get_post (uuid4 i) posts' = Some stored
            /\ stored_as_draft business_id uuid4 clock i post stored)
    /\ (forall other,
          (forall i, (i < length generated_posts)%nat -> uuid4 i <> other) ->
          get_post other posts' = get_post other posts).
Proof.
  intros Hfresh.
  destruct (store_generated_from business_id uuid4 clock generated_posts 0 posts)
    as (shown & posts' & Hrun & Hlen & Hall & Hframe).
  { intros i j Hij Hj. apply Hfresh. lia. }
  exists shown, posts'. repeat split; assumption.
Qed.

(** X22 at two posts. *)
Lemma generated_posts_stored_as_drafts_witness :
  exists shown posts',
    Api.store_generated "b1" [[("content", JStr "first")]; [("content", JStr "second")]]
      (fun i => if Nat.eqb i 0 then "u0" else "u1")
      (fun k => if Nat.ltb k 3 then "t0" else "t1") 0 []
    = (shown, posts')
    /\ exists stored,
         get_post "u1" posts' = Some stored
         /\ dict_get "status" stored = Some (JStr "draft")
         /\ dict_get "content" stored = Some (JStr "second").
Proof.
  destruct (generated_posts_stored_as_drafts "b1"
              [[("content", JStr "first")]; [("content", JStr "second")]]
              (fun i => if Nat.eqb i 0 then "u0" else "u1")
              (fun k => if Nat.ltb k 3 then "t0" else "t1") [])
    as (shown & posts' & Hrun & _ & Hall & _).
  - intros i j Hij. simpl in Hij.
    assert (i = 0%nat) by lia. assert (j = 1%nat) by lia. subst. discriminate.
  - exists shown, posts'. split; [exact Hrun|].
    destruct (Hall 1%nat [("content", JStr "second")] eq_refl)
      as (stored & _ & Hget & _ & _ & Hstatus & _ & _ & Hkeys).
    exists stored. split; [exact Hget|]. split; [exact Hstatus|].
    now rewrite (Hkeys "content") by reflexivity.
Defined.

(** *** Marking the scheduled posts *)

Lemma update_post_by_frame post_id updates now posts other :
  post_id <> JStr other ->
  get_post other (snd (Api.update_post_by post_id updates now posts)) = get_post other posts.
Proof.
  intros Hne. destruct post_id; try reflexivity. simpl.
  unfold DataStorage.update_post. destruct (dict_get s posts); [|reflexivity].
  simpl. unfold get_post. apply dict_get_set_other. congruence.
Qed.

Lemma mark_scheduled_frame clock schedule : forall k posts other,
  ~ In (JStr other) (scheduled_ids schedule) ->
  get_post other (snd (Api.mark_scheduled schedule clock k posts)) = get_post other posts.
Proof.
  induction schedule as [|[day slot] rest IH]; intros k posts other Hother; [reflexivity|].
  unfold scheduled_ids in Hother. cbn [flat_map snd] in Hother.
  rewrite in_app_iff in Hother. fold (scheduled_ids rest) in Hother.
  cbn [Api.mark_scheduled]. unfold slot_id in Hother.
  destruct (slot_post slot) as [[|entry post]|].
  - specialize (IH k posts other ltac:(tauto)).
    destruct (Api.mark_scheduled rest clock k posts) as [[e|shown] posts']; exact IH.
  - destruct (dict_get "id" (entry :: post)) as [post_id|]; [|reflexivity].
    match goal with
    | |- context [Api.update_post_by ?i ?u ?n ?p] =>
        pose proof (update_post_by_frame i u n p other) as Hup;
        destruct (Api.update_post_by i u n p) as [found posts1]
    end.
    simpl in Hup. rewrite <- Hup by (intros ->; apply Hother; left; now left).
    match goal with
    | |- context [Api.mark_scheduled rest clock ?k' posts1] =>
        specialize (IH k' posts1 other ltac:(tauto));
        destruct (Api.mark_scheduled rest clock k' posts1) as [[e|shown] posts']
    end; exact IH.
  - specialize (IH k posts other ltac:(tauto)).
    destruct (Api.mark_scheduled rest clock k posts) as [[e|shown] posts']; exact IH.
Qed.

Lemma update_post_by_marks s post date now posts old :
  NoDup (dict_keys post) ->
  get_post s posts = Some old ->
  marked s date
    (snd (Api.update_post_by (JStr s)
            (dict_set "scheduled_date" (JStr date) (dict_set "status" (JStr "scheduled") post))
            now posts)).
Proof.
  intros Hnd Hold. cbn [Api.update_post_by].
  set (updates := dict_set "scheduled_date" _ _).
  assert (Hund : NoDup (dict_keys updates)) by (unfold updates; now do 2 apply dict_set_nodup).
  destruct (update_post_spec s updates now posts old Hund Hold)
    as (new & posts' & -> & Hget & _ & Hkeys & _).
  exists new. split; [exact Hget|]. split.
  - rewrite (Hkeys "status") by discriminate. unfold updates. now rewrite !dict_get_set.
  - rewrite (Hkeys "scheduled_date") by discriminate. unfold updates.
    now rewrite !dict_get_set.
Qed.

Lemma mark_scheduled_from clock schedule : forall k posts,
  NoDup (scheduled_ids schedule) ->
  posts_identified schedule ->
  exists shown posts',
    Api.mark_scheduled schedule clock k posts = (inr shown, posts')
    /\ map fst shown = map fst schedule
    /\ forall day slot entry post s old,
         In (day, slot) schedule ->
         slot_post slot = Some (entry :: post) ->
         dict_get "id" (entry :: post) = Some (JStr s) ->
         get_post s posts = Some old ->
         marked s (slot_date slot) posts'.
Proof.
  induction schedule as [|[day0 slot0] rest IH]; intros k posts Hnd Hid.
  - exists [], posts. split; [reflexivity|]. split; [reflexivity|]. intros ? ? ? ? ? ? [].
  - assert (Hid' : posts_identified rest).
    { intros day slot post Hin. apply (Hid day slot post). now right. }
    unfold scheduled_ids in Hnd. cbn [flat_map snd] in Hnd. fold (scheduled_ids rest) in Hnd.
    pose proof (NoDup_app_remove_l _ _ Hnd) as Hnd'.
    cbn [Api.mark_scheduled]. unfold slot_id in Hnd.
    destruct (slot_post slot0) as [[|entry0 post0]|] eqn:Hpost0.
    + destruct (IH k posts Hnd' Hid') as (shown & posts' & -> & Hkeys & Hall).
      eexists. eexists. split; [reflexivity|]. split; [simpl; now rewrite Hkeys|].
      intros day slot entry post s old [[= <- <-]|Hin] Hp; [congruence|].
      now apply (Hall day slot entry post s old).
    + destruct (Hid day0 slot0 (entry0 :: post0) ltac:(now left) Hpost0 ltac:(discriminate))
        as [Hsome Hkeys0].
      destruct (dict_get "id" (entry0 :: post0)) as [post_id|] eqn:Hid0; [|congruence].
      set (updates := dict_set "scheduled_date" _ _).
      pose proof (fun other => update_post_by_frame post_id updates (clock k) posts other)
        as Hframe1.
      pose proof (fun s old => update_post_by_marks s (entry0 :: post0) (slot_date slot0)
                                 (clock k) posts old Hkeys0) as Hmark1.
      fold updates in Hmark1.
      destruct (Api.update_post_by post_id updates (clock k) posts) as [found posts1]
        eqn:Hup.
      cbn [snd] in Hframe1.
      set (k' := if found then S k else k).
      destruct (IH k' posts1 Hnd' Hid') as (shown & posts' & Hrun & Hkeys & Hall).
      rewrite Hrun. eexists. eexists. split; [reflexivity|].
      split; [simpl; now rewrite Hkeys|].
      pose proof (mark_scheduled_frame clock rest k' posts1) as Hframe.
      rewrite Hrun in Hframe. cbn [snd] in Hframe.
      intros day slot entry post s old [[= <- <-]|Hin] Hp Hs Hold.
      * rewrite Hpost0 in Hp. injection Hp as <- <-. rewrite Hid0 in Hs.
        injection Hs as ->.
        specialize (Hmark1 s old Hold). rewrite Hup in Hmark1. cbn [snd] in Hmark1.
        destruct Hmark1 as (new & Hget & Hst & Hdate).
        exists new. split; [|now split].
        rewrite Hframe; [exact Hget|].
        intros Hin. cbn [app] in Hnd. inversion Hnd as [|? ? Hnotin _]. contradiction.
      * apply (Hall day slot entry post s old Hin Hp Hs).
        rewrite Hframe1; [exact Hold|].
        intros ->. cbn [app] in Hnd. inversion Hnd as [|? ? Hnotin _]. apply Hnotin.
        unfold scheduled_ids. apply in_flat_map. exists (day, slot). split; [exact Hin|].
        unfold slot_id. cbn [snd]. rewrite Hp, Hs. now left.
    + destruct (IH k posts Hnd' Hid') as (shown & posts' & -> & Hkeys & Hall).
      eexists. eexists. split; [reflexivity|]. split; [simpl; now rewrite Hkeys|].
      intros day slot entry post s old [[= <- <-]|Hin] Hp; [congruence|].
      now apply (Hall day slot entry post s old).
Qed.

(** X23.  The loop that follows the scheduler, on any schedule whose posts are
    dicts with distinct ids: it does not raise, and every scheduled post
    that is in the store under its id is stored afterwards with status
    'scheduled' and with the date of its slot as scheduled_date.  A post
    stored under an id that is in no slot is not touched. *)
Theorem scheduled_posts_marked (schedule : dict (Slot (dict Json)))
        (clock : nat -> string) (k : nat) (posts : File) :
  NoDup (scheduled_ids schedule) ->
  posts_identified schedule ->
  exists shown posts',
    Api.mark_scheduled schedule clock k posts = (inr shown, posts')
    /\ map fst shown = map fst schedule
    /\ (forall day slot post s old,
          In (day, slot) schedule ->
          slot_post slot = Some post -> post <> [] ->
          dict_get "id" post = Some (JStr s) ->
          get_post s posts = Some old ->
          exists new,
            get_post s posts' = Some new
            /\ dict_get "status" new = Some (JStr "scheduled")
            /\ dict_get "scheduled_date" new = Some (JStr (slot_date slot)))
    /\ (forall other,
          ~ In (JStr other) (scheduled_ids schedule) ->
          get_post other posts' = get_post other posts).
Proof.
  intros Hnd Hid.
  destruct (mark_scheduled_from clock schedule k posts Hnd Hid)
    as (shown & posts' & Hrun & Hkeys & Hall).
  exists shown, posts'. split; [exact Hrun|]. split; [exact Hkeys|]. split.
  - intros day slot post s old Hin Hp Hne Hs Hold.
    destruct post as [|entry post]; [congruence|].
    exact (Hall day slot entry post s old Hin Hp Hs Hold).
  - intros other Hother.
    pose proof (mark_scheduled_frame clock schedule k posts other Hother) as Hframe.
    now rewrite Hrun in Hframe.
Qed.

(** X23 at a monday slot. *)
Lemma scheduled_posts_marked_witness :
  exists shown posts',
    Api.mark_scheduled
      [("monday",
        {| slot_date := "2025-08-04";
           slot_post := Some [("id", JStr "p1"); ("status", JStr "draft")];
           suggested_time := Some "12:00 PM"; day_of_week := "Monday" |})]
      (fun _ => "t") 0 [("p1", [("id", JStr "p1"); ("status", JStr "draft")])]
    = (inr shown, posts')
    /\ exists new,
         get_post "p1" posts' = Some new
         /\ dict_get "scheduled_date" new = Some (JStr "2025-08-04").
Proof.
  destruct (scheduled_posts_marked
              [("monday",
                {| slot_date := "2025-08-04";
                   slot_post := Some [("id", JStr "p1"); ("status", JStr "draft")];
                   suggested_time := Some "12:00 PM"; day_of_week := "Monday" |})]
              (fun _ => "t") 0 [("p1", [("id", JStr "p1"); ("status", JStr "draft")])])
    as (shown & posts' & Hrun & _ & Hall & _).
  - repeat constructor. intros [].
  - intros day slot post [[= <- <-]|[]] [= <-] _. split; [discriminate|].
    apply distinct_NoDup. reflexivity.
  - exists shown, posts'. split; [exact Hrun|].
    destruct (Hall "monday" _ _ "p1" _ ltac:(now left) eq_refl ltac:(discriminate)
                eq_refl eq_refl) as (new & Hget & _ & Hdate).
    exists new. split; assumption.
Defined.


(** *** The schedule route: from the drafts to the store *)

Section RouteSchedule.
Context (best_time_of : dict Json -> option string).

Lemma in_scheduled_ids_week start posting_days (posts : list (dict Json)) rest :
  forall i v,
  In v (scheduled_ids (week_from best_time_of start posting_days posts i rest)) ->
  exists day j post,
    In day rest
    /\ post_index_of posting_days posts day = Some j
    /\ nth_error posts j = Some post
    /\ dict_get "id" post = Some v.
Proof.
  induction rest as [|d rest IH]; intros i v Hin; [destruct Hin|].
  unfold scheduled_ids in Hin. cbn [week_from flat_map snd] in Hin.
  fold (scheduled_ids (week_from best_time_of start posting_days posts (S i) rest)) in Hin.
  apply in_app_iff in Hin as [Hin|Hin].
  - unfold slot_id, slot_for in Hin. cbn [slot_post] in Hin.
    destruct (post_index_of posting_days posts d) as [j|] eqn:Hj; [|destruct Hin].
    destruct (nth_error posts j) as [[|entry post]|] eqn:Hp; try destruct Hin.
    destruct (dict_get "id" (entry :: post)) as [post_id|] eqn:Hid; [|destruct Hin].
    destruct Hin as [<-|[]].
    exists d, j, (entry :: post). repeat split; try assumption. now left.
  - destruct (IH _ _ Hin) as (day & j & post & Hday & Hj & Hp & Hid).
    exists day, j, post. repeat split; try assumption. now right.
Qed.

Lemma week_ids_nodup start posting_days (posts : list (dict Json)) rest :
  NoDup rest ->
  NoDup (map (dict_get "id") posts) ->
  forall i, NoDup (scheduled_ids (week_from best_time_of start posting_days posts i rest)).
Proof.
  intros Hrest Hids. induction Hrest as [|d rest Hnotin Hrest IH]; intros i; [constructor|].
  unfold scheduled_ids. cbn [week_from flat_map snd].
  fold (scheduled_ids (week_from best_time_of start posting_days posts (S i) rest)).
  unfold slot_id at 1, slot_for. cbn [slot_post].
  destruct (post_index_of posting_days posts d) as [j|] eqn:Hj; [|apply IH].
  destruct (nth_error posts j) as [[|entry post]|] eqn:Hp; try apply IH.
  destruct (dict_get "id" (entry :: post)) as [post_id|] eqn:Hid; [|apply IH].
  cbn [app]. constructor; [|apply IH].
  intros Hin. apply in_scheduled_ids_week in Hin
    as (day & j' & post' & Hday & Hj' & Hp' & Hid').
  assert (Hjj : j = j').
  { apply (proj1 (NoDup_nth_error (map (dict_get "id") posts)) Hids).
    - rewrite length_map. apply nth_error_Some. congruence.
    - rewrite !nth_error_map, Hp, Hp'. cbn [option_map]. now rewrite Hid, Hid'. }
  subst j'.
  apply post_index_spec in Hj as [Hj _]. apply post_index_spec in Hj' as [Hj' _].
  apply index_nth_error in Hj as [Hj _]. apply index_nth_error in Hj' as [Hj' _].
  assert (d = day) by congruence. subst. contradiction.
Qed.

Lemma week_posts_identified start posting_days (posts : list (dict Json)) :
  (forall post, In post posts -> dict_get "id" post <> None /\ NoDup (dict_keys post)) ->
  posts_identified (week best_time_of start posting_days posts).
Proof.
  intros Hposts day slot post Hin Hp _. unfold week in Hin.
  apply week_from_In in Hin as (k & _ & ->). unfold slot_for in Hp. cbn [slot_post] in Hp.
  destruct (post_index_of posting_days posts day) as [j|]; [|discriminate].
  apply Hposts. exact (nth_error_In _ _ Hp).
Qed.

End RouteSchedule.

(** X24.  POST /api/planner/schedule, from the drafts to the store.  With
    preferred days that are distinct days of the week (or none) and
    0 <= frequency <= len(drafts), the route is not answered 400, the
    scheduler returns, and the loop that follows does not raise.  For every
    [i] below min(frequency, 7) the [i]-th draft is stored afterwards with
    status 'scheduled' and, as scheduled_date, the date of the slot of the
    [i]-th posting day.  Every other draft, and every post stored under an
    id that is not a draft's, is stored as before. *)
Theorem schedule_route_marks_drafts (best_time_of : dict Json -> option string)
        (draft_posts : list (dict Json)) (frequency : Z) (preferred_days : list string)
        (start_date : option string) (now start : date) (clock : nat -> string)
        (posts : File) :
  NoDup preferred_days -> incl preferred_days days ->
  (0 <= frequency <= Z.of_nat (length draft_posts))%Z ->
  valid_date now = true ->
  start_of (Some (match start_date with Some s => s | None => strftime_ymd now end)) now
  = Ok start ->
  (ymd2ord start + 6 <= MAXORDINAL)%Z ->
  stored_drafts draft_posts posts ->
  let posting_days := posting_days_of frequency preferred_days in
  exists schedule shown posts',
    App.create_weekly_schedule best_time_of draft_posts frequency preferred_days
      start_date now = App.Success schedule
    /\ Api.mark_scheduled schedule clock 0 posts = (inr shown, posts')
    /\ (forall i draft s,
          nth_error draft_posts i = Some draft ->
          dict_get "id" draft = Some (JStr s) ->
          ((i < Nat.min (Z.to_nat frequency) 7)%nat ->
           exists day slot new,
             nth_error posting_days i = Some day
             /\ In (day, slot) schedule
             /\ get_post s posts' = Some new
             /\ dict_get "status" new = Some (JStr "scheduled")
             /\ dict_get "scheduled_date" new = Some (JStr (slot_date slot)))
          /\ ((Nat.min (Z.to_nat frequency) 7 <= i)%nat ->
              get_post s posts' = Some draft))
    /\ (forall other,
          (forall draft, In draft draft_posts -> dict_get "id" draft <> Some (JStr other)) ->
          get_post other posts' = get_post other posts).
Proof.
  intros Hnd Hincl [Hf0 Hf] Hnow Hs Hhi [Hids Hdrafts] posting_days.
  pose proof (ymd2ord_pos _ (start_of_valid _ _ _ Hnow Hs)) as Hlo.
  set (chosen := firstn (Z.to_nat frequency) draft_posts).
  assert (Hslice : slice_to draft_posts frequency = chosen).
  { unfold slice_to. now destruct (Z.leb_spec 0 frequency); [|lia]. }
  assert (Hlen : length chosen = Z.to_nat frequency).
  { unfold chosen. rewrite length_firstn. lia. }
  destruct (posting_days_distinct frequency preferred_days Hnd Hincl) as (Hpn & Hpi & Hpl).
  fold posting_days in Hpn, Hpi, Hpl. specialize (Hpl Hf0).
  set (schedule := week best_time_of start posting_days chosen).
  assert (Hroute : App.create_weekly_schedule best_time_of draft_posts frequency
                     preferred_days start_date now = App.Success schedule).
  { unfold App.create_weekly_schedule.
    destruct (Z.ltb_spec (Z.of_nat (length draft_posts)) frequency); [lia|].
    rewrite Hslice.
    now rewrite (create_weekly_schedule_returns best_time_of chosen frequency preferred_days
                   _ now start Hs Hlo Hhi). }
  assert (Hchosen_ids : NoDup (map (dict_get "id") chosen)).
  { unfold chosen. rewrite <- firstn_map. now apply NoDup_firstn. }
  assert (Hchosen_in : forall post, In post chosen -> In post draft_posts).
  { intros post Hp. unfold chosen in Hp. now apply incl_firstn in Hp. }
  assert (Hsched_ids : NoDup (scheduled_ids schedule)).
  { apply week_ids_nodup; [exact days_nodup|exact Hchosen_ids]. }
  assert (Hident : posts_identified schedule).
  { apply week_posts_identified. intros post Hp.
    destruct (Hdrafts post (Hchosen_in _ Hp)) as (_ & Hk & s & Hid & _).
    split; [congruence|exact Hk]. }
  destruct (mark_scheduled_from clock schedule 0 posts Hsched_ids Hident)
    as (shown & posts' & Hrun & _ & Hall).
  pose proof (mark_scheduled_frame clock schedule 0 posts) as Hframe.
  rewrite Hrun in Hframe. cbn [snd] in Hframe.
  assert (Hnot : forall other,
             (forall j post, (j < Nat.min (Z.to_nat frequency) 7)%nat ->
                             nth_error draft_posts j = Some post ->
                             dict_get "id" post <> Some (JStr other)) ->
             ~ In (JStr other) (scheduled_ids schedule)).
  { intros other Hother Hin. unfold schedule, week in Hin.
    apply in_scheduled_ids_week in Hin as (day & j & post & _ & Hj & Hp & Hid).
    apply post_index_spec in Hj as [Hj Hjlt]. apply index_nth_error in Hj as [Hj _].
    assert (Hjpd : (j < length posting_days)%nat) by (apply nth_error_Some; congruence).
    apply (Hother j post); [lia| |exact Hid].
    unfold chosen in Hp. rewrite nth_error_firstn in Hp.
    now destruct (Nat.ltb_spec j (Z.to_nat frequency)). }
  exists schedule, shown, posts'. split; [exact Hroute|]. split; [exact Hrun|]. split.
  - intros i draft s Hi Hid.
    destruct (Hdrafts draft (nth_error_In _ _ Hi)) as (Hne & _ & s' & Hid' & Hstored).
    assert (s' = s) by congruence. subst s'. split.
    + intros Hlt.
      assert (Hci : nth_error chosen i = Some draft).
      { unfold chosen. rewrite nth_error_firstn.
        now destruct (Nat.ltb_spec i (Z.to_nat frequency)); [|lia]. }
      destruct (nth_error posting_days i) as [day|] eqn:Hday.
      2:{ apply nth_error_None in Hday. lia. }
      destruct (week_distinct best_time_of start posting_days chosen Hpn Hpi) as [_ Hslot].
      destruct (Hslot i draft day Hci Hday) as (slot & Hin & Hp & _).
      destruct draft as [|entry draft]; [congruence|].
      destruct (Hall day slot entry draft s _ Hin Hp Hid Hstored) as (new & Hget & Hst & Hdt).
      now exists day, slot, new.
    + intros Hge. rewrite Hframe; [exact Hstored|].
      apply Hnot. intros j post Hj Hp Hpid.
      assert (j = i); [|lia].
      apply (proj1 (NoDup_nth_error (map (dict_get "id") draft_posts)) Hids).
      * rewrite length_map. apply nth_error_Some. congruence.
      * rewrite !nth_error_map, Hp, Hi. cbn [option_map]. now rewrite Hpid, Hid.
  - intros other Hother. apply Hframe. apply Hnot.
    intros j post _ Hp. apply Hother. exact (nth_error_In _ _ Hp).
Qed.

(** X24 at one stored draft and frequency 1. *)
Lemma schedule_route_marks_drafts_witness :
  exists schedule shown posts',
    App.create_weekly_schedule (fun _ : dict Json => None)
      [[("id", JStr "p1"); ("status", JStr "draft")]] 1 [] (Some "2025-08-04")
      (mkdate 2025 8 1) = App.Success schedule
    /\ Api.mark_scheduled schedule (fun _ => "t") 0
         [("p1", [("id", JStr "p1"); ("status", JStr "draft")])] = (inr shown, posts')
    /\ exists new,
         get_post "p1" posts' = Some new
         /\ dict_get "status" new = Some (JStr "scheduled")
         /\ dict_get "scheduled_date" new = Some (JStr "2025-08-04").
Proof.
  destruct (schedule_route_marks_drafts (fun _ : dict Json => None)
              [[("id", JStr "p1"); ("status", JStr "draft")]] 1 [] (Some "2025-08-04")
              (mkdate 2025 8 1) (mkdate 2025 8 4) (fun _ => "t")
              [("p1", [("id", JStr "p1"); ("status", JStr "draft")])])
    as (schedule & shown & posts' & Hroute & Hrun & Hall & _).
  - constructor.
  - intros d [].
  - simpl. lia.
  - reflexivity.
  - reflexivity.
  - vm_compute. discriminate.
  - split; [repeat constructor; intros []|].
    intros draft [<-|[]]. split; [discriminate|]. split; [apply distinct_NoDup; reflexivity|].
    exists "p1". split; reflexivity.
  - exists schedule, shown, posts'. split; [exact Hroute|]. split; [exact Hrun|].
    destruct (Hall 0%nat _ "p1" eq_refl eq_refl) as [Hmarked _].
    destruct (Hmarked ltac:(simpl; lia)) as (day & slot & new & Hday & Hin & Hget & Hst & Hdt).
    exists new. split; [exact Hget|]. split; [exact Hst|].
    rewrite Hdt. do 2 f_equal.
    cbv in Hday. injection Hday as <-.
    unfold App.create_weekly_schedule in Hroute. vm_compute in Hroute.
    injection Hroute as <-.
    destruct Hin as [Hin|Hin]; [now injection Hin as <-|].
    repeat (destruct Hin as [Hin|Hin]; [discriminate Hin|]). destruct Hin.
Defined.


(** *** The tone classifier *)

(** X1.  [_analyze_tone] returns 'professional' when no tone keyword occurs in
    the text; otherwise it returns the tone whose keywords occur most, and
    on a tie the one that comes first in the order professional, friendly,
    casual, premium. *)
Theorem analyze_tone_first_maximum (text : string) :
  dict_keys tone_indicators = ["professional"; "friendly"; "casual"; "premium"]
  /\ ((_analyze_tone text = Ok "professional"
       /\ forall e kw, In e tone_indicators -> In kw (snd e) -> ~ occurs kw text)
      \/ exists winner,
           _analyze_tone text = Ok winner /\ winner_of tone_indicators text winner).
Proof.
  split; [reflexivity|].
  change (_analyze_tone text) with (pick tone_indicators text "professional").
  destruct (pick_cases tone_indicators text "professional" tone_keys_nodup)
    as [[Hpick Hzero]|Hwin]; [left|now right].
  split; [exact Hpick|].
  intros e kw He Hkw Hocc.
  assert (Hpos : (0 < keyword_score (snd e) text)%nat)
    by (apply keyword_score_positive; now exists kw).
  rewrite (Hzero e He) in Hpos. lia.
Qed.

(** *** The schedule route: start date and frequency at the edges *)

(** X15.  POST /api/planner/schedule without a start date: the route passes
    today's date, written as YYYY-MM-DD, and the scheduler reads it back as
    today (years of four digits), so the week starts today: with enough
    drafts the answer is a schedule whose [i]-th slot is dated today plus
    [i] days. *)
Theorem route_week_starts_today {P : Type} (best_time_of : P -> option string)
        (draft_posts : list P) (frequency : Z) (preferred_days : list string)
        (now : date) :
  valid_date now = true -> (1000 <= year now)%Z ->
  (frequency <= Z.of_nat (length draft_posts))%Z ->
  (ymd2ord now + 6 <= MAXORDINAL)%Z ->
  strptime_ymd (strftime_ymd now) = Ok now
  /\ exists schedule,
       App.create_weekly_schedule best_time_of draft_posts frequency preferred_days
         None now = App.Success schedule
       /\ forall i, (i < 7)%nat ->
            exists day slot d,
              nth_error schedule i = Some (day, slot)
              /\ add_days now (Z.of_nat i) = Ok d
              /\ slot_date slot = strftime_ymd d.
Proof.
  intros Hnow _ Hf Hhi.
  pose proof (strptime_strftime now Hnow) as Hround. split; [exact Hround|].
  pose proof (ymd2ord_pos _ Hnow) as Hlo.
  assert (Hs : start_of (Some (strftime_ymd now)) now = Ok now).
  { unfold start_of. destruct (strftime_ymd now); [reflexivity|exact Hround]. }
  exists (week best_time_of now (posting_days_of frequency preferred_days)
            (slice_to draft_posts frequency)).
  split.
  - unfold App.create_weekly_schedule.
    destruct (Z.ltb_spec (Z.of_nat (length draft_posts)) frequency); [lia|].
    now rewrite (create_weekly_schedule_returns best_time_of _ frequency preferred_days
                   _ now now Hs Hlo Hhi).
  - intros i Hi.
    destruct (nth_error days i) as [day|] eqn:Hday.
    2:{ apply nth_error_None in Hday. simpl in Hday. lia. }
    exists day,
      (slot_for best_time_of now (posting_days_of frequency preferred_days)
         (slice_to draft_posts frequency) i day),
      (date_at now i).
    split; [|split].
    + unfold week. now rewrite (week_from_nth _ _ _ _ _ _ _ _ Hday).
    + apply add_days_in_range. now apply week_in_range.
    + reflexivity.
Qed.

(** X15 on Wednesday 2025-08-06. *)
Lemma route_week_starts_today_witness :
  exists schedule,
    App.create_weekly_schedule (fun _ : nat => None) [10; 20; 30]%nat 3 [] None
      (mkdate 2025 8 6) = App.Success schedule
    /\ option_map (fun entry => slot_date (snd entry)) (nth_error schedule 0)
       = Some "2025-08-06".
Proof.
  destruct (route_week_starts_today (fun _ : nat => None) [10; 20; 30]%nat 3 []
              (mkdate 2025 8 6) eq_refl ltac:(simpl; lia) ltac:(simpl; lia))
    as (_ & schedule & Hroute & Hdates).
  - vm_compute. discriminate.
  - exists schedule. split; [exact Hroute|].
    destruct (Hdates 0%nat ltac:(lia)) as (day & slot & d & Hnth & Hd & Hdate).
    rewrite Hnth. cbn [option_map snd]. rewrite Hdate.
    vm_compute in Hd. injection Hd as <-. reflexivity.
Defined.

Lemma slice_to_negative {A} (l : list A) (n : Z) :
  (n < 0)%Z -> slice_to l n = firstn (length l - Z.to_nat (- n)) l.
Proof.
  intros Hn. unfold slice_to. destruct (Z.leb_spec 0 n); [lia|].
  f_equal. lia.
Qed.

(** X16.  A negative frequency is not rejected, neither by the route nor by the
    scheduler: frequency -k leaves out the last k drafts and the last k
    preferred days (of monday, wednesday, friday when none are given) and
    schedules what is left.  With distinct preferred days the number of
    filled slots is the smaller of the two remaining lengths. *)
Theorem negative_frequency_not_rejected {P : Type} (best_time_of : P -> option string)
        (draft_posts : list P) (frequency : Z) (preferred_days : list string)
        (start_date : option string) (now start : date) :
  (frequency < 0)%Z ->
  NoDup preferred_days -> incl preferred_days days ->
  valid_date now = true ->
  start_of (Some (match start_date with Some s => s | None => strftime_ymd now end)) now
  = Ok start ->
  (ymd2ord start + 6 <= MAXORDINAL)%Z ->
  let preferred :=
    match preferred_days with
    | [] => ["monday"; "wednesday"; "friday"]
    | _ :: _ => preferred_days
    end in
  let k := Z.to_nat (- frequency) in
  exists schedule,
    App.create_weekly_schedule best_time_of draft_posts frequency preferred_days
      start_date now = App.Success schedule
    /\ posting_days_of frequency preferred_days = firstn (length preferred - k) preferred
    /\ filled_slots schedule
       = Nat.min (length draft_posts - k) (length preferred - k).
Proof.
  intros Hf Hnd Hincl Hnow Hs Hhi preferred k.
  pose proof (ymd2ord_pos _ (start_of_valid _ _ _ Hnow Hs)) as Hlo.
  assert (Hpref : days_or_default frequency preferred_days = preferred).
  { unfold days_or_default, preferred, default_days.
    destruct preferred_days; cbn [truthy negb]; [|reflexivity].
    now destruct (Z.leb_spec frequency 3); [|lia]. }
  assert (Hpd : posting_days_of frequency preferred_days
                = firstn (length preferred - k) preferred).
  { unfold posting_days_of. fold (days_or_default frequency preferred_days).
    rewrite Hpref, slice_to_negative by assumption. fold k.
    now destruct (Z.ltb_spec (Z.of_nat (length (firstn (length preferred - k) preferred)))
                    frequency); [lia|]. }
  destruct (posting_days_distinct frequency preferred_days Hnd Hincl) as (Hpn & Hpi & _).
  eexists. split; [|split; [exact Hpd|]].
  - unfold App.create_weekly_schedule.
    destruct (Z.ltb_spec (Z.of_nat (length draft_posts)) frequency); [lia|].
    now rewrite (create_weekly_schedule_returns best_time_of _ frequency preferred_days
                   _ now start Hs Hlo Hhi).
  - destruct (week_distinct best_time_of start (posting_days_of frequency preferred_days)
                (slice_to draft_posts frequency) Hpn Hpi) as [Hfilled _].
    rewrite Hfilled, Hpd, slice_to_negative by assumption. fold k.
    rewrite !length_firstn. lia.
Qed.

(** X16 at frequency -1 and three drafts: two are scheduled. *)
Lemma negative_frequency_not_rejected_witness :
  exists schedule,
    App.create_weekly_schedule (fun _ : nat => None) [10; 20; 30]%nat (-1) []
      (Some "2025-08-04") (mkdate 2025 8 4) = App.Success schedule
    /\ filled_slots schedule = 2%nat.
Proof.
  destruct (negative_frequency_not_rejected (fun _ : nat => None) [10; 20; 30]%nat (-1) []
              (Some "2025-08-04") (mkdate 2025 8 4) (mkdate 2025 8 4)
              ltac:(lia) ltac:(constructor) ltac:(intros d []) eq_refl eq_refl)
    as (schedule & Hroute & _ & Hfilled).
  - vm_compute. discriminate.
  - exists schedule. split; [exact Hroute|exact Hfilled].
Defined.

